(** * Crypto Intel Weekly: a model of [automate_newsletter.py]

    The script fetches prices and a sentiment index, computes the
    Friday-to-Friday window of the current week, fills an HTML template,
    optionally publishes it, and writes two social-media texts.  This
    development embeds the functions of the script as Rocq functions and
    states the properties of the specification about them.

    Conventions of the embedding:
    - a Python [str] is a [string]: the bytes of its UTF-8 encoding (the
      placeholder tokens and all the keys are plain ASCII);
    - a Python [dict] with string keys is a [gmap string _];
    - a Python [float] is a binary64 [float], an [int] is a [Z];
    - a raised exception is the [Raise] result of the error monad;
    - the clock, the environment, the file system and the network, which
      the script reaches through library calls, are explicit arguments. *)

From Stdlib Require Import ZArith String Ascii List Lia Bool Floats.
From Stdlib Require Import Decimal DecimalString.
From Stdlib Require DecimalPos.
From stdpp Require Import gmap strings.

Local Open Scope Z_scope.
Set Warnings "-inexact-float".

(** ** Exceptions and the error monad *)

Inductive exn : Type :=
| KeyError (key : string)
| IndexError (msg : string)
| ValueError (msg : string)
| OverflowError (msg : string)
| FileNotFoundError (path : string)
| OSError (msg : string)
| RequestException (msg : string)
| JSONDecodeError (msg : string).

Inductive result (A : Type) : Type :=
| Ok (a : A)
| Raise (e : exn).
Arguments Ok {A} a.
Arguments Raise {A} e.

Global Instance result_ret : MRet result := fun A a => Ok a.

Global Instance result_bind : MBind result := fun A B k c =>
  match c with
  | Ok a => k a
  | Raise e => Raise e
  end.

Definition is_ok {A} (r : result A) : bool :=
  match r with Ok _ => true | Raise _ => false end.

(** ** Dates: the part of [datetime] that [get_week_range] uses

    A [datetime] is kept as its proleptic Gregorian ordinal (day 1 is
    0001-01-01) and the microsecond within the day; CPython orders
    datetimes exactly as these pairs are ordered. *)

Module Datetime.

Record datetime : Type := mk_datetime {
  toordinal : Z;
  microsecond_of_day : Z
}.

Definition MAXORDINAL : Z := 3652059.
Definition DAY_MICROSECONDS : Z := 86400000000.

(** The values a [datetime] object can hold (years 1 to 9999). *)
Definition valid (d : datetime) : Prop :=
  1 <= toordinal d <= MAXORDINAL /\
  0 <= microsecond_of_day d < DAY_MICROSECONDS.

(** [d.weekday()]: Monday is 0, Friday is 4, Sunday is 6. *)
Definition weekday (d : datetime) : Z := (toordinal d + 6) mod 7.

(** [d + timedelta(days=n)]: the time of day is kept; a result outside
    years 1..9999 raises [OverflowError]. *)
Definition add_days (d : datetime) (n : Z) : result datetime :=
  let o := toordinal d + n in
  if (0 <? o) && (o <=? MAXORDINAL)
  then Ok (mk_datetime o (microsecond_of_day d))
  else Raise (OverflowError "date value out of range").

Definition sub_days (d : datetime) (n : Z) : result datetime := add_days d (- n).

(** Order of two datetimes. *)
Definition le (a b : datetime) : Prop :=
  toordinal a < toordinal b \/
  (toordinal a = toordinal b /\ microsecond_of_day a <= microsecond_of_day b).

Definition lt (a b : datetime) : Prop :=
  toordinal a < toordinal b \/
  (toordinal a = toordinal b /\ microsecond_of_day a < microsecond_of_day b).

(** Calendar fields of an ordinal, as [_ord2ymd] computes them. *)
Definition is_leap (year : Z) : bool :=
  (year mod 4 =? 0) && (negb (year mod 100 =? 0) || (year mod 400 =? 0)).

Definition days_before_year (year : Z) : Z :=
  let y := year - 1 in y * 365 + y / 4 - y / 100 + y / 400.

Definition DAYS_IN_MONTH (month : Z) : Z :=
  match month with
  | 1 => 31 | 2 => 28 | 3 => 31 | 4 => 30 | 5 => 31 | 6 => 30
  | 7 => 31 | 8 => 31 | 9 => 30 | 10 => 31 | 11 => 30 | 12 => 31
  | _ => -1
  end.

Definition DAYS_BEFORE_MONTH (month : Z) : Z :=
  match month with
  | 1 => 0 | 2 => 31 | 3 => 59 | 4 => 90 | 5 => 120 | 6 => 151
  | 7 => 181 | 8 => 212 | 9 => 243 | 10 => 273 | 11 => 304 | 12 => 334
  | _ => -1
  end.

Definition DI400Y : Z := 146097.
Definition DI100Y : Z := 36524.
Definition DI4Y : Z := 1461.

Definition ymd2ord (year month day : Z) : Z :=
  days_before_year year + DAYS_BEFORE_MONTH month
  + (if (2 <? month) && is_leap year then 1 else 0) + day.

Definition ord2ymd (ordinal : Z) : Z * Z * Z :=
  let n := ordinal - 1 in
  let n400 := n / DI400Y in let n := n mod DI400Y in
  let year := n400 * 400 + 1 in
  let n100 := n / DI100Y in let n := n mod DI100Y in
  let n4 := n / DI4Y in let n := n mod DI4Y in
  let n1 := n / 365 in let n := n mod 365 in
  let year := year + n100 * 100 + n4 * 4 + n1 in
  if (n1 =? 4) || (n100 =? 4) then (year - 1, 12, 31)
  else
    let leapyear := (n1 =? 3) && (negb (n4 =? 24) || (n100 =? 3)) in
    let month := Z.shiftr (n + 50) 5 in
    let preceding :=
      DAYS_BEFORE_MONTH month + (if (2 <? month) && leapyear then 1 else 0) in
    if n <? preceding
    then
      let month := month - 1 in
      let preceding :=
        preceding
        - (DAYS_IN_MONTH month + (if (month =? 2) && leapyear then 1 else 0)) in
      (year, month, n - preceding + 1)
    else (year, month, n - preceding + 1).

Definition year (d : datetime) : Z := fst (fst (ord2ymd (toordinal d))).
Definition month (d : datetime) : Z := snd (fst (ord2ymd (toordinal d))).
Definition day (d : datetime) : Z := snd (ord2ymd (toordinal d)).

(** [datetime(y, m, d)] at midnight. *)
Definition of_ymd (y m d : Z) : datetime := mk_datetime (ymd2ord y m d) 0.

(** *** [strftime] for the directives the script uses (C locale) *)

Definition month_name (month : Z) : string :=
  match month with
  | 1 => "January" | 2 => "February" | 3 => "March" | 4 => "April"
  | 5 => "May" | 6 => "June" | 7 => "July" | 8 => "August"
  | 9 => "September" | 10 => "October" | 11 => "November"
  | 12 => "December"
  | _ => ""
  end.

Definition digit (n : Z) : string :=
  String (ascii_of_N (48 + Z.to_N (n mod 10))) EmptyString.

(** [%d]: day of the month as a zero-padded two-digit number. *)
Definition two_digits (n : Z) : string := digit (n / 10) +:+ digit n.

(** [%Y]: year with century, four digits (for a year below 1000 some C
    libraries print no leading zeros). *)
Definition four_digits (n : Z) : string :=
  digit (n / 1000) +:+ digit (n / 100) +:+ digit (n / 10) +:+ digit n.

(** [d.strftime("%B %d")] *)
Definition strftime_B_d (d : datetime) : string :=
  month_name (month d) +:+ " " +:+ two_digits (day d).

(** [d.strftime("%B %d, %Y")] *)
Definition strftime_B_d_Y (d : datetime) : string :=
  month_name (month d) +:+ " " +:+ two_digits (day d) +:+ ", "
  +:+ four_digits (year d).

End Datetime.

Import Datetime.

(** ** [get_week_range]

    The current time, [datetime.now()] in the script, is the argument
    [today].  [week_bounds] is the date arithmetic of the function body:
    the offset [days_since_friday], [last_friday] and [next_friday]. *)

Definition FRIDAY : Z := 4.

Definition days_since_friday (today : datetime) : Z :=
  (weekday today - FRIDAY) mod 7.

Definition week_bounds (today : datetime) : result (datetime * datetime) :=
  last_friday ← sub_days today (days_since_friday today);
  next_friday ← add_days last_friday 7;
  Ok (last_friday, next_friday).

Definition get_week_range (today : datetime) : result (string * string) :=
  '(last_friday, next_friday) ← week_bounds today;
  Ok (strftime_B_d last_friday, strftime_B_d_Y next_friday).


(** ** Strings: the [str] methods the script calls *)

Definition nl : string := String (ascii_of_N 10) EmptyString.

(** A text given line by line, as a triple-quoted literal is laid out. *)
Definition unlines (ls : list string) : string := String.concat nl ls.

(** [s.startswith(p)] *)
Fixpoint startswith (p s : string) : bool :=
  match p, s with
  | EmptyString, _ => true
  | String a p', String b s' => Ascii.eqb a b && startswith p' s'
  | String _ _, EmptyString => false
  end.

(** [old in s] *)
Fixpoint contains (old s : string) : bool :=
  startswith old s ||
  match s with
  | EmptyString => false
  | String _ s' => contains old s'
  end.

(** [s.replace(old, new)] for a non-empty [old]: one pass from the left;
    at a match the replacement is emitted and the scan resumes behind the
    matched text ([skip] counts the matched characters still to pass). *)
Fixpoint replace_from (old new : string) (skip : nat) (s : string) : string :=
  match s with
  | EmptyString => EmptyString
  | String c s' =>
      match skip with
      | S k => replace_from old new k s'
      | O =>
          if startswith old s
          then new +:+ replace_from old new (String.length old - 1) s'
          else String c (replace_from old new O s')
      end
  end.

Fixpoint replace_empty (new s : string) : string :=
  match s with
  | EmptyString => new
  | String c s' => new +:+ String c (replace_empty new s')
  end.

Definition replace (s old new : string) : string :=
  match old with
  | EmptyString => replace_empty new s
  | String _ _ => replace_from old new O s
  end.

(** [s.count(old)] for a non-empty [old]: occurrences that do not overlap,
    found from the left, which are the ones [replace] rewrites. *)
Fixpoint count_from (old : string) (skip : nat) (s : string) : nat :=
  match s with
  | EmptyString => O
  | String _ s' =>
      match skip with
      | S k => count_from old k s'
      | O =>
          if startswith old s
          then S (count_from old (String.length old - 1) s')
          else count_from old O s'
      end
  end.

Definition count (s old : string) : nat :=
  match old with
  | EmptyString => S (String.length s)
  | String _ _ => count_from old O s
  end.

(** [s.upper()] on ASCII letters; the bytes of other characters are kept
    (the case mapping of letters outside ASCII is not part of the model;
    no character is mapped to an opening brace by it). *)
Definition upper_char (c : ascii) : ascii :=
  let n := N_of_ascii c in
  if ((97 <=? n) && (n <=? 122))%N then ascii_of_N (n - 32) else c.

Fixpoint upper (s : string) : string :=
  match s with
  | EmptyString => EmptyString
  | String c s' => String (upper_char c) (upper s')
  end.

Fixpoint str_repeat (s : string) (n : nat) : string :=
  match n with
  | O => EmptyString
  | S n' => s +:+ str_repeat s n'
  end.

Fixpoint str_take (n : nat) (s : string) : string :=
  match n, s with
  | S n', String c s' => String c (str_take n' s')
  | _, _ => EmptyString
  end.

Fixpoint str_drop (n : nat) (s : string) : string :=
  match n, s with
  | S n', String _ s' => str_drop n' s'
  | _, _ => s
  end.

(** Decimal text of an integer: [str(n)]. *)
Definition str_int (z : Z) : string := NilZero.string_of_int (Z.to_int z).

(** *** [int(s)] for a string

    Surrounding ASCII whitespace is dropped, a sign may come first, and
    the digits may be separated by single underscores.  The decimal
    digits and the spaces outside ASCII, which [int] reads as well, are
    not part of the model. *)

Definition is_space (c : ascii) : bool :=
  let n := N_of_ascii c in
  ((n =? 32) || ((9 <=? n) && (n <=? 13)) || ((28 <=? n) && (n <=? 31)))%N.

Definition is_digit (c : ascii) : bool :=
  let n := N_of_ascii c in ((48 <=? n) && (n <=? 57))%N.

Fixpoint lstrip (s : string) : string :=
  match s with
  | String c s' => if is_space c then lstrip s' else s
  | EmptyString => EmptyString
  end.

Fixpoint rstrip (s : string) : string :=
  match s with
  | EmptyString => EmptyString
  | String c s' =>
      match rstrip s' with
      | EmptyString => if is_space c then EmptyString else String c EmptyString
      | r => String c r
      end
  end.

Definition strip (s : string) : string := rstrip (lstrip s).

(** Digits with single underscores between them; [prev] tells whether the
    previous character was a digit, [acc] is the value read so far. *)
Fixpoint parse_digits (prev : bool) (acc : Z) (s : string) : option Z :=
  match s with
  | EmptyString => if prev then Some acc else None
  | String c s' =>
      if is_digit c
      then parse_digits true (10 * acc + Z.of_N (N_of_ascii c - 48)) s'
      else if Ascii.eqb c "_" && prev then parse_digits false acc s'
      else None
  end.

Definition int_of_str (s : string) : result Z :=
  let invalid :=
    Raise (ValueError
             ("invalid literal for int() with base 10: '" +:+ s +:+ "'")) in
  match strip s with
  | String "-" ds =>
      match parse_digits false 0 ds with
      | Some n => Ok (- n)
      | None => invalid
      end
  | String "+" ds =>
      match parse_digits false 0 ds with
      | Some n => Ok n
      | None => invalid
      end
  | ds =>
      match parse_digits false 0 ds with
      | Some n => Ok n
      | None => invalid
      end
  end.

(** [d[k]] on a dict: the value, or [KeyError]. *)
Definition getitem {V} (d : gmap string V) (k : string) : result V :=
  match d !! k with
  | Some v => Ok v
  | None => Raise (KeyError k)
  end.


(** ** Numbers and their formatting

    A price field holds what the JSON decoder produces for a number: an
    [int] or a [float].  The text of a number follows CPython: [str] of
    a float is the shortest decimal that reads back as the same binary64
    value, and the [f] presentation rounds the exact value half to even. *)

Inductive pynum : Type :=
| PyInt (z : Z)
| PyFloat (f : float).

(** [x > 0] *)
Definition gt_zero (x : pynum) : bool :=
  match x with
  | PyInt z => 0 <? z
  | PyFloat f => PrimFloat.ltb 0 f
  end.

(** [abs(x)] *)
Definition py_abs (x : pynum) : pynum :=
  match x with
  | PyInt z => PyInt (Z.abs z)
  | PyFloat f => PyFloat (PrimFloat.abs f)
  end.

(** [float(n)] for an integer: correctly rounded, [OverflowError] beyond
    the binary64 range. *)
Definition float_of_int (z : Z) : result float :=
  match binary_normalize 53 1024 z 0 false with
  | S754_infinity _ => Raise (OverflowError "int too large to convert to float")
  | sf => Ok (SF2Prim sf)
  end.

Definition to_float (x : pynum) : result float :=
  match x with
  | PyInt z => float_of_int z
  | PyFloat f => Ok f
  end.

Fixpoint zeros (n : nat) : string :=
  match n with
  | O => EmptyString
  | S n' => String "0" (zeros n')
  end.

Definition sign_text (plus negative : bool) : string :=
  if negative then "-" else if plus then "+" else "".

(** *** The [f] presentation: [[+][,].<precision>f] *)

Record format_spec : Type := mk_spec {
  spec_plus : bool;
  spec_comma : bool;
  spec_precision : nat
}.

Fixpoint parse_precision (acc : nat) (s : string) : option nat :=
  match s with
  | String "f" EmptyString => Some acc
  | String c s' =>
      if is_digit c
      then parse_precision (10 * acc + N.to_nat (N_of_ascii c - 48)) s'
      else None
  | EmptyString => None
  end.

Definition parse_spec (spec : string) : option format_spec :=
  let '(plus, spec) :=
    match spec with
    | String "+" r => (true, r)
    | _ => (false, spec)
    end in
  let '(comma, spec) :=
    match spec with
    | String "," r => (true, r)
    | _ => (false, spec)
    end in
  match spec with
  | String "." (String c r) =>
      if is_digit c
      then mk_spec plus comma <$> parse_precision 0 (String c r)
      else None
  | _ => None
  end.

(** [n / d] rounded to the nearest integer, ties to even ([0 <= n], [0 < d]). *)
Definition round_half_even (n d : Z) : Z :=
  let q := n / d in
  let r := n mod d in
  if 2 * r <? d then q
  else if d <? 2 * r then q + 1
  else if Z.even q then q else q + 1.

(** [m * 2^e * 10^p], rounded to an integer. *)
Definition scaled_round (m : positive) (e : Z) (p : Z) : Z :=
  if 0 <=? e then Zpos m * 2 ^ e * 10 ^ p
  else round_half_even (Zpos m * 10 ^ p) (2 ^ (- e)).

(** The digits of an integer part, a comma before every group of three. *)
Fixpoint group3 (fuel : nat) (s : string) : string :=
  match fuel with
  | O => s
  | S fuel' =>
      if (3 <? String.length s)%nat
      then group3 fuel' (str_take (String.length s - 3) s) +:+ ","
           +:+ str_drop (String.length s - 3) s
      else s
  end.

(** The text of [n / 10^precision]. *)
Definition fixed_text (spec : format_spec) (n : Z) : string :=
  let p := spec_precision spec in
  let s := str_int n in
  let s := zeros (S p - String.length s) +:+ s in
  let ip := str_take (String.length s - p) s in
  let fp := str_drop (String.length s - p) s in
  let ip := if spec_comma spec then group3 (String.length ip) ip else ip in
  match p with
  | O => ip
  | S _ => ip +:+ "." +:+ fp
  end.

Definition format_float_f (spec : format_spec) (f : float) : string :=
  match Prim2SF f with
  | S754_nan => sign_text (spec_plus spec) false +:+ "nan"
  | S754_infinity s => sign_text (spec_plus spec) s +:+ "inf"
  | S754_zero s => sign_text (spec_plus spec) s +:+ fixed_text spec 0
  | S754_finite s m e =>
      sign_text (spec_plus spec) s
      +:+ fixed_text spec (scaled_round m e (Z.of_nat (spec_precision spec)))
  end.

(** *** [repr] of a float *)

Definition ndigits (z : Z) : Z := Z.of_nat (String.length (str_int z)).

(** The largest [d] with [10^d <= m * 2^e]. *)
Definition floor_log10 (m : positive) (e : Z) : Z :=
  if 0 <=? e then ndigits (Zpos m * 2 ^ e) - 1
  else
    let den := 2 ^ (- e) in
    if den <=? Zpos m then ndigits (Zpos m / den) - 1
    else
      let t := (den + Zpos m - 1) / Zpos m in
      let n := ndigits t in
      if t =? 10 ^ (n - 1) then - (n - 1) else - n.

(** The [k]-digit decimal [c * 10^(dexp-k+1)] nearest to [m * 2^e] among
    those that round to it, if there is one.  All values are scaled by a
    common factor to integers; [quarter] is a quarter of the gap between
    neighbouring floats. *)
Definition candidate (m : positive) (e dexp k : Z) : option Z :=
  let q := dexp - (k - 1) in
  let a := Z.max 0 (2 - e) in
  let b := Z.max 0 (- q) in
  let quarter := 2 ^ (e - 2 + a) * 10 ^ b in
  let x := Zpos m * 4 * quarter in
  let down :=
    if (Zpos m =? 2 ^ 52) && (-1074 <? e) then quarter else 2 * quarter in
  let up := 2 * quarter in
  let step := 2 ^ a * 10 ^ (q + b) in
  let inside v :=
    if Z.even (Zpos m) then (x - down <=? v) && (v <=? x + up)
    else (x - down <? v) && (v <? x + up) in
  let lo := x / step in
  let hi := lo + 1 in
  match inside (lo * step), inside (hi * step) with
  | true, true =>
      let dl := x - lo * step in
      let dh := hi * step - x in
      if dl <? dh then Some lo
      else if dh <? dl then Some hi
      else if Z.even lo then Some lo else Some hi
  | true, false => Some lo
  | false, true => Some hi
  | false, false => None
  end.

Fixpoint shortest (fuel : nat) (m : positive) (e dexp k : Z) : Z * Z :=
  match fuel with
  | O => (0, k)
  | S fuel' =>
      match candidate m e dexp k with
      | Some c => (c, k)
      | None => shortest fuel' m e dexp (k + 1)
      end
  end.

Definition exponent_text (x : Z) : string :=
  (if x <? 0 then "-" else "+") +:+
  (if Z.abs x <? 10 then "0" else "") +:+ str_int (Z.abs x).

(** Layout of the digits [0.d1d2... * 10^decpt]: scientific notation when
    [decpt <= -4] or [decpt > 16], positional otherwise. *)
Definition repr_digits (digits : string) (decpt : Z) : string :=
  let k := Z.of_nat (String.length digits) in
  if (decpt <=? -4) || (16 <? decpt)
  then str_take 1 digits
       +:+ (if 1 <? k then "." +:+ str_drop 1 digits else "")
       +:+ "e" +:+ exponent_text (decpt - 1)
  else if decpt <=? 0 then "0." +:+ zeros (Z.to_nat (- decpt)) +:+ digits
  else if k <=? decpt then digits +:+ zeros (Z.to_nat (decpt - k)) +:+ ".0"
  else str_take (Z.to_nat decpt) digits +:+ "."
       +:+ str_drop (Z.to_nat decpt) digits.

Definition float_repr (f : float) : string :=
  match Prim2SF f with
  | S754_nan => "nan"
  | S754_infinity s => sign_text false s +:+ "inf"
  | S754_zero s => sign_text false s +:+ "0.0"
  | S754_finite s m e =>
      let dexp := floor_log10 m e in
      let '(c, k) := shortest 17 m e dexp 1 in
      if c =? 10 ^ k
      then sign_text false s +:+ repr_digits "1" (dexp + 2)
      else sign_text false s +:+ repr_digits (str_int c) (dexp + 1)
  end.

(** [str(x)], which is what [{x}] in an f-string inserts. *)
Definition py_str (x : pynum) : string :=
  match x with
  | PyInt z => str_int z
  | PyFloat f => float_repr f
  end.

(** [format(x, spec)], which is what [{x:spec}] inserts, for the empty
    spec and the [f] presentations. *)
Definition py_format (spec : string) (x : pynum) : result string :=
  match spec with
  | EmptyString => Ok (py_str x)
  | _ =>
      match parse_spec spec with
      | Some sp => f ← to_float x; Ok (format_float_f sp f)
      | None => Raise (ValueError "Invalid format specifier")
      end
  end.


(** ** The world of a run

    What the script reaches through [os], [open], [print] and [requests]:
    the process environment (after [load_dotenv]), the files of the
    working directory, the two output streams, the clock, and the remote
    services.  A remote service is given by the outcome of the call to it:
    the decoded JSON document, or the exception that [requests.get],
    [requests.put] or [response.json()] raises.  Every request sent is
    recorded in [sent]. *)

Inductive request : Type :=
| GET (url : string) (params headers : list (string * string))
| PUT (url : string) (headers json : list (string * string)).

Record fear_greed : Type := mk_fear_greed {
  value : Z;
  classification : string
}.

Record world : Type := mk_world {
  environ : gmap string string;
  files : gmap string string;
  stdout : list string;
  stderr : list string;
  sent : list request;
  now : datetime;
  price_api : result (gmap string (gmap string pynum));
  fear_greed_api : result (gmap string (list (gmap string string)));
  contents_api : result (gmap string string);
  update_api : result (Z * result string);
  read_error : string -> option exn;
  write_error : string -> option exn
}.

Definition set_stdout (out : list string) (w : world) : world :=
  mk_world (environ w) (files w) out (stderr w) (sent w) (now w)
    (price_api w) (fear_greed_api w) (contents_api w) (update_api w)
    (read_error w) (write_error w).

Definition set_stderr (err : list string) (w : world) : world :=
  mk_world (environ w) (files w) (stdout w) err (sent w) (now w)
    (price_api w) (fear_greed_api w) (contents_api w) (update_api w)
    (read_error w) (write_error w).

Definition set_sent (rs : list request) (w : world) : world :=
  mk_world (environ w) (files w) (stdout w) (stderr w) rs (now w)
    (price_api w) (fear_greed_api w) (contents_api w) (update_api w)
    (read_error w) (write_error w).

Definition set_files (fs : gmap string string) (w : world) : world :=
  mk_world (environ w) fs (stdout w) (stderr w) (sent w) (now w)
    (price_api w) (fear_greed_api w) (contents_api w) (update_api w)
    (read_error w) (write_error w).

(** A computation in the world: it ends with a value or a raised
    exception, and leaves the world it has changed so far. *)
Definition M (A : Type) : Type := world -> result A * world.

Global Instance M_ret : MRet M := fun A a w => (Ok a, w).

Global Instance M_bind : MBind M := fun A B k c w =>
  match c w with
  | (Ok a, w') => k a w'
  | (Raise e, w') => (Raise e, w')
  end.

Definition lift {A} (r : result A) : M A := fun w => (r, w).

(** [try: body except Exception as e: handler(e)] *)
Definition try_except {A} (body : M A) (handler : exn -> M A) : M A :=
  fun w =>
    match body w with
    | (Ok a, w') => (Ok a, w')
    | (Raise e, w') => handler e w'
    end.

(** [print(s)] *)
Definition print (s : string) : M unit :=
  fun w => (Ok tt, set_stdout (stdout w ++ [s]) w).

(** [requests.get] or [requests.put] followed by what the script reads of
    the response: the request goes out, the service answers. *)
Definition call {A} (r : request) (service : world -> result A) : M A :=
  fun w => (service w, set_sent (sent w ++ [r]) w).

(** [os.getenv(name)] and [os.getenv(name, default)] *)
Definition getenv (env : gmap string string) (name : string) : option string :=
  env !! name.

Definition getenv_default (env : gmap string string) (name dflt : string)
  : string :=
  default dflt (env !! name).

(** Truth value of what [os.getenv] returns: [None] and the empty string
    are false. *)
Definition truthy (v : option string) : bool :=
  match v with
  | Some (String _ _) => true
  | _ => false
  end.

(** [os.path.exists(path)] *)
Definition path_exists (path : string) : M bool :=
  fun w => (Ok (bool_decide (is_Some (files w !! path))), w).

(** [with open(path, 'r') as f: f.read()] *)
Definition read_file (path : string) : M string :=
  fun w =>
    match read_error w path with
    | Some e => (Raise e, w)
    | None =>
        match files w !! path with
        | Some text => (Ok text, w)
        | None => (Raise (FileNotFoundError path), w)
        end
    end.

(** [with open(path, 'w') as f: f.write(text)] *)
Definition write_file (path text : string) : M unit :=
  fun w =>
    match write_error w path with
    | Some e => (Raise e, w)
    | None => (Ok tt, set_files (<[path := text]> (files w)) w)
    end.

(** [str(e)] and the last line of the traceback of [e] *)
Definition exn_str (e : exn) : string :=
  match e with
  | KeyError k => "'" +:+ k +:+ "'"
  | FileNotFoundError path =>
      "[Errno 2] No such file or directory: '" +:+ path +:+ "'"
  | IndexError m | ValueError m | OverflowError m | OSError m
  | RequestException m | JSONDecodeError m => m
  end.

Definition exn_name (e : exn) : string :=
  match e with
  | KeyError _ => "KeyError"
  | IndexError _ => "IndexError"
  | ValueError _ => "ValueError"
  | OverflowError _ => "OverflowError"
  | FileNotFoundError _ => "FileNotFoundError"
  | OSError _ => "OSError"
  | RequestException _ => "requests.exceptions.RequestException"
  | JSONDecodeError _ => "requests.exceptions.JSONDecodeError"
  end.

(** [traceback.print_exc()] *)
Definition print_exc (e : exn) : M unit :=
  fun w =>
    (Ok tt,
     set_stderr (stderr w ++ ["Traceback (most recent call last):";
                              exn_name e +:+ ": " +:+ exn_str e]) w).

(** ** Configuration *)

Definition COINGECKO_API : string := "https://api.coingecko.com/api/v3".
Definition GITHUB_API : string := "https://api.github.com".

Definition TOKEN_MAP : list (string * option string) :=
  [("btc", Some "bitcoin");
   ("eth", Some "ethereum");
   ("usdt", Some "tether");
   ("dai", Some "dai");
   ("pls", None);
   ("hex", None)].

(** ** Data fetching *)

(** [d[k1][k2]] *)
Definition getitem2 {V} (d : gmap string (gmap string V)) (k1 k2 : string)
  : result V :=
  r ← getitem d k1; getitem r k2.

(** [d[k1].get(k2, dflt)] *)
Definition getitem_get {V} (d : gmap string (gmap string V)) (k1 k2 : string)
    (dflt : V) : result V :=
  r ← getitem d k1; Ok (default dflt (r !! k2)).

(** The placeholder records of the two assets CoinGecko does not list. *)
Definition pls_record : gmap string pynum :=
  {[ "price" := PyFloat 0.000089;
     "change_24h" := PyFloat 12.4;
     "ath" := PyFloat 0.000456;
     "atl" := PyFloat 0.000021 ]}.

Definition hex_record : gmap string pynum :=
  {[ "price" := PyFloat 0.0041;
     "change_24h" := PyFloat 8.7;
     "ath" := PyFloat 0.5701;
     "atl" := PyFloat 0.00019 ]}.

(** The dict display of [fetch_crypto_prices]: the entries are evaluated
    in the order they are written. *)
Definition format_prices (data : gmap string (gmap string pynum))
  : result (gmap string (gmap string pynum)) :=
  btc_price ← getitem2 data "bitcoin" "usd";
  btc_change ← getitem2 data "bitcoin" "usd_24h_change";
  btc_vol ← getitem2 data "bitcoin" "usd_24h_vol";
  btc_cap ← getitem2 data "bitcoin" "usd_market_cap";
  eth_price ← getitem2 data "ethereum" "usd";
  eth_change ← getitem2 data "ethereum" "usd_24h_change";
  eth_vol ← getitem2 data "ethereum" "usd_24h_vol";
  eth_cap ← getitem2 data "ethereum" "usd_market_cap";
  usdt_price ← getitem2 data "tether" "usd";
  usdt_change ← getitem_get data "tether" "usd_24h_change" (PyInt 0);
  usdt_vol ← getitem2 data "tether" "usd_24h_vol";
  usdt_cap ← getitem2 data "tether" "usd_market_cap";
  dai_price ← getitem2 data "dai" "usd";
  dai_change ← getitem_get data "dai" "usd_24h_change" (PyInt 0);
  dai_vol ← getitem2 data "dai" "usd_24h_vol";
  dai_cap ← getitem2 data "dai" "usd_market_cap";
  Ok {[ "btc" := {[ "price" := btc_price;
                    "change_24h" := btc_change;
                    "volume_24h" := btc_vol;
                    "market_cap" := btc_cap;
                    "ath" := PyInt 73750;
                    "atl" := PyFloat 67.81 ]};
        "eth" := {[ "price" := eth_price;
                    "change_24h" := eth_change;
                    "volume_24h" := eth_vol;
                    "market_cap" := eth_cap;
                    "ath" := PyInt 4878;
                    "atl" := PyFloat 0.43 ]};
        "usdt" := {[ "price" := usdt_price;
                     "change_24h" := usdt_change;
                     "volume_24h" := usdt_vol;
                     "market_cap" := usdt_cap;
                     "ath" := PyFloat 1.32;
                     "atl" := PyFloat 0.57 ]};
        "dai" := {[ "price" := dai_price;
                    "change_24h" := dai_change;
                    "volume_24h" := dai_vol;
                    "market_cap" := dai_cap;
                    "ath" := PyFloat 1.22;
                    "atl" := PyFloat 0.89 ]};
        "pls" := pls_record;
        "hex" := hex_record ]}.

Definition fetch_crypto_prices : M (gmap string (gmap string pynum)) :=
  print "📊 Fetching crypto prices...";;
  let token_ids := String.concat "," (omap snd TOKEN_MAP) in
  let url := COINGECKO_API +:+ "/simple/price" in
  let params :=
    [("ids", token_ids);
     ("vs_currencies", "usd");
     ("include_24hr_change", "true");
     ("include_market_cap", "true");
     ("include_24hr_vol", "true")] in
  data ← call (GET url params []) price_api;
  prices ← lift (format_prices data);
  print "✅ Prices fetched successfully!";;
  mret prices.

(** [l[0]] *)
Definition first_item {A} (l : list A) : result A :=
  match l with
  | x :: _ => Ok x
  | [] => Raise (IndexError "list index out of range")
  end.

Definition fetch_fear_greed_index : M fear_greed :=
  print "😱 Fetching Fear & Greed Index...";;
  let url := "https://api.alternative.me/fng/" in
  data ← call (GET url [] []) fear_greed_api;
  value ← lift (entries ← getitem data "data";
                entry ← first_item entries;
                text ← getitem entry "value";
                int_of_str text);
  classification ← lift (entries ← getitem data "data";
                         entry ← first_item entries;
                         getitem entry "value_classification");
  print ("✅ Fear & Greed: " +:+ str_int value
         +:+ " (" +:+ classification +:+ ")");;
  mret (mk_fear_greed value classification).

(** *** [fetch_trending_coins]

    The response is a dict whose [coins] entry is a list of dicts, each
    with an [item] dict; the values of an item (texts, numbers, [None])
    are copied as they are, so their type [V] is left open.  The outcome
    of the request is the argument [trending_api]. *)

(** The loop [for coin in ...: trending.append({...})]. *)
Fixpoint trending_loop {V} (coins : list (gmap string (gmap string V)))
    (trending : list (gmap string V)) : result (list (gmap string V)) :=
  match coins with
  | [] => Ok trending
  | coin :: coins' =>
      name ← getitem2 coin "item" "name";
      symbol ← getitem2 coin "item" "symbol";
      market_cap_rank ← getitem2 coin "item" "market_cap_rank";
      trending_loop coins'
        (trending ++ [ {[ "name" := name;
                          "symbol" := symbol;
                          "market_cap_rank" := market_cap_rank ]} ])
  end.

Definition fetch_trending_coins {V}
    (trending_api : result (gmap string (list (gmap string (gmap string V)))))
  : M (list (gmap string V)) :=
  print "🔥 Fetching trending coins...";;
  let url := COINGECKO_API +:+ "/search/trending" in
  data ← call (GET url [] []) (fun _ => trending_api);
  coins ← lift (getitem data "coins");
  trending ← lift (trending_loop (take 5 coins) []);
  print ("✅ Found " +:+ str_int (Z.of_nat (length trending))
         +:+ " trending coins");;
  mret trending.

(** ** HTML generation *)

Definition TEMPLATE : string := "newsletter_template.html".

Definition DATE_RANGE : string := "{{DATE_RANGE}}".
Definition PRICE_DATA : string := "// {{PRICE_DATA}}".
Definition FEAR_GREED_VALUE : string := "{{FEAR_GREED_VALUE}}".
Definition FEAR_GREED_CLASS : string := "{{FEAR_GREED_CLASS}}".

(** The text [f"{week_range[0]} – {week_range[1]}"] *)
Definition date_range_text (week_range : string * string) : string :=
  week_range.1 +:+ " – " +:+ week_range.2.

(** One entry of the [realTimePrices] object: the four fields of a
    symbol, read and inserted from left to right. *)
Definition price_js_entry (prices : gmap string (gmap string pynum))
    (symbol : string) : result string :=
  price ← getitem2 prices symbol "price";
  change ← getitem2 prices symbol "change_24h";
  ath ← getitem2 prices symbol "ath";
  atl ← getitem2 prices symbol "atl";
  Ok (symbol +:+ ": { price: " +:+ py_str price
      +:+ ", change: " +:+ py_str change
      +:+ ", ath: " +:+ py_str ath
      +:+ ", atl: " +:+ py_str atl +:+ " }").

(** The f-string [price_js]. *)
Definition price_js (prices : gmap string (gmap string pynum))
  : result string :=
  btc ← price_js_entry prices "btc";
  eth ← price_js_entry prices "eth";
  pls ← price_js_entry prices "pls";
  hex ← price_js_entry prices "hex";
  usdt ← price_js_entry prices "usdt";
  dai ← price_js_entry prices "dai";
  Ok (unlines
        [ "";
          "        const realTimePrices = {";
          "            " +:+ btc +:+ ",";
          "            " +:+ eth +:+ ",";
          "            " +:+ pls +:+ ",";
          "            " +:+ hex +:+ ",";
          "            " +:+ usdt +:+ ",";
          "            " +:+ dai;
          "        };";
          "    " ]).

Definition generate_html (prices : gmap string (gmap string pynum))
    (fg : fear_greed) (week_range : string * string) : M string :=
  html ← read_file TEMPLATE;
  let html := replace html DATE_RANGE (date_range_text week_range) in
  js ← lift (price_js prices);
  let html := replace html PRICE_DATA js in
  let html := replace html FEAR_GREED_VALUE (str_int (value fg)) in
  let html := replace html FEAR_GREED_CLASS (upper (classification fg)) in
  mret html.

(** ** Deployment *)

(** [base64.b64encode] *)
Definition b64_char (n : N) : ascii :=
  if (n <? 26)%N then ascii_of_N (65 + n)
  else if (n <? 52)%N then ascii_of_N (97 + (n - 26))
  else if (n <? 62)%N then ascii_of_N (48 + (n - 52))
  else if (n =? 62)%N then "+"%char
  else "/"%char.

Fixpoint b64encode (s : string) : string :=
  match s with
  | EmptyString => EmptyString
  | String a EmptyString =>
      let n := (N_of_ascii a * 65536)%N in
      String (b64_char (n / 262144)) (String (b64_char (n / 4096 mod 64)) "==")
  | String a (String b EmptyString) =>
      let n := (N_of_ascii a * 65536 + N_of_ascii b * 256)%N in
      String (b64_char (n / 262144)) (String (b64_char (n / 4096 mod 64))
        (String (b64_char (n / 64 mod 64)) "="))
  | String a (String b (String c rest)) =>
      let n := (N_of_ascii a * 65536 + N_of_ascii b * 256 + N_of_ascii c)%N in
      String (b64_char (n / 262144)) (String (b64_char (n / 4096 mod 64))
        (String (b64_char (n / 64 mod 64)) (String (b64_char (n mod 64))
          (b64encode rest))))
  end.

(** [d.strftime("%Y-%m-%d")] *)
Definition strftime_Y_m_d (d : datetime) : string :=
  four_digits (year d) +:+ "-" +:+ two_digits (month d) +:+ "-"
  +:+ two_digits (day d).

Definition deploy_to_github (html github_token github_username : string)
  : M unit :=
  print "🚀 Deploying to GitHub Pages...";;
  let repo_name := "Crypto_Weekly_Newsletter" in
  let file_path := "index.html" in
  let url := GITHUB_API +:+ "/repos/" +:+ github_username +:+ "/"
             +:+ repo_name +:+ "/contents/" +:+ file_path in
  let headers :=
    [("Authorization", "token " +:+ github_token);
     ("Accept", "application/vnd.github.v3+json")] in
  document ← call (GET url [] headers) contents_api;
  let sha := default "" (document !! "sha") in
  let content_encoded := b64encode html in
  today ← (fun w => (Ok (now w), w));
  let data :=
    [("message", "Auto-update newsletter - " +:+ strftime_Y_m_d today);
     ("content", content_encoded);
     ("sha", sha)] in
  '(status_code, body) ← call (PUT url headers data) update_api;
  if (status_code =? 200) || (status_code =? 201)
  then
    print "✅ Deployed successfully!";;
    print ("🌐 Live at: https://" +:+ github_username +:+ ".github.io/"
           +:+ repo_name)
  else
    text ← lift body;
    print ("❌ Deployment failed: " +:+ text).

(** ** Social media *)

(** [f"{prices[symbol][field]:spec}"] *)
Definition fmt (prices : gmap string (gmap string pynum))
    (symbol field spec : string) : result string :=
  x ← getitem2 prices symbol field; py_format spec x.

(** ["🟢" if change > 0 else "🔴"] *)
Definition emoji (prices : gmap string (gmap string pynum)) (symbol : string)
  : result string :=
  change ← getitem2 prices symbol "change_24h";
  Ok (if gt_zero change then "🟢" else "🔴").

Definition generate_twitter_thread (env : gmap string string)
    (prices : gmap string (gmap string pynum)) (week_range : string * string)
  : result (list string) :=
  let tweets := [] in
  let tweets := tweets ++ [unlines
    [ "🧠 CRYPTO INTEL WEEKLY";
      week_range.1 +:+ " – " +:+ week_range.2;
      "";
      "Your weekly dose of crypto market insights 🔥";
      "";
      "📊 Price movements";
      "💧 Liquidity flows";
      "🌍 Global regulations";
      "📣 Top influencer takes";
      "";
      "Thread below 👇" ]] in
  btc_emoji ← emoji prices "btc";
  eth_emoji ← emoji prices "eth";
  pls_emoji ← emoji prices "pls";
  hex_emoji ← emoji prices "hex";
  btc_price ← fmt prices "btc" "price" ",.0f";
  btc_change ← fmt prices "btc" "change_24h" "+.1f";
  eth_price ← fmt prices "eth" "price" ",.2f";
  eth_change ← fmt prices "eth" "change_24h" "+.1f";
  pls_price ← fmt prices "pls" "price" ".6f";
  pls_change ← fmt prices "pls" "change_24h" "+.1f";
  hex_price ← fmt prices "hex" "price" ".4f";
  hex_change ← fmt prices "hex" "change_24h" "+.1f";
  let tweets := tweets ++ [unlines
    [ "📈 PRICE MOVERS";
      "";
      "BTC: $" +:+ btc_price +:+ " (" +:+ btc_change +:+ "%) " +:+ btc_emoji;
      "ETH: $" +:+ eth_price +:+ " (" +:+ eth_change +:+ "%) " +:+ eth_emoji;
      "PLS: $" +:+ pls_price +:+ " (" +:+ pls_change +:+ "%) " +:+ pls_emoji;
      "HEX: $" +:+ hex_price +:+ " (" +:+ hex_change +:+ "%) " +:+ hex_emoji;
      "";
      "#Bitcoin #Ethereum #Crypto" ]] in
  let tweets := tweets ++ [unlines
    [ "📰 Read the full newsletter with charts & analysis:";
      "https://" +:+ getenv_default env "GITHUB_USERNAME" "your-username"
        +:+ ".github.io/crypto-intel-weekly";
      "";
      "🔔 Follow @sanjeev_kumar_c for weekly crypto intelligence";
      "♻️ RT to share with your crypto community";
      "";
      "#CryptoNews #Newsletter" ]] in
  Ok tweets.

(** The text written for the [i]-th tweet. *)
Definition tweet_entry (i : nat) (tweet : string) : string :=
  "TWEET " +:+ str_int (Z.of_nat i) +:+ ":" +:+ nl
  +:+ tweet
  +:+ nl +:+ nl +:+ str_repeat "=" 50 +:+ nl +:+ nl.

Definition twitter_file_text (tweets : list string) : string :=
  String.concat "" (imap (fun i tweet => tweet_entry (S i) tweet) tweets).

Definition save_twitter_content (tweets : list string) : M unit :=
  write_file "twitter_thread.txt" (twitter_file_text tweets);;
  print "✅ Twitter thread saved to twitter_thread.txt".

(** ['up' if change > 0 else 'down'] *)
Definition direction (prices : gmap string (gmap string pynum))
    (symbol : string) : result string :=
  change ← getitem2 prices symbol "change_24h";
  Ok (if gt_zero change then "up" else "down").

(** [f"{abs(prices[symbol]['change_24h']):.1f}"] *)
Definition fmt_abs_change (prices : gmap string (gmap string pynum))
    (symbol : string) : result string :=
  change ← getitem2 prices symbol "change_24h";
  py_format ".1f" (py_abs change).

Definition generate_instagram_caption
    (prices : gmap string (gmap string pynum)) (week_range : string * string)
  : result string :=
  btc_dir ← direction prices "btc";
  btc_change ← fmt_abs_change prices "btc";
  btc_price ← fmt prices "btc" "price" ",.0f";
  eth_dir ← direction prices "eth";
  eth_change ← fmt_abs_change prices "eth";
  eth_price ← fmt prices "eth" "price" ",.2f";
  pls_dir ← direction prices "pls";
  pls_change ← fmt_abs_change prices "pls";
  hex_dir ← direction prices "hex";
  hex_change ← fmt_abs_change prices "hex";
  Ok (unlines
    [ "🧠 CRYPTO INTEL WEEKLY | " +:+ week_range.1 +:+ " – " +:+ week_range.2;
      "";
      "This week in crypto:";
      "📈 BTC " +:+ btc_dir +:+ " " +:+ btc_change +:+ "% to $" +:+ btc_price;
      "📈 ETH " +:+ eth_dir +:+ " " +:+ eth_change +:+ "% to $" +:+ eth_price;
      "🚀 PLS " +:+ pls_dir +:+ " " +:+ pls_change +:+ "%";
      "💎 HEX " +:+ hex_dir +:+ " " +:+ hex_change +:+ "%";
      "";
      "Swipe 👉 for detailed charts, data & analysis";
      "";
      "Full newsletter: Link in bio";
      "";
      "---";
      "";
      "#CryptoNews #Bitcoin #Ethereum #PulseChain #HEX #DeFi #CryptoTrading #Web3 #Blockchain #CryptoNewsletter #CryptoIntel #CryptoAnalysis #BTC #ETH #Stablecoins #CryptoMarket #DigitalAssets";
      "";
      "Drop a 🔥 if you found this useful!" ]).

(** ** Main execution *)

(** The body of the [try] statement of [main]. *)
Definition main_body : M unit :=
  prices ← fetch_crypto_prices;
  fg ← fetch_fear_greed_index;
  week_range ← (fun w => (get_week_range (now w), w));
  print (nl +:+ "📅 Newsletter week: " +:+ week_range.1 +:+ " – "
         +:+ week_range.2);;
  template_exists ← path_exists TEMPLATE;
  (if template_exists : bool
   then
     html ← generate_html prices fg week_range;
     write_file "index.html" html;;
     print "✅ HTML generated successfully!";;
     github_token ← (fun w => (Ok (getenv (environ w) "GITHUB_TOKEN"), w));
     github_username ← (fun w => (Ok (getenv (environ w) "GITHUB_USERNAME"), w));
     if truthy github_token && truthy github_username
     then deploy_to_github html (default "" github_token)
            (default "" github_username)
     else
       print "⚠️  GitHub credentials not found. Skipping deployment.";;
       print "   Set GITHUB_TOKEN and GITHUB_USERNAME environment variables."
   else
     print "⚠️  newsletter_template.html not found. Skipping HTML generation.");;
  env ← (fun w => (Ok (environ w), w));
  twitter_thread ← lift (generate_twitter_thread env prices week_range);
  save_twitter_content twitter_thread;;
  instagram_caption ← lift (generate_instagram_caption prices week_range);
  write_file "instagram_caption.txt" instagram_caption;;
  print "✅ Instagram caption saved to instagram_caption.txt";;
  print (nl +:+ str_repeat "=" 60);;
  print "✅ AUTOMATION COMPLETE!";;
  print (str_repeat "=" 60);;
  btc_price ← lift (fmt prices "btc" "price" ",.0f");
  btc_change ← lift (fmt prices "btc" "change_24h" "+.1f");
  print ("📊 BTC: $" +:+ btc_price +:+ " (" +:+ btc_change +:+ "%)");;
  eth_price ← lift (fmt prices "eth" "price" ",.2f");
  eth_change ← lift (fmt prices "eth" "change_24h" "+.1f");
  print ("📊 ETH: $" +:+ eth_price +:+ " (" +:+ eth_change +:+ "%)");;
  print ("😱 Fear & Greed: " +:+ str_int (value fg) +:+ " ("
         +:+ classification fg +:+ ")");;
  print (nl +:+ "📁 Files generated:");;
  print "   - index.html (newsletter)";;
  print "   - twitter_thread.txt";;
  print "   - instagram_caption.txt";;
  print (nl +:+ "🚀 Next steps:");;
  print "   1. Review the generated content";;
  print "   2. Post Twitter thread from twitter_thread.txt";;
  print "   3. Create Instagram carousel and use caption from instagram_caption.txt";;
  print (str_repeat "=" 60).

Definition main : M unit :=
  print (str_repeat "=" 60);;
  print "🧠 CRYPTO INTEL WEEKLY - AUTOMATION STARTING";;
  print (str_repeat "=" 60);;
  try_except main_body
    (fun e =>
       print (nl +:+ "❌ Error occurred: " +:+ exn_str e);;
       print_exc e).

(** The exit status of [python automate_newsletter.py]: 0 when [main]
    returns, 1 when an exception leaves it. *)
Definition exit_code (w : world) : Z :=
  match main w with
  | (Ok _, _) => 0
  | (Raise _, _) => 1
  end.


(** ** Vocabulary of the properties *)

(** The six symbols of the price table. *)
Definition SYMBOLS : gset string :=
  {[ "btc"; "eth"; "usdt"; "dai"; "pls"; "hex" ]}.

(** [data[id]] is a record that has every field of [fields]. *)
Definition has_fields {V} (data : gmap string (gmap string V)) (id : string)
    (fields : list string) : bool :=
  match data !! id with
  | Some r => forallb (fun f => bool_decide (is_Some (r !! f))) fields
  | None => false
  end.

(** A price response with every field that [fetch_crypto_prices] reads
    by subscript. *)
Definition complete_price_response (data : gmap string (gmap string pynum))
  : bool :=
  has_fields data "bitcoin"
    ["usd"; "usd_24h_change"; "usd_24h_vol"; "usd_market_cap"]
  && has_fields data "ethereum"
    ["usd"; "usd_24h_change"; "usd_24h_vol"; "usd_market_cap"]
  && has_fields data "tether" ["usd"; "usd_24h_vol"; "usd_market_cap"]
  && has_fields data "dai" ["usd"; "usd_24h_vol"; "usd_market_cap"].

(** The placeholder tokens that [generate_html] recognizes. *)
Definition TOKENS : list string :=
  [DATE_RANGE; PRICE_DATA; FEAR_GREED_VALUE; FEAR_GREED_CLASS].

Definition is_lbrace (c : ascii) : bool := Ascii.eqb c "{".

(** The number of places in [s] where two opening braces stand side by
    side; [prev] tells whether the character before [s] is an opening
    brace. *)
Fixpoint brace_pairs_from (prev : bool) (s : string) : nat :=
  match s with
  | EmptyString => O
  | String c s' =>
      (if prev && is_lbrace c then 1 else 0)%nat
      + brace_pairs_from (is_lbrace c) s'
  end.

Definition brace_pairs (s : string) : nat := brace_pairs_from false s.

(** No opening brace occurs in [s]. *)
Fixpoint no_lbrace (s : string) : bool :=
  match s with
  | EmptyString => true
  | String c s' => negb (is_lbrace c) && no_lbrace s'
  end.

(** Every symbol of the table has the four fields that the price block
    of the page shows. *)
Definition html_inputs_ok (prices : gmap string (gmap string pynum)) : bool :=
  forallb (fun symbol =>
             has_fields prices symbol ["price"; "change_24h"; "ath"; "atl"])
    ["btc"; "eth"; "pls"; "hex"; "usdt"; "dai"].

(** The steps of [generate_html] in their order: a later token survives
    the replacement of an earlier one. *)
Inductive before : string -> string -> Prop :=
| before_date_price : before DATE_RANGE PRICE_DATA
| before_date_value : before DATE_RANGE FEAR_GREED_VALUE
| before_date_class : before DATE_RANGE FEAR_GREED_CLASS
| before_price_value : before PRICE_DATA FEAR_GREED_VALUE
| before_price_class : before PRICE_DATA FEAR_GREED_CLASS
| before_value_class : before FEAR_GREED_VALUE FEAR_GREED_CLASS.

(** The four assets of the social texts. *)
Definition SOCIAL_ASSETS : list string := ["btc"; "eth"; "pls"; "hex"].

(** [prices[symbol][field]] is there and is a float, or an integer that
    [float] converts. *)
Definition has_number (prices : gmap string (gmap string pynum))
    (symbol field : string) : bool :=
  match getitem2 prices symbol field with
  | Ok x => is_ok (to_float x)
  | Raise _ => false
  end.

(** Every social asset has a price and a change that can be formatted. *)
Definition social_inputs_ok (prices : gmap string (gmap string pynum)) : bool :=
  forallb (fun symbol => has_number prices symbol "price"
                         && has_number prices symbol "change_24h")
    SOCIAL_ASSETS.

(** The header block and the call-to-action block of a thread, as the
    specification describes them. *)
Definition header_block (week_range : string * string) : string :=
  unlines
    [ "🧠 CRYPTO INTEL WEEKLY";
      week_range.1 +:+ " – " +:+ week_range.2;
      "";
      "Your weekly dose of crypto market insights 🔥";
      "";
      "📊 Price movements";
      "💧 Liquidity flows";
      "🌍 Global regulations";
      "📣 Top influencer takes";
      "";
      "Thread below 👇" ].

Definition call_to_action_block (username : string) : string :=
  unlines
    [ "📰 Read the full newsletter with charts & analysis:";
      "https://" +:+ username +:+ ".github.io/crypto-intel-weekly";
      "";
      "🔔 Follow @sanjeev_kumar_c for weekly crypto intelligence";
      "♻️ RT to share with your crypto community";
      "";
      "#CryptoNews #Newsletter" ].

(** The directional indicators of a change: the icon of the thread and
    the word of the caption. *)
Definition thread_indicator (change : pynum) : string :=
  if gt_zero change then "🟢" else "🔴".

Definition caption_indicator (change : pynum) : string :=
  if gt_zero change then "up" else "down".

(** A request to the publishing API. *)
Definition is_github_request (r : request) : bool :=
  match r with
  | GET url _ _ | PUT url _ _ => startswith GITHUB_API url
  end.

(** The first line that [deploy_to_github] prints. *)
Definition DEPLOY_BANNER : string := "🚀 Deploying to GitHub Pages...".

(** GITHUB_TOKEN or GITHUB_USERNAME is unset (or empty). *)
Definition credentials_absent (env : gmap string string) : Prop :=
  truthy (getenv env "GITHUB_TOKEN") && truthy (getenv env "GITHUB_USERNAME")
  = false.

(** From [w] to [w'] the environment is the same, no request went to the
    publishing API and [deploy_to_github] did not start. *)
Definition no_publish (w w' : world) : Prop :=
  environ w' = environ w /\
  (exists rs, sent w' = sent w ++ rs
              /\ Forall (fun r => is_github_request r = false) rs) /\
  (exists out, stdout w' = stdout w ++ out /\ DEPLOY_BANNER ∉ out).

(** In an environment [env], the computation [c] does not publish, and a
    value it returns satisfies [Q]. *)
Definition quietly {A} (env : gmap string string) (c : M A) (Q : A -> Prop)
  : Prop :=
  forall w, environ w = env ->
    no_publish w (c w).2 /\
    match (c w).1 with
    | Ok a => Q a
    | Raise _ => True
    end.

(** The world after the three lines that [main] prints before [try]. *)
Definition banner (w : world) : world :=
  ((print (str_repeat "=" 60);;
    print "🧠 CRYPTO INTEL WEEKLY - AUTOMATION STARTING";;
    print (str_repeat "=" 60)) w).2.

(** The world after the handler of [main] has logged [e]. *)
Definition logged (e : exn) (w : world) : world :=
  set_stderr (stderr w ++ ["Traceback (most recent call last):";
                           exn_name e +:+ ": " +:+ exn_str e])
    (set_stdout (stdout w ++ [nl +:+ "❌ Error occurred: " +:+ exn_str e]) w).

(** *** Vocabulary of the further properties *)

(** [_days_in_month(year, month)] *)
Definition days_in_month (year month : Z) : Z :=
  DAYS_IN_MONTH month + (if (month =? 2) && is_leap year then 1 else 0).

(** The request that [fetch_crypto_prices] sends. *)
Definition PRICE_REQUEST : request :=
  GET "https://api.coingecko.com/api/v3/simple/price"
    [("ids", "bitcoin,ethereum,tether,dai");
     ("vs_currencies", "usd");
     ("include_24hr_change", "true");
     ("include_market_cap", "true");
     ("include_24hr_vol", "true")] [].

(** The keys that [fetch_crypto_prices] subscripts in the response. *)
Definition PRICE_KEYS : list string :=
  ["bitcoin"; "ethereum"; "tether"; "dai";
   "usd"; "usd_24h_change"; "usd_24h_vol"; "usd_market_cap"].

(** The upstream id and the hard-coded all-time high and low of the four
    listed symbols. *)
Definition LISTED : list (string * string * pynum * pynum) :=
  [("btc", "bitcoin", PyInt 73750, PyFloat 67.81);
   ("eth", "ethereum", PyInt 4878, PyFloat 0.43);
   ("usdt", "tether", PyFloat 1.32, PyFloat 0.57);
   ("dai", "dai", PyFloat 1.22, PyFloat 0.89)].

(** The request that [fetch_fear_greed_index] sends. *)
Definition FEAR_GREED_REQUEST : request :=
  GET "https://api.alternative.me/fng/" [] [].

(** The value of a digit sequence read after [acc]. *)
Fixpoint uint_value (acc : Z) (u : uint) : Z :=
  match u with
  | Nil => acc
  | D0 l => uint_value (10 * acc + 0) l
  | D1 l => uint_value (10 * acc + 1) l
  | D2 l => uint_value (10 * acc + 2) l
  | D3 l => uint_value (10 * acc + 3) l
  | D4 l => uint_value (10 * acc + 4) l
  | D5 l => uint_value (10 * acc + 5) l
  | D6 l => uint_value (10 * acc + 6) l
  | D7 l => uint_value (10 * acc + 7) l
  | D8 l => uint_value (10 * acc + 8) l
  | D9 l => uint_value (10 * acc + 9) l
  end.

(** The request that [fetch_trending_coins] sends. *)
Definition TRENDING_REQUEST : request :=
  GET "https://api.coingecko.com/api/v3/search/trending" [] [].

(** [entry] is the record of the three fields of the item of [coin]. *)
Definition entry_of {V} (coin : gmap string (gmap string V))
    (entry : gmap string V) : Prop :=
  exists item name symbol market_cap_rank,
    coin !! "item" = Some item /\
    item !! "name" = Some name /\
    item !! "symbol" = Some symbol /\
    item !! "market_cap_rank" = Some market_cap_rank /\
    entry = {[ "name" := name;
               "symbol" := symbol;
               "market_cap_rank" := market_cap_rank ]}.

(** The document that [generate_html] builds from the text of the
    template and the price block. *)
Definition fill (template js : string) (fg : fear_greed)
    (week_range : string * string) : string :=
  replace
    (replace
       (replace
          (replace template DATE_RANGE (date_range_text week_range))
          PRICE_DATA js)
       FEAR_GREED_VALUE (str_int (value fg)))
    FEAR_GREED_CLASS (upper (classification fg)).

(** A template seen as a sequence of pieces: the placeholder tokens and
    the text between them. *)
Inductive piece : Type :=
| Text (s : string)
| Hole (token : string).

Definition piece_text (p : piece) : string :=
  match p with
  | Text s => s
  | Hole token => token
  end.

(** The text of a template. *)
Definition layout (pieces : list piece) : string :=
  String.concat "" (map piece_text pieces).

(** No two opening braces stand side by side in [s], and [s] does not end
    with an opening brace. *)
Definition plain (s : string) : Prop := brace_pairs (s +:+ "{") = 0%nat.

(** The holes are recognized tokens, the texts are plain. *)
Definition well_formed (pieces : list piece) : Prop :=
  Forall (fun p => match p with
                   | Text s => plain s
                   | Hole token => token ∈ TOKENS
                   end) pieces.

(** The value that [generate_html] puts in the place of a token. *)
Definition token_value (js : string) (fg : fear_greed)
    (week_range : string * string) (token : string) : string :=
  if String.eqb token DATE_RANGE then date_range_text week_range
  else if String.eqb token PRICE_DATA then js
  else if String.eqb token FEAR_GREED_VALUE then str_int (value fg)
  else if String.eqb token FEAR_GREED_CLASS then upper (classification fg)
  else token.

(** The template with every hole filled. *)
Definition render (js : string) (fg : fear_greed)
    (week_range : string * string) (pieces : list piece) : string :=
  String.concat ""
    (map (fun p => match p with
                   | Text s => s
                   | Hole token => token_value js fg week_range token
                   end) pieces).

(** One step: the holes of [token] become the text [r]. *)
Definition fill_hole (token r : string) (p : piece) : piece :=
  match p with
  | Text s => Text s
  | Hole u => if String.eqb u token then Text r else Hole u
  end.

(** The address, the headers and the two requests of [deploy_to_github]. *)
Definition deploy_url (github_username : string) : string :=
  "https://api.github.com/repos/" +:+ github_username
  +:+ "/Crypto_Weekly_Newsletter/contents/index.html".

Definition deploy_headers (github_token : string) : list (string * string) :=
  [("Authorization", "token " +:+ github_token);
   ("Accept", "application/vnd.github.v3+json")].

Definition deploy_get (github_token github_username : string) : request :=
  GET (deploy_url github_username) [] (deploy_headers github_token).

Definition deploy_put (html github_token github_username sha : string)
    (today : datetime) : request :=
  PUT (deploy_url github_username) (deploy_headers github_token)
    [("message", "Auto-update newsletter - " +:+ strftime_Y_m_d today);
     ("content", b64encode html);
     ("sha", sha)].

(** The six-bit value of a character of the base64 alphabet. *)
Definition b64_index (c : ascii) : N :=
  let n := N_of_ascii c in
  if ((65 <=? n) && (n <=? 90))%N then (n - 65)%N
  else if ((97 <=? n) && (n <=? 122))%N then (n - 71)%N
  else if ((48 <=? n) && (n <=? 57))%N then (n + 4)%N
  else if (n =? 43)%N then 62%N
  else 63%N.

(** The entries of the thread file for [tweets], numbered from [k]. *)
Definition entries_from (k : nat) (tweets : list string) : string :=
  String.concat "" (imap (fun i tweet => tweet_entry (k + i) tweet) tweets).

(** The fields of the price table that the social texts read. *)
Definition SOCIAL_FIELDS : list string := ["price"; "change_24h"].

(** The [f] presentations of the script. *)
Definition SPECS : list string := [",.0f"; ",.2f"; ".6f"; ".4f"; "+.1f"; ".1f"].

(** The steps of [main_body] that the test of the template guards: the
    page is rendered, saved and, with credentials, published. *)
Definition publish_steps (prices : gmap string (gmap string pynum))
    (fg : fear_greed) (week_range : string * string) : M unit :=
  html ← generate_html prices fg week_range;
  write_file "index.html" html;;
  print "✅ HTML generated successfully!";;
  github_token ← (fun w => (Ok (getenv (environ w) "GITHUB_TOKEN"), w));
  github_username ← (fun w => (Ok (getenv (environ w) "GITHUB_USERNAME"), w));
  if truthy github_token && truthy github_username
  then deploy_to_github html (default "" github_token)
         (default "" github_username)
  else
    print "⚠️  GitHub credentials not found. Skipping deployment.";;
    print "   Set GITHUB_TOKEN and GITHUB_USERNAME environment variables.".

(** The steps of [main_body] after them: the social texts and the
    summary. *)
Definition social_steps (prices : gmap string (gmap string pynum))
    (fg : fear_greed) (week_range : string * string) : M unit :=
  env ← (fun w => (Ok (environ w), w));
  twitter_thread ← lift (generate_twitter_thread env prices week_range);
  save_twitter_content twitter_thread;;
  instagram_caption ← lift (generate_instagram_caption prices week_range);
  write_file "instagram_caption.txt" instagram_caption;;
  print "✅ Instagram caption saved to instagram_caption.txt";;
  print (nl +:+ str_repeat "=" 60);;
  print "✅ AUTOMATION COMPLETE!";;
  print (str_repeat "=" 60);;
  btc_price ← lift (fmt prices "btc" "price" ",.0f");
  btc_change ← lift (fmt prices "btc" "change_24h" "+.1f");
  print ("📊 BTC: $" +:+ btc_price +:+ " (" +:+ btc_change +:+ "%)");;
  eth_price ← lift (fmt prices "eth" "price" ",.2f");
  eth_change ← lift (fmt prices "eth" "change_24h" "+.1f");
  print ("📊 ETH: $" +:+ eth_price +:+ " (" +:+ eth_change +:+ "%)");;
  print ("😱 Fear & Greed: " +:+ str_int (value fg) +:+ " ("
         +:+ classification fg +:+ ")");;
  print (nl +:+ "📁 Files generated:");;
  print "   - index.html (newsletter)";;
  print "   - twitter_thread.txt";;
  print "   - instagram_caption.txt";;
  print (nl +:+ "🚀 Next steps:");;
  print "   1. Review the generated content";;
  print "   2. Post Twitter thread from twitter_thread.txt";;
  print "   3. Create Instagram carousel and use caption from instagram_caption.txt";;
  print (str_repeat "=" 60).

(** The files that [main] writes. *)
Definition OUTPUT_FILES : list string :=
  ["index.html"; "twitter_thread.txt"; "instagram_caption.txt"].

(** From [w] to [w'] the environment is the same, the files outside
    [paths] are the same, and the output streams and the list of requests
    have only grown. *)
Definition frame (paths : list string) (w w' : world) : Prop :=
  environ w' = environ w /\
  (forall path, path ∉ paths -> files w' !! path = files w !! path) /\
  (exists out, stdout w' = stdout w ++ out) /\
  (exists err, stderr w' = stderr w ++ err) /\
  (exists rs, sent w' = sent w ++ rs).

(** The computation [c] keeps the invariant [Inv] of the world, relates the
    world before and after by [R], and returns values in [Q]. *)
Definition keeps (Inv : world -> Prop) (R : world -> world -> Prop) {A}
    (c : M A) (Q : A -> Prop) : Prop :=
  forall w, Inv w ->
    Inv (c w).2 /\ R w (c w).2 /\
    match (c w).1 with
    | Ok a => Q a
    | Raise _ => True
    end.

(** The lines that the handler of [main] writes for [e]. *)
Definition error_line (e : exn) : string :=
  nl +:+ "❌ Error occurred: " +:+ exn_str e.

Definition traceback (e : exn) : list string :=
  ["Traceback (most recent call last):"; exn_name e +:+ ": " +:+ exn_str e].

(** The format of a change in the thread and of its magnitude in the
    caption. *)
Definition CHANGE_SPEC : format_spec := mk_spec true false 1.
Definition MAGNITUDE_SPEC : format_spec := mk_spec false false 1.

(** The sign bit of a float. *)
Definition sign_bit (f : float) : bool :=
  match Prim2SF f with
  | S754_zero s | S754_infinity s | S754_finite s _ _ => s
  | S754_nan => false
  end.

(** The text of a float in the [f] presentation without its sign. *)
Definition unsigned_text (spec : format_spec) (f : float) : string :=
  match Prim2SF f with
  | S754_nan => "nan"
  | S754_infinity _ => "inf"
  | S754_zero _ => fixed_text spec 0
  | S754_finite _ m e =>
      fixed_text spec (scaled_round m e (Z.of_nat (spec_precision spec)))
  end.

(** Every character of [s] is a decimal digit, or a digit or a comma. *)
Fixpoint all_digits (s : string) : bool :=
  match s with
  | EmptyString => true
  | String c s' => is_digit c && all_digits s'
  end.

Fixpoint digits_and_commas (s : string) : bool :=
  match s with
  | EmptyString => true
  | String c s' => (is_digit c || Ascii.eqb c ",") && digits_and_commas s'
  end.

(** A float that is a number: not a NaN and not an infinity. *)
Definition is_number (f : float) : bool :=
  match Prim2SF f with
  | S754_zero _ | S754_finite _ _ _ => true
  | _ => false
  end.

(** ** Sample worlds

    Worlds with no credentials configured, used to run the script on
    concrete inputs. *)

Definition sample_prices_response : gmap string (gmap string pynum) :=
  {[ "bitcoin" := {[ "usd" := PyInt 67432;
                     "usd_24h_change" := PyFloat (-3.2);
                     "usd_24h_vol" := PyFloat 28500000000.5;
                     "usd_market_cap" := PyFloat 1330000000000.25 ]};
     "ethereum" := {[ "usd" := PyFloat 3500.129;
                      "usd_24h_change" := PyFloat 5.0;
                      "usd_24h_vol" := PyFloat 15000000000.5;
                      "usd_market_cap" := PyFloat 420000000000.75 ]};
     "tether" := {[ "usd" := PyFloat 1.0;
                    "usd_24h_vol" := PyFloat 50000000000.5;
                    "usd_market_cap" := PyFloat 110000000000.5 ]};
     "dai" := {[ "usd" := PyFloat 0.999;
                 "usd_24h_change" := PyFloat 0.0;
                 "usd_24h_vol" := PyFloat 200000000.5;
                 "usd_market_cap" := PyFloat 5000000000.5 ]} ]}.

(** The price table that [fetch_crypto_prices] builds from the sample
    response, without the volume and market-cap fields. *)
Definition sample_prices : gmap string (gmap string pynum) :=
  {[ "btc" := {[ "price" := PyInt 67432; "change_24h" := PyFloat (-3.2);
                 "ath" := PyInt 73750; "atl" := PyFloat 67.81 ]};
     "eth" := {[ "price" := PyFloat 3500.129; "change_24h" := PyFloat 5.0;
                 "ath" := PyInt 4878; "atl" := PyFloat 0.43 ]};
     "usdt" := {[ "price" := PyFloat 1.0; "change_24h" := PyInt 0;
                  "ath" := PyFloat 1.32; "atl" := PyFloat 0.57 ]};
     "dai" := {[ "price" := PyFloat 0.999; "change_24h" := PyFloat 0.0;
                 "ath" := PyFloat 1.22; "atl" := PyFloat 0.89 ]};
     "pls" := <[ "change_24h" := PyFloat 0.0 ]> pls_record;
     "hex" := hex_record ]}.

(** A price table whose bitcoin price is an integer beyond the range of
    a float. *)
Definition huge_prices : gmap string (gmap string pynum) :=
  <[ "btc" := {[ "price" := PyInt (10 ^ 309); "change_24h" := PyFloat 1.5;
                 "ath" := PyInt 73750; "atl" := PyFloat 67.81 ]} ]>
    sample_prices.

Definition sample_week_range : string * string :=
  ("March 03", "March 10, 2023").

Definition sample_fear_greed_response (text label : string)
  : gmap string (list (gmap string string)) :=
  {[ "data" := [ {[ "value" := text;
                    "value_classification" := label;
                    "timestamp" := "1678233600" ]} ] ]}.

Definition sample_template : string :=
  "<h1>{{DATE_RANGE}}</h1><script>// {{PRICE_DATA}}</script>"
  +:+ "<b>{{FEAR_GREED_VALUE}}</b> <i>{{FEAR_GREED_CLASS}}</i>".

Definition sample_world (fs : gmap string string)
    (prices_answer : result (gmap string (gmap string pynum)))
    (fear_greed_answer : result (gmap string (list (gmap string string))))
  : world :=
  {| environ := ∅;
     files := fs;
     stdout := [];
     stderr := [];
     sent := [];
     now := of_ymd 2023 3 8;
     price_api := prices_answer;
     fear_greed_api := fear_greed_answer;
     contents_api := Ok ∅;
     update_api := Ok (201, Ok "{}");
     read_error := fun _ => None;
     write_error := fun _ => None |}.

(** A template that holds every token once, and splices the class token
    into a second, incomplete value token. *)
Definition spliced_template : string :=
  "<h1>{{DATE_RANGE}}</h1><script>// {{PRICE_DATA}}</script>"
  +:+ "<b>{{FEAR_GREED_VALUE}}</b> <i>{{{{FEAR_GREED_CLASS}}_GREED_VALUE}}</i>".

Definition quiet_world : world :=
  sample_world {[ TEMPLATE := sample_template ]}
    (Ok sample_prices_response)
    (Ok (sample_fear_greed_response "45" "Fear")).

(** The price table, the thread and the caption of a run in
    [quiet_world]. *)
Definition fetched_prices : gmap string (gmap string pynum) :=
  {[ "btc" := {[ "price" := PyInt 67432;
                 "change_24h" := PyFloat (-3.2);
                 "volume_24h" := PyFloat 28500000000.5;
                 "market_cap" := PyFloat 1330000000000.25;
                 "ath" := PyInt 73750;
                 "atl" := PyFloat 67.81 ]};
     "eth" := {[ "price" := PyFloat 3500.129;
                 "change_24h" := PyFloat 5.0;
                 "volume_24h" := PyFloat 15000000000.5;
                 "market_cap" := PyFloat 420000000000.75;
                 "ath" := PyInt 4878;
                 "atl" := PyFloat 0.43 ]};
     "usdt" := {[ "price" := PyFloat 1.0;
                  "change_24h" := PyInt 0;
                  "volume_24h" := PyFloat 50000000000.5;
                  "market_cap" := PyFloat 110000000000.5;
                  "ath" := PyFloat 1.32;
                  "atl" := PyFloat 0.57 ]};
     "dai" := {[ "price" := PyFloat 0.999;
                 "change_24h" := PyFloat 0.0;
                 "volume_24h" := PyFloat 200000000.5;
                 "market_cap" := PyFloat 5000000000.5;
                 "ath" := PyFloat 1.22;
                 "atl" := PyFloat 0.89 ]};
     "pls" := pls_record;
     "hex" := hex_record ]}.

Definition sample_tweets : list string :=
  match generate_twitter_thread ∅ fetched_prices sample_week_range with
  | Ok tweets => tweets
  | Raise _ => []
  end.

Definition sample_caption : string :=
  match generate_instagram_caption fetched_prices sample_week_range with
  | Ok caption => caption
  | Raise _ => ""
  end.

(** A value of an item of the trending response. *)
Inductive scalar : Type :=
| JNull
| JNumber (x : pynum)
| JString (s : string).

Definition sample_coin (name symbol : string) (rank : Z)
  : gmap string (gmap string scalar) :=
  {[ "item" := {[ "name" := JString name;
                  "symbol" := JString symbol;
                  "market_cap_rank" := JNumber (PyInt rank);
                  "score" := JNumber (PyInt 0) ]} ]}.

(** A trending response with six coins, the last of which has no
    fields. *)
Definition sample_trending_response
  : gmap string (list (gmap string (gmap string scalar))) :=
  {[ "coins" := [ sample_coin "Pepe" "PEPE" 40;
                  sample_coin "Solana" "SOL" 5;
                  sample_coin "Sui" "SUI" 15;
                  sample_coin "Bittensor" "TAO" 30;
                  sample_coin "Ondo" "ONDO" 60;
                  {[ "item" := ∅ ]} ] ]}.

Definition sample_entry (name symbol : string) (rank : Z)
  : gmap string scalar :=
  {[ "name" := JString name;
     "symbol" := JString symbol;
     "market_cap_rank" := JNumber (PyInt rank) ]}.

Definition sample_trending : list (gmap string scalar) :=
  [ sample_entry "Pepe" "PEPE" 40;
    sample_entry "Solana" "SOL" 5;
    sample_entry "Sui" "SUI" 15;
    sample_entry "Bittensor" "TAO" 30;
    sample_entry "Ondo" "ONDO" 60 ].

(** The sample template as pieces. *)
Definition sample_pieces : list piece :=
  [ Text "<h1>"; Hole DATE_RANGE; Text "</h1><script>"; Hole PRICE_DATA;
    Text "</script><b>"; Hole FEAR_GREED_VALUE; Text "</b> <i>";
    Hole FEAR_GREED_CLASS; Text "</i>" ].

(** A world with credentials and without a template. *)
Definition keyed_world : world :=
  {| environ := {[ "GITHUB_TOKEN" := "ghp_token";
                   "GITHUB_USERNAME" := "alice" ]};
     files := ∅;
     stdout := [];
     stderr := [];
     sent := [];
     now := of_ymd 2023 3 8;
     price_api := Ok sample_prices_response;
     fear_greed_api := Ok (sample_fear_greed_response "45" "Fear");
     contents_api := Ok {[ "sha" := "3f2a" ]};
     update_api := Ok (200, Ok "{}");
     read_error := fun _ => None;
     write_error := fun _ => None |}.

(** A world with credentials and the sample template. *)
Definition publishing_world : world :=
  set_files {[ TEMPLATE := sample_template ]} keyed_world.

(** A world whose price request fails. *)
Definition offline_world : world :=
  sample_world ∅ (Raise (RequestException "connection refused"))
    (Ok (sample_fear_greed_response "45" "Fear")).

(** * Properties *)

(** ** The week range *)

Section WeekRange.

Local Ltac unfold_dates :=
  unfold week_bounds, sub_days, add_days, days_since_friday, weekday, FRIDAY,
    MAXORDINAL, valid, DAY_MICROSECONDS, Datetime.le, Datetime.lt in *;
  simpl in *.

Lemma days_since_friday_range (today : datetime) :
  0 <= days_since_friday today <= 6.
Proof.
  unfold days_since_friday.
  pose proof (Z.mod_pos_bound (weekday today - FRIDAY) 7). lia.
Qed.

(** The date arithmetic succeeds exactly from 0001-01-05 to 9999-12-30. *)
Lemma week_bounds_ok (today : datetime) :
  5 <= toordinal today < MAXORDINAL ->
  week_bounds today =
    Ok (mk_datetime (toordinal today - days_since_friday today)
          (microsecond_of_day today),
        mk_datetime (toordinal today - days_since_friday today + 7)
          (microsecond_of_day today)).
Proof.
  intros Hrange. unfold_dates.
  set (off := ((toordinal today + 6) mod 7 - 4) mod 7) in *.
  assert (Hoff : 0 <= off <= 6 /\ (toordinal today - off + 2) mod 7 = 0).
  { subst off. Z.div_mod_to_equations. lia. }
  destruct Hoff as [Hoff Hfri].
  assert (Hlo : 1 <= toordinal today - off) by (Z.div_mod_to_equations; lia).
  assert (Hhi : toordinal today - off + 7 <= 3652059)
    by (Z.div_mod_to_equations; lia).
  replace (toordinal today + - off) with (toordinal today - off) by lia.
  replace ((0 <? toordinal today - off) && (toordinal today - off <=? 3652059))
    with true by (symmetry; apply andb_true_iff; split; lia).
  cbn.
  replace ((0 <? toordinal today - off + 7)
           && (toordinal today - off + 7 <=? 3652059))
    with true by (symmetry; apply andb_true_iff; split; lia).
  reflexivity.
Qed.

Lemma week_bounds_overflow (today : datetime) :
  valid today ->
  ~ (5 <= toordinal today < MAXORDINAL) ->
  week_bounds today = Raise (OverflowError "date value out of range").
Proof.
  intros [Hord _] Hout. unfold_dates.
  set (off := ((toordinal today + 6) mod 7 - 4) mod 7) in *.
  assert (Hcases : (toordinal today < 5 /\ toordinal today - off <= 0)
                   \/ (toordinal today = 3652059 /\ off = 0)).
  { subst off. Z.div_mod_to_equations. lia. }
  replace (toordinal today + - off) with (toordinal today - off) by lia.
  destruct Hcases as [[_ Hneg] | [Hmax Hoff]].
  - replace (0 <? toordinal today - off) with false by (symmetry; lia).
    reflexivity.
  - rewrite Hmax, Hoff. reflexivity.
Qed.

(** C1 (as amended).  For every current date, the offset
    [(weekday - 4) mod 7] lies in 0..6.  For every current date from
    0001-01-05 to 9999-12-30, [get_week_range] returns the labels of a
    start and an end date such that the start is the current date moved
    back by the offset and falls on a Friday,
    [start <= today < start + 7 days], and the end is the start plus 7
    days.  On the other dates that a [datetime] holds (0001-01-01 to
    0001-01-04 and 9999-12-31) the start or the end is not representable
    and the function raises [OverflowError]. *)
Theorem get_week_range_window (today : datetime) :
  valid today ->
  0 <= days_since_friday today <= 6 /\
  days_since_friday today = (weekday today - FRIDAY) mod 7 /\
  (5 <= toordinal today < MAXORDINAL ->
   exists start stop,
     week_bounds today = Ok (start, stop) /\
     get_week_range today = Ok (strftime_B_d start, strftime_B_d_Y stop) /\
     toordinal today - toordinal start = days_since_friday today /\
     weekday start = FRIDAY /\
     Datetime.le start today /\
     Datetime.lt today stop /\
     add_days start 7 = Ok stop /\
     valid start /\ valid stop) /\
  (~ (5 <= toordinal today < MAXORDINAL) ->
   get_week_range today = Raise (OverflowError "date value out of range")).
Proof.
  intros Hvalid.
  pose proof (days_since_friday_range today) as Hoff.
  split; [exact Hoff |]. split; [reflexivity |]. split.
  - intros Hrange.
    pose proof (week_bounds_ok today Hrange) as Hwb.
    eexists; eexists. split; [exact Hwb |].
    split; [unfold get_week_range; rewrite Hwb; reflexivity |].
    unfold_dates.
    set (off := ((toordinal today + 6) mod 7 - 4) mod 7) in *.
    assert (Hfri : (toordinal today - off + 6) mod 7 = 4)
      by (subst off; Z.div_mod_to_equations; lia).
    assert (Hhi : toordinal today - off + 7 <= 3652059)
      by (subst off; Z.div_mod_to_equations; lia).
    assert (Hlo : 1 <= toordinal today - off)
      by (subst off; Z.div_mod_to_equations; lia).
    split; [lia |].
    split; [exact Hfri |].
    split; [lia |].
    split; [lia |].
    split.
    + replace ((0 <? toordinal today - off + 7)
               && (toordinal today - off + 7 <=? 3652059))
        with true by (symmetry; apply andb_true_iff; split; lia).
      reflexivity.
    + unfold MAXORDINAL in *. lia.
  - intros Hout. unfold get_week_range.
    rewrite (week_bounds_overflow today Hvalid Hout). reflexivity.
Qed.

Lemma get_week_range_window_witness :
  exists start stop,
    week_bounds (of_ymd 2023 3 8) = Ok (start, stop) /\
    get_week_range (of_ymd 2023 3 8)
      = Ok (strftime_B_d start, strftime_B_d_Y stop) /\
    toordinal (of_ymd 2023 3 8) - toordinal start
      = days_since_friday (of_ymd 2023 3 8) /\
    weekday start = FRIDAY /\
    Datetime.le start (of_ymd 2023 3 8) /\
    Datetime.lt (of_ymd 2023 3 8) stop /\
    add_days start 7 = Ok stop /\
    valid start /\ valid stop.
Proof.
  apply (get_week_range_window (of_ymd 2023 3 8)).
  - vm_compute. repeat split; discriminate.
  - vm_compute. split; [discriminate | reflexivity].
Defined.

(** C1, as stated, fails at the last representable day: 9999-12-31 is a
    Friday, so the start is that day and the end, seven days later, is
    beyond [datetime.max]: the addition raises [OverflowError]. *)
Lemma get_week_range_raises_on_last_day :
  valid (of_ymd 9999 12 31) /\
  weekday (of_ymd 9999 12 31) = FRIDAY /\
  get_week_range (of_ymd 9999 12 31)
    = Raise (OverflowError "date value out of range").
Proof.
  split; [vm_compute; repeat split; discriminate |].
  split; reflexivity.
Qed.

Lemma two_digits_single (d : Z) :
  1 <= d <= 9 -> two_digits d = "0" +:+ str_int d.
Proof.
  intros Hd.
  assert (Hcases : d = 1 \/ d = 2 \/ d = 3 \/ d = 4 \/ d = 5 \/ d = 6
                   \/ d = 7 \/ d = 8 \/ d = 9) by lia.
  repeat (destruct Hcases as [-> | Hcases]; [reflexivity |]).
  subst d. reflexivity.
Qed.

(** C4 (as amended).  When the start date has a single-digit day of the
    month, the start label is the month name, a space, and the day padded
    with a leading zero to two digits ("March 03"). *)
Theorem start_label_zero_padded (today start stop : datetime) :
  week_bounds today = Ok (start, stop) ->
  1 <= day start <= 9 ->
  get_week_range today
    = Ok (month_name (month start) +:+ " 0" +:+ str_int (day start),
          strftime_B_d_Y stop).
Proof.
  intros Hwb Hday. unfold get_week_range. rewrite Hwb. cbn.
  unfold strftime_B_d. rewrite (two_digits_single _ Hday). reflexivity.
Qed.

Lemma start_label_zero_padded_witness :
  get_week_range (of_ymd 2023 3 8)
    = Ok (month_name (month (of_ymd 2023 3 3)) +:+ " 0"
          +:+ str_int (day (of_ymd 2023 3 3)),
          strftime_B_d_Y (of_ymd 2023 3 10)).
Proof.
  apply (start_label_zero_padded (of_ymd 2023 3 8)).
  - reflexivity.
  - vm_compute. split; discriminate.
Defined.

(** C4, as stated, fails: on Wednesday 2023-03-08 the start is Friday
    2023-03-03, whose day of the month is the single digit 3, and the
    start label is "March 03", with a leading zero. *)
Lemma start_label_has_leading_zero :
  weekday (of_ymd 2023 3 8) = 2 /\
  week_bounds (of_ymd 2023 3 8) = Ok (of_ymd 2023 3 3, of_ymd 2023 3 10) /\
  day (of_ymd 2023 3 3) = 3 /\
  get_week_range (of_ymd 2023 3 8) = Ok ("March 03", "March 10, 2023").
Proof. repeat split; reflexivity. Qed.

End WeekRange.

(** ** The fetchers *)

Section Fetchers.

Local Ltac step_ok H :=
  match type of H with
  | (?c ≫= _) = Ok _ =>
      let E := fresh "E" in
      destruct c eqn:E; [cbn in H | discriminate H]
  end.

Lemma format_prices_symbols (data prices : gmap string (gmap string pynum)) :
  format_prices data = Ok prices ->
  dom prices = SYMBOLS /\
  prices !! "pls" = Some pls_record /\
  prices !! "hex" = Some hex_record.
Proof.
  intros H. unfold format_prices in H.
  do 16 step_ok H.
  injection H as <-.
  split; [| split; reflexivity].
  unfold SYMBOLS. rewrite !dom_insert_L, dom_singleton_L. set_solver.
Qed.

Local Ltac take_field H r f :=
  let v := fresh "v" in
  let E := fresh "E" in
  destruct (r !! f) as [v |] eqn:E; [| discriminate H].

Lemma format_prices_total (data : gmap string (gmap string pynum)) :
  complete_price_response data = true ->
  exists prices, format_prices data = Ok prices.
Proof.
  unfold complete_price_response, has_fields. intros H.
  destruct (data !! "bitcoin") as [btc |] eqn:Ebtc; [| discriminate H].
  destruct (data !! "ethereum") as [eth |] eqn:Eeth;
    [| rewrite andb_false_r in H; discriminate H].
  destruct (data !! "tether") as [usdt |] eqn:Eusdt;
    [| rewrite andb_false_r in H; discriminate H].
  destruct (data !! "dai") as [dai |] eqn:Edai;
    [| rewrite andb_false_r in H; discriminate H].
  cbn in H.
  repeat match type of H with
         | context [bool_decide (is_Some (?r !! ?f))] =>
             let v := fresh "v" in
             let E := fresh "E" in
             destruct (r !! f) as [v |] eqn:E;
             [ rewrite (bool_decide_eq_true_2 _ (mk_is_Some _ _ eq_refl)) in H
             | rewrite (bool_decide_eq_false_2 _ is_Some_None) in H;
               cbn in H; rewrite ?andb_false_r in H; discriminate H ]
         end.
  unfold format_prices, getitem2, getitem_get, getitem.
  rewrite Ebtc, Eeth, Eusdt, Edai. cbn.
  repeat match goal with
         | E : ?r !! ?f = Some _ |- context [?r !! ?f] => rewrite E; cbn
         end.
  eexists. reflexivity.
Qed.



(** What a successful run of [fetch_fear_greed_index] has read. *)
Lemma fetch_fear_greed_index_inv (w w' : world) (fg : fear_greed) :
  fetch_fear_greed_index w = (Ok fg, w') ->
  exists data entry entries text,
    fear_greed_api w = Ok data /\
    data !! "data" = Some (entry :: entries) /\
    entry !! "value" = Some text /\
    int_of_str text = Ok (value fg) /\
    entry !! "value_classification" = Some (classification fg).
Proof.
  unfold fetch_fear_greed_index, print, call, lift, mbind, M_bind, mret, M_ret.
  cbn. unfold getitem, first_item.
  destruct (fear_greed_api w) as [data | e]; [| discriminate].
  destruct (data !! "data") as [[| entry entries] |] eqn:Hdata;
    cbn; try discriminate.
  destruct (entry !! "value") as [text |] eqn:Htext; cbn; [| discriminate].
  destruct (int_of_str text) as [n | e] eqn:Hint; cbn; [| discriminate].
  destruct (entry !! "value_classification") as [label |] eqn:Hlabel;
    cbn; [| discriminate].
  intros [= <- _]. exists data, entry, entries, text. auto.
Qed.




End Fetchers.

(** ** Texts and placeholders *)

Section Text.

Lemma append_assoc (a b c : string) : (a +:+ b) +:+ c = a +:+ b +:+ c.
Proof.
  induction a as [| x a IH]; [reflexivity |].
  change (String x ((a +:+ b) +:+ c) = String x (a +:+ b +:+ c)).
  f_equal. exact IH.
Qed.

Lemma append_length (a b : string) :
  String.length (a +:+ b) = (String.length a + String.length b)%nat.
Proof. induction a as [| x a IH]; simpl; [reflexivity | now rewrite IH]. Qed.

Lemma startswith_app (t x : string) : startswith t (t +:+ x) = true.
Proof.
  induction t as [| c t IH]; [reflexivity |].
  simpl. rewrite Ascii.eqb_refl. exact IH.
Qed.

(** A prefix can be split off. *)
Lemma startswith_split (t s : string) :
  startswith t s = true -> exists x, s = t +:+ x.
Proof.
  revert s. induction t as [| c t IH]; intros s H.
  - exists s. reflexivity.
  - destruct s as [| d s]; [discriminate H |].
    simpl in H. apply andb_true_iff in H as [Hc Ht].
    apply Ascii.eqb_eq in Hc as ->.
    destruct (IH s Ht) as [x ->]. exists x. reflexivity.
Qed.

Lemma replace_from_skip (old new u x : string) :
  replace_from old new (String.length u) (u +:+ x) = replace_from old new 0 x.
Proof.
  induction u as [| c u IH]; simpl.
  - destruct x; reflexivity.
  - exact IH.
Qed.

Lemma count_from_skip (old u x : string) :
  count_from old (String.length u) (u +:+ x) = count_from old 0 x.
Proof.
  induction u as [| c u IH]; simpl.
  - destruct x; reflexivity.
  - exact IH.
Qed.

(** At a match the replacement is emitted and the scan goes on behind
    the match. *)
Lemma replace_from_match (old new x : string) :
  old <> "" ->
  replace_from old new 0 (old +:+ x) = new +:+ replace_from old new 0 x.
Proof.
  intros Hne. destruct old as [| c old]; [congruence |].
  change (String c old +:+ x) with (String c (old +:+ x)).
  cbn [replace_from]. 
  change (String c (old +:+ x)) with (String c old +:+ x).
  rewrite startswith_app.
  replace (String.length (String c old) - 1)%nat with (String.length old)
    by (simpl; lia).
  now rewrite replace_from_skip.
Qed.

Lemma count_from_match (old x : string) :
  old <> "" ->
  count_from old 0 (old +:+ x) = S (count_from old 0 x).
Proof.
  intros Hne. destruct old as [| c old]; [congruence |].
  change (String c old +:+ x) with (String c (old +:+ x)).
  cbn [count_from].
  change (String c (old +:+ x)) with (String c old +:+ x).
  rewrite startswith_app.
  replace (String.length (String c old) - 1)%nat with (String.length old)
    by (simpl; lia).
  now rewrite count_from_skip.
Qed.

Lemma replace_from_miss (old new : string) (c : ascii) (s : string) :
  startswith old (String c s) = false ->
  replace_from old new 0 (String c s) = String c (replace_from old new 0 s).
Proof. intros H. cbn [replace_from]. now rewrite H. Qed.

Lemma count_from_miss (old : string) (c : ascii) (s : string) :
  startswith old (String c s) = false ->
  count_from old 0 (String c s) = count_from old 0 s.
Proof. intros H. cbn [count_from]. now rewrite H. Qed.

(** Induction along the scan of [replace]: the empty text, a match at
    the head, a character passed over. *)
Lemma scan_ind (old : string) (Hne : old <> "") (P : string -> Prop) :
  P "" ->
  (forall x, P x -> P (old +:+ x)) ->
  (forall c s, startswith old (String c s) = false -> P s -> P (String c s)) ->
  forall s, P s.
Proof.
  intros Hnil Hmatch Hmiss s.
  remember (String.length s) as n eqn:Hn.
  revert s Hn. induction n as [n IH] using lt_wf_ind. intros s Hn.
  destruct s as [| c s]; [exact Hnil |].
  destruct (startswith old (String c s)) eqn:Hs.
  - destruct (startswith_split _ _ Hs) as [x Hx]. rewrite Hx.
    apply Hmatch. apply (IH (String.length x)); [| reflexivity].
    subst n. rewrite Hx, append_length.
    destruct old; [congruence | simpl; lia].
  - apply Hmiss; [exact Hs |].
    apply (IH (String.length s)); [subst n; simpl; lia | reflexivity].
Qed.

Lemma contains_app_l (u y : string) : contains u (u +:+ y) = true.
Proof.
  destruct u as [| c u]; [destruct y; reflexivity |].
  change (String c u +:+ y) with (String c (u +:+ y)).
  cbn [contains].
  change (String c (u +:+ y)) with (String c u +:+ y).
  now rewrite startswith_app.
Qed.

Lemma contains_app_r (u a y : string) :
  contains u y = true -> contains u (a +:+ y) = true.
Proof.
  intros H. induction a as [| c a IH]; [exact H |].
  change (String c a +:+ y) with (String c (a +:+ y)).
  cbn [contains]. rewrite IH. apply orb_true_r.
Qed.

Lemma contains_cons (u : string) (c : ascii) (s : string) :
  contains u (String c s) = startswith u (String c s) || contains u s.
Proof. reflexivity. Qed.

Lemma brace_pairs_from_true (x : string) :
  (brace_pairs_from false x <= brace_pairs_from true x
   <= brace_pairs_from false x + 1)%nat.
Proof. destruct x as [| c x]; simpl; [lia |]. destruct (is_lbrace c); lia. Qed.

(** A text without opening braces adds no pair, and hides the character
    before it when it is not empty. *)
Lemma brace_pairs_from_no_lbrace (s x : string) (b : bool) :
  no_lbrace s = true ->
  brace_pairs_from b (s +:+ x)
  = brace_pairs_from (match s with "" => b | _ => false end) x.
Proof.
  revert b. induction s as [| c s IH]; intros b H; [reflexivity |].
  simpl in H. apply andb_true_iff in H as [Hc Hs].
  apply negb_true_iff in Hc.
  change (String c s +:+ x) with (String c (s +:+ x)).
  cbn [brace_pairs_from]. rewrite Hc, andb_false_r, (IH _ Hs).
  destruct s; reflexivity.
Qed.

(** *** One token and its replacement *)

Section OneToken.

Variables t r : string.

Let lead : bool :=
  match t with
  | String c _ => is_lbrace c
  | EmptyString => false
  end.

Hypothesis t_not_empty : t <> "".

Lemma count_contains (s : string) :
  (1 <= count_from t 0 s)%nat <-> contains t s = true.
Proof.
  induction s as [| c s IH].
  - destruct t; [congruence |]. simpl. split; [lia | discriminate].
  - rewrite contains_cons. cbn [count_from].
    destruct (startswith t (String c s)); [simpl; split; [reflexivity | lia] |].
    exact IH.
Qed.

(** The token holds one pair of opening braces and does not end with an
    opening brace. *)
Hypothesis t_pairs : forall b x,
  brace_pairs_from b (t +:+ x)
  = ((if b && lead then 1 else 0) + 1 + brace_pairs_from false x)%nat.

Lemma contains_brace_pairs (s : string) (b : bool) :
  contains t s = true -> (1 <= brace_pairs_from b s)%nat.
Proof.
  revert b. induction s as [| c s IH]; intros b H.
  - destruct t; [congruence | discriminate H].
  - rewrite contains_cons in H.
    destruct (startswith t (String c s)) eqn:Hs.
    + destruct (startswith_split _ _ Hs) as [x ->]. rewrite t_pairs. lia.
    + simpl in H. specialize (IH (is_lbrace c) H).
      cbn [brace_pairs_from]. lia.
Qed.

(** The replacement adds no pair of opening braces. *)
Hypothesis r_pairs :
  (forall b x, brace_pairs_from b (r +:+ x) = brace_pairs_from false x)
  \/ (r = "" /\ lead = true).

(** Every occurrence that [replace] rewrites takes a pair away. *)
Lemma replace_brace_pairs (s : string) :
  forall b b' : bool,
    (b' = true -> b = true) ->
    (brace_pairs_from b' (replace_from t r 0 s) + count_from t 0 s
     <= brace_pairs_from b s)%nat.
Proof.
  induction s as [| x IH | c s Hmiss IH] using (scan_ind t t_not_empty);
    intros b b' Hb.
  - simpl. lia.
  - rewrite replace_from_match, count_from_match, t_pairs by exact t_not_empty.
    specialize (IH false false (fun H => H)).
    destruct r_pairs as [Hr | [Hr Hlead]].
    + rewrite Hr. lia.
    + rewrite Hr, Hlead. change ("" +:+ ?y) with y.
      pose proof (brace_pairs_from_true (replace_from t "" 0 x)) as Hm.
      rewrite Hr in IH.
      destruct b'; [rewrite (Hb eq_refl); simpl; lia |].
      destruct b; simpl; lia.
  - rewrite replace_from_miss, count_from_miss by assumption.
    specialize (IH (is_lbrace c) (is_lbrace c) (fun H => H)).
    cbn [brace_pairs_from].
    destruct b'; [rewrite (Hb eq_refl); lia |].
    simpl. lia.
Qed.

End OneToken.

(** *** Two tokens that do not overlap *)

Section TwoTokens.

Variables t u : string.

Hypothesis t_not_empty : t <> "".
Hypothesis u_not_empty : u <> "".

(** No occurrence of [u] begins inside an occurrence of [t]. *)
Hypothesis u_after_t : forall x, contains u (t +:+ x) = contains u x.

(** No occurrence of [t] begins inside an occurrence of [u]. *)
Hypothesis t_after_u : forall r x,
  replace_from t r 0 (u +:+ x) = u +:+ replace_from t r 0 x.

(** Replacing [t] keeps the occurrences of [u]. *)
Lemma replace_keeps (r s : string) :
  contains u s = true -> contains u (replace_from t r 0 s) = true.
Proof.
  induction s as [| x IH | c s Hmiss IH] using (scan_ind t t_not_empty);
    intros Hin.
  - destruct u; [congruence | discriminate Hin].
  - rewrite replace_from_match by exact t_not_empty.
    apply contains_app_r, IH. now rewrite <- u_after_t.
  - rewrite contains_cons in Hin.
    destruct (startswith u (String c s)) eqn:Hu.
    + destruct (startswith_split _ _ Hu) as [x ->].
      rewrite t_after_u. apply contains_app_l.
    + rewrite replace_from_miss by assumption.
      rewrite contains_cons, (IH Hin). apply orb_true_r.
Qed.

End TwoTokens.

(** *** The tokens of the template *)

Lemma token_not_empty (t : string) : t ∈ TOKENS -> t <> "".
Proof.
  unfold TOKENS. intros H.
  repeat (apply elem_of_cons in H; destruct H as [-> | H]);
    [discriminate .. | apply elem_of_nil in H; destruct H].
Qed.

Lemma token_pairs (t : string) :
  t ∈ TOKENS ->
  forall b x,
    brace_pairs_from b (t +:+ x)
    = ((if b && match t with
                 | String c _ => is_lbrace c
                 | EmptyString => false
                 end then 1 else 0) + 1 + brace_pairs_from false x)%nat.
Proof.
  unfold TOKENS. intros H b x.
  repeat (apply elem_of_cons in H; destruct H as [-> | H]);
    [destruct b; reflexivity .. | apply elem_of_nil in H; destruct H].
Qed.

Lemma replace_keeps_later (t u r s : string) :
  before t u ->
  contains u s = true -> contains u (replace_from t r 0 s) = true.
Proof.
  intros Htu.
  apply replace_keeps; destruct Htu; try discriminate;
    intros; reflexivity.
Qed.

(** *** The text of a number has no opening brace *)

Lemma no_lbrace_app (a b : string) :
  no_lbrace a = true -> no_lbrace b = true -> no_lbrace (a +:+ b) = true.
Proof.
  intros Ha Hb. induction a as [| c a IH]; [exact Hb |].
  simpl in *. apply andb_true_iff in Ha as [Hc Ha].
  now rewrite Hc, IH.
Qed.

Lemma no_lbrace_take (n : nat) (s : string) :
  no_lbrace s = true -> no_lbrace (str_take n s) = true.
Proof.
  revert s. induction n as [| n IH]; intros [| c s] H; try reflexivity.
  simpl in *. apply andb_true_iff in H as [Hc H]. now rewrite Hc, IH.
Qed.

Lemma no_lbrace_drop (n : nat) (s : string) :
  no_lbrace s = true -> no_lbrace (str_drop n s) = true.
Proof.
  revert s. induction n as [| n IH]; intros [| c s] H; try assumption.
  simpl in *. apply andb_true_iff in H as [Hc H]. now apply IH.
Qed.

Lemma no_lbrace_zeros (n : nat) : no_lbrace (zeros n) = true.
Proof. induction n as [| n IH]; [reflexivity | exact IH]. Qed.

Lemma no_lbrace_uint (u : uint) :
  no_lbrace (NilEmpty.string_of_uint u) = true.
Proof. induction u; simpl; auto. Qed.

Lemma no_lbrace_str_int (z : Z) : no_lbrace (str_int z) = true.
Proof.
  unfold str_int, NilZero.string_of_int, NilZero.string_of_uint.
  destruct (Z.to_int z) as [u | u]; destruct u; simpl;
    auto using no_lbrace_uint.
Qed.

Lemma str_int_not_empty (z : Z) : str_int z <> "".
Proof.
  unfold str_int, NilZero.string_of_int, NilZero.string_of_uint.
  destruct (Z.to_int z) as [u | u]; destruct u; discriminate.
Qed.

Lemma no_lbrace_sign_text (plus negative : bool) :
  no_lbrace (sign_text plus negative) = true.
Proof. destruct plus, negative; reflexivity. Qed.

Lemma no_lbrace_exponent_text (x : Z) : no_lbrace (exponent_text x) = true.
Proof.
  unfold exponent_text.
  destruct (x <? 0), (Z.abs x <? 10);
    repeat apply no_lbrace_app; try reflexivity; auto using no_lbrace_str_int.
Qed.

Lemma no_lbrace_repr_digits (digits : string) (decpt : Z) :
  no_lbrace digits = true -> no_lbrace (repr_digits digits decpt) = true.
Proof.
  intros H. unfold repr_digits.
  repeat match goal with
         | |- context [if ?c then _ else _] => destruct c
         end;
    repeat first
      [ assumption | reflexivity | apply no_lbrace_zeros
      | apply no_lbrace_exponent_text | apply no_lbrace_take
      | apply no_lbrace_drop | apply no_lbrace_app ].
Qed.

Lemma no_lbrace_float_repr (f : float) : no_lbrace (float_repr f) = true.
Proof.
  unfold float_repr.
  destruct (Prim2SF f) as [s | s | | s m e]; try (destruct s; reflexivity);
    [reflexivity |].
  destruct (shortest 17 m e (floor_log10 m e) 1) as [c k].
  destruct (c =? 10 ^ k);
    apply no_lbrace_app;
    auto using no_lbrace_sign_text, no_lbrace_repr_digits, no_lbrace_str_int.
Qed.

Lemma no_lbrace_py_str (x : pynum) : no_lbrace (py_str x) = true.
Proof.
  destruct x; [apply no_lbrace_str_int | apply no_lbrace_float_repr].
Qed.

Lemma no_lbrace_upper (s : string) :
  no_lbrace s = true -> no_lbrace (upper s) = true.
Proof.
  induction s as [| c s IH]; [reflexivity |].
  simpl. intros H. apply andb_true_iff in H as [Hc Hs].
  rewrite (IH Hs), andb_true_r.
  unfold upper_char.
  destruct ((97 <=? N_of_ascii c)%N && (N_of_ascii c <=? 122)%N) eqn:Hr;
    [| exact Hc].
  apply andb_true_iff in Hr as [Hlo Hhi].
  apply N.leb_le in Hlo, Hhi.
  apply negb_true_iff. unfold is_lbrace. apply Ascii.eqb_neq.
  intros Heq. apply (f_equal N_of_ascii) in Heq.
  rewrite N_ascii_embedding in Heq by lia.
  change (N_of_ascii "{") with 123%N in Heq. lia.
Qed.

(** Without opening braces a text adds no pair to what follows it. *)
Lemma brace_pairs_false_no_lbrace (s x : string) :
  no_lbrace s = true ->
  brace_pairs_from false (s +:+ x) = brace_pairs_from false x.
Proof.
  intros H. rewrite (brace_pairs_from_no_lbrace s x false H).
  destruct s; reflexivity.
Qed.

Lemma brace_pairs_no_lbrace_not_empty (s x : string) (b : bool) :
  no_lbrace s = true -> s <> "" ->
  brace_pairs_from b (s +:+ x) = brace_pairs_from false x.
Proof.
  intros H Hne. rewrite (brace_pairs_from_no_lbrace s x b H).
  destruct s; [congruence | reflexivity].
Qed.

(** *** The price block *)

Local Ltac step_ok H :=
  match type of H with
  | (?c ≫= _) = Ok _ =>
      let E := fresh "E" in
      destruct c eqn:E; [cbn [mbind result_bind] in H | discriminate H]
  end.

Local Ltac pass_text :=
  simpl; rewrite ?andb_false_r;
  repeat match goal with
         | |- context ["" +:+ ?y] => change ("" +:+ y) with y
         end.

Local Ltac pass_numbers :=
  repeat (pass_text;
          rewrite brace_pairs_false_no_lbrace by apply no_lbrace_py_str).

Lemma price_js_entry_pairs (prices : gmap string (gmap string pynum))
    (symbol entry : string) :
  no_lbrace symbol = true ->
  price_js_entry prices symbol = Ok entry ->
  forall x, brace_pairs_from false (entry +:+ x) = brace_pairs_from false x.
Proof.
  intros Hsym H x. unfold price_js_entry in H.
  do 4 step_ok H. injection H as <-.
  rewrite !append_assoc.
  rewrite (brace_pairs_false_no_lbrace symbol _ Hsym).
  pass_numbers. reflexivity.
Qed.

Lemma price_js_pairs (prices : gmap string (gmap string pynum)) (js : string) :
  price_js prices = Ok js ->
  forall b x, brace_pairs_from b (js +:+ x) = brace_pairs_from false x.
Proof.
  intros H b x. unfold price_js in H.
  do 6 step_ok H. injection H as <-.
  cbn [unlines String.concat]. rewrite !append_assoc.
  repeat (pass_text;
          match goal with
          | E : price_js_entry prices ?sym = Ok ?e
            |- context [brace_pairs_from false (?e +:+ _)] =>
              rewrite (price_js_entry_pairs prices sym e eq_refl E)
          end).
  pass_text. reflexivity.
Qed.

Lemma price_js_entry_total (prices : gmap string (gmap string pynum))
    (symbol : string) :
  has_fields prices symbol ["price"; "change_24h"; "ath"; "atl"] = true ->
  exists entry, price_js_entry prices symbol = Ok entry.
Proof.
  unfold has_fields, price_js_entry, getitem2, getitem. intros H.
  destruct (prices !! symbol) as [r |]; [| discriminate H].
  cbn in H.
  repeat match type of H with
         | context [bool_decide (is_Some (?r !! ?f))] =>
             let v := fresh "v" in
             let E := fresh "E" in
             destruct (r !! f) as [v |] eqn:E;
             [ rewrite (bool_decide_eq_true_2 _ (mk_is_Some _ _ eq_refl)) in H
             | rewrite (bool_decide_eq_false_2 _ is_Some_None) in H;
               cbn in H; rewrite ?andb_false_r in H; discriminate H ]
         end.
  cbn [mbind result_bind].
  repeat match goal with
         | E : ?r !! ?f = Some _ |- context [?r !! ?f] =>
             rewrite E; cbn [mbind result_bind]
         end.
  eexists. reflexivity.
Qed.

Lemma price_js_total (prices : gmap string (gmap string pynum)) :
  html_inputs_ok prices = true -> exists js, price_js prices = Ok js.
Proof.
  unfold html_inputs_ok. cbn [forallb]. intros H.
  repeat match goal with
         | Hx : _ && _ = true |- _ =>
             apply andb_true_iff in Hx; destruct Hx
         end.
  unfold price_js.
  repeat match goal with
         | Hs : has_fields prices ?s _ = true |- _ =>
             let e := fresh "e" in
             let He := fresh "He" in
             destruct (price_js_entry_total prices s Hs) as [e He];
             rewrite He; clear Hs He
         end.
  cbn [mbind result_bind]. eexists. reflexivity.
Qed.

Lemma count_token (s t : string) : t ∈ TOKENS -> count s t = count_from t 0 s.
Proof.
  intros Ht. pose proof (token_not_empty t Ht). destruct t; [congruence |].
  reflexivity.
Qed.

Lemma replace_token (s t r : string) :
  t ∈ TOKENS -> replace s t r = replace_from t r 0 s.
Proof.
  intros Ht. pose proof (token_not_empty t Ht). destruct t; [congruence |].
  reflexivity.
Qed.

(** One step of [generate_html]: the pairs of opening braces that the
    step takes away, one for every occurrence it rewrites. *)
Lemma replace_token_pairs (s t r : string) :
  t ∈ TOKENS ->
  (forall b x, brace_pairs_from b (r +:+ x) = brace_pairs_from false x)
  \/ (r = "" /\ t = FEAR_GREED_CLASS) ->
  (brace_pairs (replace s t r) + count s t <= brace_pairs s)%nat.
Proof.
  intros Ht Hr. rewrite replace_token, count_token by exact Ht.
  apply (replace_brace_pairs t r (token_not_empty t Ht) (token_pairs t Ht));
    [| exact (fun H => H)].
  destruct Hr as [Hr | [Hr ->]]; [left; exact Hr | right; split; [exact Hr |]].
  reflexivity.
Qed.

Lemma replace_token_keeps (s t u r : string) :
  t ∈ TOKENS -> u ∈ TOKENS -> before t u ->
  (1 <= count s u)%nat -> (1 <= count (replace s t r) u)%nat.
Proof.
  intros Ht Hu Htu. rewrite replace_token, !count_token by assumption.
  rewrite !(count_contains u (token_not_empty u Hu)).
  apply replace_keeps_later. exact Htu.
Qed.

Lemma no_token_without_pairs (s t : string) :
  t ∈ TOKENS -> brace_pairs s = 0%nat -> contains t s = false.
Proof.
  intros Ht Hs. destruct (contains t s) eqn:Hc; [| reflexivity].
  pose proof (contains_brace_pairs t (token_not_empty t Ht) (token_pairs t Ht)
                s false Hc) as H.
  unfold brace_pairs in Hs. lia.
Qed.

Lemma date_range_text_pairs (week_range : string * string) :
  no_lbrace week_range.1 = true ->
  no_lbrace week_range.2 = true ->
  forall b x,
    brace_pairs_from b (date_range_text week_range +:+ x)
    = brace_pairs_from false x.
Proof.
  destruct week_range as [start stop]. cbn [fst snd].
  intros H1 H2 b x. unfold date_range_text. cbn [fst snd].
  rewrite !append_assoc.
  rewrite (brace_pairs_from_no_lbrace _ _ b H1).
  pass_text.
  now rewrite (brace_pairs_false_no_lbrace _ _ H2).
Qed.




End Text.


(** ** The social texts *)

Section Social.

Local Ltac step_ok H :=
  match type of H with
  | (?c ≫= _) = Ok _ =>
      let E := fresh "E" in
      destruct c eqn:E; [cbn [mbind result_bind] in H | discriminate H]
  end.

(** Two environments change nothing but the user name of the third
    block. *)
Lemma generate_twitter_thread_env (env1 env2 : gmap string string)
    (prices : gmap string (gmap string pynum)) (week_range : string * string) :
  generate_twitter_thread env2 prices week_range =
  match generate_twitter_thread env1 prices week_range with
  | Ok tweets =>
      Ok (take 2 tweets
          ++ [call_to_action_block
                (getenv_default env2 "GITHUB_USERNAME" "your-username")])
  | Raise e => Raise e
  end.
Proof.
  unfold generate_twitter_thread.
  repeat match goal with
         | |- context [?c ≫= _] =>
             match c with
             | emoji _ _ => idtac
             | fmt _ _ _ _ => idtac
             end;
             destruct c; cbn; [| reflexivity]
         end.
  reflexivity.
Qed.

Lemma has_number_inv (prices : gmap string (gmap string pynum))
    (symbol field : string) :
  has_number prices symbol field = true ->
  exists x f, getitem2 prices symbol field = Ok x /\ to_float x = Ok f.
Proof.
  unfold has_number. intros H.
  destruct (getitem2 prices symbol field) as [x | e]; [| discriminate H].
  destruct (to_float x) as [f | e] eqn:Hf; [| discriminate H].
  exists x, f. split; reflexivity || exact Hf.
Qed.

Lemma py_format_f (spec : string) (sp : format_spec) (x : pynum) (f : float) :
  spec <> "" ->
  parse_spec spec = Some sp ->
  to_float x = Ok f ->
  py_format spec x = Ok (format_float_f sp f).
Proof.
  intros Hne Hsp Hf. unfold py_format.
  destruct spec as [| c spec]; [congruence |].
  rewrite Hsp, Hf. reflexivity.
Qed.

Lemma fmt_number (prices : gmap string (gmap string pynum))
    (symbol field spec : string) (sp : format_spec) :
  has_number prices symbol field = true ->
  spec <> "" ->
  parse_spec spec = Some sp ->
  exists text, fmt prices symbol field spec = Ok text.
Proof.
  intros H Hne Hsp.
  destruct (has_number_inv _ _ _ H) as (x & f & Hx & Hf).
  unfold fmt. rewrite Hx. cbn.
  rewrite (py_format_f spec sp x f Hne Hsp Hf). eauto.
Qed.

Lemma emoji_number (prices : gmap string (gmap string pynum))
    (symbol : string) :
  has_number prices symbol "change_24h" = true ->
  exists text, emoji prices symbol = Ok text.
Proof.
  intros H.
  destruct (has_number_inv _ _ _ H) as (x & f & Hx & Hf).
  unfold emoji. rewrite Hx. cbn. eauto.
Qed.

(** C10 (as amended).  For every prices mapping in which btc, eth, pls
    and hex have a price and a change that are floats or integers within
    the range of a float, and for every week range,
    [generate_twitter_thread] returns exactly three blocks: the header
    block with the two week-range labels first, and the call-to-action
    block last. *)
Theorem generate_twitter_thread_blocks (env : gmap string string)
    (prices : gmap string (gmap string pynum)) (week_range : string * string) :
  social_inputs_ok prices = true ->
  exists movers,
    generate_twitter_thread env prices week_range
    = Ok [ header_block week_range;
           movers;
           call_to_action_block
             (getenv_default env "GITHUB_USERNAME" "your-username") ].
Proof.
  unfold social_inputs_ok, SOCIAL_ASSETS. cbn [forallb]. intros H.
  repeat match goal with
         | Hx : _ && _ = true |- _ =>
             apply andb_true_iff in Hx; destruct Hx
         end.
  repeat match goal with
         | Hc : has_number prices ?s "change_24h" = true |- _ =>
             let e := fresh "e" in
             let He := fresh "He" in
             let c := fresh "c" in
             let Hc' := fresh "Hc" in
             destruct (emoji_number prices s Hc) as [e He];
             destruct (fmt_number prices s "change_24h" "+.1f" _ Hc
                         ltac:(discriminate) eq_refl) as [c Hc'];
             clear Hc
         end.
  unfold generate_twitter_thread.
  repeat match goal with
         | He : emoji prices _ = Ok _ |- _ => rewrite He; clear He
         | He : fmt prices _ _ _ = Ok _ |- _ => rewrite He; clear He
         end.
  cbn [mbind result_bind].
  repeat match goal with
         | Hp : has_number prices ?s "price" = true
           |- context [fmt prices ?s "price" ?spec] =>
             let p := fresh "p" in
             let Hp' := fresh "Hp" in
             destruct (fmt_number prices s "price" spec _ Hp
                         ltac:(discriminate) eq_refl) as [p Hp'];
             rewrite Hp'; clear Hp Hp'; cbn [mbind result_bind]
         end.
  eexists. reflexivity.
Qed.

Lemma generate_twitter_thread_blocks_witness :
  exists movers,
    generate_twitter_thread ∅ sample_prices sample_week_range
    = Ok [ header_block sample_week_range;
           movers;
           call_to_action_block
             (getenv_default ∅ "GITHUB_USERNAME" "your-username") ].
Proof.
  apply (generate_twitter_thread_blocks ∅ sample_prices sample_week_range).
  vm_compute. reflexivity.
Defined.

(** C10, as stated, fails: a prices mapping with records for the four
    assets whose bitcoin price is the integer [10^309], which no float
    holds, makes the [,.0f] format of the second block raise
    [OverflowError]; no thread is returned. *)
Lemma generate_twitter_thread_overflow :
  forallb (fun symbol => has_fields huge_prices symbol ["price"; "change_24h"])
    SOCIAL_ASSETS = true /\
  generate_twitter_thread ∅ huge_prices sample_week_range
  = Raise (OverflowError "int too large to convert to float").
Proof. split; vm_compute; reflexivity. Qed.

Local Ltac norm_text :=
  cbn [unlines String.concat]; rewrite ?append_assoc; reflexivity.

(* the pieces of the line "SYM: $<price> (<change>%) <icon>" *)
Local Ltac thread_line l k :=
  lazymatch l with
  | String.append _ (String.append ?p (String.append _ (String.append ?c _))) =>
      k p c
  end.

Local Ltac split_movers n :=
  lazymatch goal with
  | |- context [unlines [?h0; ?h1; ?l1; ?l2; ?l3; ?l4; ?e; ?tags]] =>
      let all := constr:(unlines [h0; h1; l1; l2; l3; l4; e; tags]) in
      lazymatch n with
      | 1%nat => thread_line l1 ltac:(fun p c =>
          exists all, (unlines [h0; h1; ""]), p, c,
                 (unlines [l2; l3; l4; e; tags]))
      | 2%nat => thread_line l2 ltac:(fun p c =>
          exists all, (unlines [h0; h1; l1; ""]), p, c,
                 (unlines [l3; l4; e; tags]))
      | 3%nat => thread_line l3 ltac:(fun p c =>
          exists all, (unlines [h0; h1; l1; l2; ""]), p, c,
                 (unlines [l4; e; tags]))
      | 4%nat => thread_line l4 ltac:(fun p c =>
          exists all, (unlines [h0; h1; l1; l2; l3; ""]), p, c,
                 (unlines [e; tags]))
      end
  end.


Local Ltac split_caption n :=
  lazymatch goal with
  | |- context [unlines (?l0 :: ?l1 :: ?l2 :: ?l3 :: ?l4 :: ?l5 :: ?l6 :: ?rest)] =>
      lazymatch n with
      | 1%nat =>
          lazymatch l3 with
          | String.append _ (String.append _ (String.append _
              (String.append ?c (String.append _ ?p)))) =>
              exists (unlines [l0; l1; l2; "📈"]), c,
                     (" to $" +:+ p +:+ nl
                      +:+ unlines (l4 :: l5 :: l6 :: rest))
          end
      | 2%nat =>
          lazymatch l4 with
          | String.append _ (String.append _ (String.append _
              (String.append ?c (String.append _ ?p)))) =>
              exists (unlines [l0; l1; l2; l3; "📈"]), c,
                     (" to $" +:+ p +:+ nl +:+ unlines (l5 :: l6 :: rest))
          end
      | 3%nat =>
          lazymatch l5 with
          | String.append _ (String.append _ (String.append _
              (String.append ?c _))) =>
              exists (unlines [l0; l1; l2; l3; l4; "🚀"]), c,
                     (nl +:+ unlines (l6 :: rest))
          end
      | 4%nat =>
          lazymatch l6 with
          | String.append _ (String.append _ (String.append _
              (String.append ?c _))) =>
              exists (unlines [l0; l1; l2; l3; l4; l5; "💎"]), c,
                     (nl +:+ unlines rest)
          end
      end
  end.

(** C3.  For each of the four assets of the social texts, the thread
    shows the formatted change followed by the green icon when
    [change_24h > 0] and by the red icon otherwise, and the caption says
    "up" when [change_24h > 0] and "down" otherwise.  Hence a change of
    -3.2 gives the red icon and "down", +5.0 gives the green icon and
    "up", and 0.0, which is not greater than zero, gives the red icon and
    "down". *)
Theorem change_direction (env : gmap string string)
    (prices : gmap string (gmap string pynum)) (week_range : string * string)
    (symbol : string) (change : pynum) (tweets : list string)
    (caption : string) :
  symbol ∈ SOCIAL_ASSETS ->
  getitem2 prices symbol "change_24h" = Ok change ->
  generate_twitter_thread env prices week_range = Ok tweets ->
  generate_instagram_caption prices week_range = Ok caption ->
  (exists movers pre price_text change_text post,
     tweets !! 1%nat = Some movers /\
     py_format "+.1f" change = Ok change_text /\
     movers = pre +:+ upper symbol +:+ ": $" +:+ price_text +:+ " ("
              +:+ change_text +:+ "%) " +:+ thread_indicator change
              +:+ nl +:+ post) /\
  (exists pre abs_text post,
     py_format ".1f" (py_abs change) = Ok abs_text /\
     caption = pre +:+ " " +:+ upper symbol +:+ " "
               +:+ caption_indicator change +:+ " " +:+ abs_text +:+ "%"
               +:+ post) /\
  (thread_indicator change = "🟢" <-> gt_zero change = true) /\
  (caption_indicator change = "up" <-> gt_zero change = true) /\
  (thread_indicator (PyFloat (-3.2)) = "🔴" /\
   caption_indicator (PyFloat (-3.2)) = "down") /\
  (thread_indicator (PyFloat 5.0) = "🟢" /\
   caption_indicator (PyFloat 5.0) = "up") /\
  (thread_indicator (PyFloat 0.0) = "🔴" /\
   caption_indicator (PyFloat 0.0) = "down").
Proof.
  intros Hsym Hchange Htw Hcap.
  split; [| split; [| split; [| split; [| repeat split; reflexivity]]]].
  - unfold generate_twitter_thread, emoji, fmt in Htw.
    unfold SOCIAL_ASSETS in Hsym.
    repeat (apply elem_of_cons in Hsym; destruct Hsym as [-> | Hsym]);
      [| | | | apply elem_of_nil in Hsym; destruct Hsym];
      rewrite !Hchange in Htw; cbn [mbind result_bind] in Htw;
      repeat step_ok Htw; injection Htw as <-;
      fold (thread_indicator change).
    + split_movers 1%nat. split; [reflexivity |]. split; [reflexivity |].
      norm_text.
    + split_movers 2%nat. split; [reflexivity |]. split; [reflexivity |].
      norm_text.
    + split_movers 3%nat. split; [reflexivity |]. split; [reflexivity |].
      norm_text.
    + split_movers 4%nat. split; [reflexivity |]. split; [reflexivity |].
      norm_text.
  - unfold generate_instagram_caption, direction, fmt_abs_change, fmt in Hcap.
    unfold SOCIAL_ASSETS in Hsym.
    repeat (apply elem_of_cons in Hsym; destruct Hsym as [-> | Hsym]);
      [| | | | apply elem_of_nil in Hsym; destruct Hsym];
      rewrite !Hchange in Hcap; cbn [mbind result_bind] in Hcap;
      repeat step_ok Hcap; injection Hcap as <-;
      fold (caption_indicator change).
    + split_caption 1%nat. split; [reflexivity |]. norm_text.
    + split_caption 2%nat. split; [reflexivity |]. norm_text.
    + split_caption 3%nat. split; [reflexivity |]. norm_text.
    + split_caption 4%nat. split; [reflexivity |]. norm_text.
  - unfold thread_indicator. destruct (gt_zero change); split;
      intros H; reflexivity || discriminate H.
  - unfold caption_indicator. destruct (gt_zero change); split;
      intros H; reflexivity || discriminate H.
Qed.

Lemma change_direction_witness :
  exists tweets caption,
    generate_twitter_thread ∅ sample_prices sample_week_range = Ok tweets /\
    generate_instagram_caption sample_prices sample_week_range = Ok caption /\
    (exists movers pre price_text change_text post,
       tweets !! 1%nat = Some movers /\
       py_format "+.1f" (PyFloat (-3.2)) = Ok change_text /\
       movers = pre +:+ "BTC" +:+ ": $" +:+ price_text +:+ " ("
                +:+ change_text +:+ "%) " +:+ "🔴" +:+ nl +:+ post) /\
    (exists pre abs_text post,
       py_format ".1f" (py_abs (PyFloat (-3.2))) = Ok abs_text /\
       caption = pre +:+ " " +:+ "BTC" +:+ " " +:+ "down" +:+ " "
                 +:+ abs_text +:+ "%" +:+ post).
Proof.
  eexists _, _.
  split; [vm_compute; reflexivity |].
  split; [vm_compute; reflexivity |].
  pose proof (change_direction ∅ sample_prices sample_week_range "btc"
                (PyFloat (-3.2)) _ _
                ltac:(unfold SOCIAL_ASSETS; apply elem_of_cons; now left)
                eq_refl eq_refl eq_refl) as H.
  split; [exact (proj1 H) | exact (proj1 (proj2 H))].
Defined.

(** C5 (as amended).  [generate_twitter_thread] is a function of its
    two arguments and of the value of GITHUB_USERNAME in the process
    environment, on which only its third block depends: with identical
    prices and week range, two runs return identical threads when that
    value is the same, and in any case fail alike and agree on the first
    two blocks.  [generate_instagram_caption] reads nothing but its two
    arguments. *)
Theorem social_texts_determined (env1 env2 : gmap string string)
    (prices : gmap string (gmap string pynum)) (week_range : string * string) :
  (getenv_default env1 "GITHUB_USERNAME" "your-username"
   = getenv_default env2 "GITHUB_USERNAME" "your-username" ->
   generate_twitter_thread env1 prices week_range
   = generate_twitter_thread env2 prices week_range) /\
  (forall tweets1 tweets2,
     generate_twitter_thread env1 prices week_range = Ok tweets1 ->
     generate_twitter_thread env2 prices week_range = Ok tweets2 ->
     take 2 tweets1 = take 2 tweets2) /\
  (forall e,
     generate_twitter_thread env1 prices week_range = Raise e <->
     generate_twitter_thread env2 prices week_range = Raise e) /\
  (forall w1 w2 : world,
     (lift (generate_instagram_caption prices week_range) w1).1
     = (lift (generate_instagram_caption prices week_range) w2).1).
Proof.
  pose proof (generate_twitter_thread_env env1 env2 prices week_range) as H12.
  pose proof (generate_twitter_thread_env env1 env1 prices week_range) as H11.
  split; [| split; [| split]].
  - intros Hname. rewrite H12, H11 at 1. rewrite Hname. reflexivity.
  - intros tweets1 tweets2 H1 H2. rewrite H1 in H11, H12.
    rewrite H2 in H12. injection H12 as ->. injection H11 as H11.
    destruct tweets1 as [| a [| b l]]; try discriminate H11.
    reflexivity.
  - intros e. rewrite H12.
    destruct (generate_twitter_thread env1 prices week_range); split;
      intros H; try discriminate H; exact H.
  - reflexivity.
Qed.

(** C5, as stated, fails for the thread: with the same prices and week
    range, a run with GITHUB_USERNAME set to [alice] and a run without it
    return different threads. *)
Lemma generate_twitter_thread_reads_environment :
  generate_twitter_thread {[ "GITHUB_USERNAME" := "alice" ]}
    sample_prices sample_week_range
  <> generate_twitter_thread ∅ sample_prices sample_week_range.
Proof.
  intros H.
  apply (f_equal (fun r => match r with
                           | Ok tweets => (contains "alice" <$> tweets !! 2%nat)
                           | Raise _ => None
                           end)) in H.
  vm_compute in H. discriminate H.
Qed.

End Social.

(** ** The run of the script *)

Section Run.

Lemma main_unfold (w : world) :
  main w =
  match main_body (banner w) with
  | (Ok _, w') => (Ok tt, w')
  | (Raise e, w') => (Ok tt, logged e w')
  end.
Proof.
  unfold main, try_except, banner, logged, print, print_exc, mbind, M_bind.
  cbn -[main_body str_repeat exn_str exn_name].
  destruct (main_body _) as [[[] | e] w']; reflexivity.
Qed.


(** *** Computations that do not publish *)

Lemma no_publish_refl (w : world) : no_publish w w.
Proof.
  split; [reflexivity |].
  split; [exists [] | exists []]; rewrite app_nil_r;
    (split; [reflexivity |]); [constructor | apply not_elem_of_nil].
Qed.

Lemma no_publish_trans (w1 w2 w3 : world) :
  no_publish w1 w2 -> no_publish w2 w3 -> no_publish w1 w3.
Proof.
  intros (He1 & (rs1 & Hs1 & Hr1) & (o1 & Ho1 & Hd1))
         (He2 & (rs2 & Hs2 & Hr2) & (o2 & Ho2 & Hd2)).
  split; [congruence |]. split.
  - exists (rs1 ++ rs2). rewrite Hs2, Hs1, app_assoc.
    split; [reflexivity | now apply Forall_app].
  - exists (o1 ++ o2). rewrite Ho2, Ho1, app_assoc.
    split; [reflexivity |]. rewrite elem_of_app. tauto.
Qed.

Section Rules.

Variable env : gmap string string.

Lemma quietly_ret {A} (a : A) (Q : A -> Prop) : Q a -> quietly env (mret a) Q.
Proof. intros H w _. split; [apply no_publish_refl | exact H]. Qed.

Lemma quietly_bind {A B} (c : M A) (k : A -> M B) (Q : A -> Prop)
    (R : B -> Prop) :
  quietly env c Q ->
  (forall a, Q a -> quietly env (k a) R) ->
  quietly env (c ≫= k) R.
Proof.
  intros Hc Hk w Hw. specialize (Hc w Hw).
  unfold mbind, M_bind. destruct (c w) as [[a | e] w1]; cbn in *.
  - destruct Hc as [Hn Ha].
    assert (Hw1 : environ w1 = env) by (destruct Hn as [-> _]; exact Hw).
    specialize (Hk a Ha w1 Hw1).
    destruct (k a w1) as [r w2]; cbn in *.
    split; [eapply no_publish_trans; [exact Hn | exact (proj1 Hk)] |].
    exact (proj2 Hk).
  - split; [exact (proj1 Hc) | exact I].
Qed.

Lemma quietly_weaken {A} (c : M A) (Q R : A -> Prop) :
  quietly env c Q -> (forall a, Q a -> R a) -> quietly env c R.
Proof.
  intros Hc HQR w Hw. destruct (Hc w Hw) as [Hn Ha].
  split; [exact Hn |]. destruct (c w).1; auto.
Qed.

Lemma quietly_print (s : string) :
  s <> DEPLOY_BANNER -> quietly env (print s) (fun _ => True).
Proof.
  intros Hs w _. split; [| exact I]. cbn.
  split; [reflexivity |]. split.
  - exists []. rewrite app_nil_r. split; [reflexivity | constructor].
  - exists [s]. split; [reflexivity |].
    rewrite list_elem_of_singleton. congruence.
Qed.

Lemma quietly_call {A} (r : request) (service : world -> result A) :
  is_github_request r = false -> quietly env (call r service) (fun _ => True).
Proof.
  intros Hr w _. split; [| destruct (call r service w).1; exact I]. cbn.
  split; [reflexivity |]. split.
  - exists [r]. split; [reflexivity |]. constructor; [exact Hr | constructor].
  - exists []. rewrite app_nil_r. split; [reflexivity | apply not_elem_of_nil].
Qed.

(** A computation that reads the world and leaves it as it is. *)
Lemma quietly_read {A} (f : world -> result A) (Q : A -> Prop) :
  (forall w, environ w = env ->
             match f w with Ok a => Q a | Raise _ => True end) ->
  quietly env (fun w => (f w, w)) Q.
Proof.
  intros H w Hw. split; [apply no_publish_refl | exact (H w Hw)].
Qed.

Lemma quietly_lift {A} (r : result A) : quietly env (lift r) (fun _ => True).
Proof.
  apply quietly_read. intros w _. destruct r; exact I.
Qed.

Lemma quietly_write_file (path text : string) :
  quietly env (write_file path text) (fun _ => True).
Proof.
  intros w _. unfold write_file.
  destruct (write_error w path); cbn;
    (split; [| exact I]);
    (split; [reflexivity |]);
    (split; [exists [] | exists []]); rewrite app_nil_r;
    (split; [reflexivity |]); constructor || apply not_elem_of_nil.
Qed.

Lemma quietly_read_file (path : string) :
  quietly env (read_file path) (fun _ => True).
Proof.
  intros w _. unfold read_file.
  destruct (write_error w path), (read_error w path), (files w !! path); cbn;
    (split; [apply no_publish_refl | exact I]).
Qed.

Lemma quietly_path_exists (path : string) :
  quietly env (path_exists path) (fun _ => True).
Proof. apply quietly_read. intros w _. exact I. Qed.

Local Ltac quiet_prim :=
  lazymatch goal with
  | |- quietly _ (print _) _ =>
      apply quietly_print; intros Heq; simpl in Heq; discriminate Heq
  | |- quietly _ (call _ _) _ => apply quietly_call; reflexivity
  | |- quietly _ (lift _) _ => apply quietly_lift
  | |- quietly _ (write_file _ _) _ => apply quietly_write_file
  | |- quietly _ (read_file _) _ => apply quietly_read_file
  | |- quietly _ (path_exists _) _ => apply quietly_path_exists
  | |- quietly _ (mret _) _ => apply quietly_ret; exact I
  | |- quietly _ (fun w => (_, w)) _ =>
      apply (quietly_read _ (fun _ => True)); intros ? _;
      first [ exact I
            | match goal with
              | |- match ?r with _ => _ end => destruct r; exact I
              end ]
  end.

Local Ltac quiet :=
  repeat first
    [ quiet_prim
    | eapply quietly_bind; [solve [quiet_prim] | intros ? _] ].

Lemma quietly_fetch_crypto_prices :
  quietly env fetch_crypto_prices (fun _ => True).
Proof. unfold fetch_crypto_prices. quiet. Qed.

Lemma quietly_fetch_fear_greed_index :
  quietly env fetch_fear_greed_index (fun _ => True).
Proof. unfold fetch_fear_greed_index. quiet. Qed.

Lemma quietly_generate_html (prices : gmap string (gmap string pynum))
    (fg : fear_greed) (week_range : string * string) :
  quietly env (generate_html prices fg week_range) (fun _ => True).
Proof. unfold generate_html. quiet. Qed.

Lemma quietly_save_twitter_content (tweets : list string) :
  quietly env (save_twitter_content tweets) (fun _ => True).
Proof. unfold save_twitter_content. quiet. Qed.

Hypothesis no_credentials : credentials_absent env.

Lemma quietly_main_body : quietly env main_body (fun _ => True).
Proof.
  unfold main_body.
  eapply quietly_bind; [apply quietly_fetch_crypto_prices | intros prices _].
  eapply quietly_bind; [apply quietly_fetch_fear_greed_index | intros fg _].
  eapply quietly_bind; [solve [quiet_prim] | intros week_range _].
  eapply quietly_bind; [solve [quiet_prim] | intros _ _].
  eapply quietly_bind; [solve [quiet_prim] | intros template_exists _].
  eapply quietly_bind with (Q := fun _ => True).
  { destruct template_exists; [| solve [quiet_prim]].
    eapply quietly_bind; [apply quietly_generate_html | intros html _].
    eapply quietly_bind; [solve [quiet_prim] | intros _ _].
    eapply quietly_bind; [solve [quiet_prim] | intros _ _].
    eapply quietly_bind with (Q := fun v => v = getenv env "GITHUB_TOKEN").
    { apply quietly_read. intros w ->. reflexivity. }
    intros github_token ->.
    eapply quietly_bind with (Q := fun v => v = getenv env "GITHUB_USERNAME").
    { apply quietly_read. intros w ->. reflexivity. }
    intros github_username ->.
    unfold credentials_absent in no_credentials. rewrite no_credentials.
    quiet. }
  intros _ _.
  eapply quietly_bind; [solve [quiet_prim] | intros env' _].
  eapply quietly_bind; [solve [quiet_prim] | intros twitter_thread _].
  eapply quietly_bind; [apply quietly_save_twitter_content | intros _ _].
  quiet.
Qed.

Lemma quietly_main : quietly env main (fun _ => True).
Proof.
  unfold main.
  do 3 (eapply quietly_bind; [solve [quiet_prim] | intros _ _]).
  intros w Hw. unfold try_except.
  destruct (quietly_main_body w Hw) as [Hbody _].
  destruct (main_body w) as [[u | e] w']; cbn in *; [split; [exact Hbody | exact I] |].
  assert (Hw' : environ w' = env) by (destruct Hbody as [-> _]; exact Hw).
  assert (Hh : quietly env (print (nl +:+ "❌ Error occurred: " +:+ exn_str e);;
                            print_exc e) (fun _ => True)).
  { eapply quietly_bind; [solve [quiet_prim] | intros _ _].
    intros w1 _. split; [| exact I]. cbn.
    split; [reflexivity |].
    split; [exists [] | exists []]; rewrite app_nil_r;
      (split; [reflexivity |]); [constructor | apply not_elem_of_nil]. }
  destruct (Hh w' Hw') as [Hn _].
  split; [eapply no_publish_trans; eassumption |].
  destruct (_ w').1; exact I.
Qed.

End Rules.

(** *** A run whose steps succeed *)

Lemma format_prices_html_inputs (data prices : gmap string (gmap string pynum)) :
  format_prices data = Ok prices -> html_inputs_ok prices = true.
Proof.
  intros H. unfold format_prices in H.
  repeat match type of H with
         | (?c ≫= _) = Ok _ =>
             let E := fresh "E" in
             destruct c eqn:E; [cbn [mbind result_bind] in H | discriminate H]
         end.
  injection H as <-. reflexivity.
Qed.

Local Ltac run :=
  unfold mbind, mret, M_bind, M_ret, result_bind, print, call, lift,
    read_file, write_file, path_exists, getitem, first_item;
  cbn [set_stdout set_stderr set_sent set_files
       environ files stdout stderr sent now price_api fear_greed_api
       contents_api update_api read_error write_error fst snd].

Lemma main_body_run (w : world)
    (data prices : gmap string (gmap string pynum))
    (fdata : gmap string (list (gmap string string)))
    (entry : gmap string string) (entries : list (gmap string string))
    (text label : string) (n : Z) (week_range : string * string)
    (tweets : list string) (caption : string) :
  credentials_absent (environ w) ->
  price_api w = Ok data ->
  format_prices data = Ok prices ->
  fear_greed_api w = Ok fdata ->
  fdata !! "data" = Some (entry :: entries) ->
  entry !! "value" = Some text ->
  int_of_str text = Ok n ->
  entry !! "value_classification" = Some label ->
  get_week_range (now w) = Ok week_range ->
  files w !! TEMPLATE = None
  \/ (is_Some (files w !! TEMPLATE) /\ read_error w TEMPLATE = None
      /\ write_error w "index.html" = None) ->
  generate_twitter_thread (environ w) prices week_range = Ok tweets ->
  generate_instagram_caption prices week_range = Ok caption ->
  write_error w "twitter_thread.txt" = None ->
  write_error w "instagram_caption.txt" = None ->
  exists w',
    main_body w = (Ok tt, w') /\
    files w' !! "twitter_thread.txt" = Some (twitter_file_text tweets) /\
    files w' !! "instagram_caption.txt" = Some caption /\
    stderr w' = stderr w.
Proof.
  intros Hcred Hprice Hfmt Hfng Hdata Hvalue Hint Hlabel Hweek Htemplate
    Htw Hcap Hw1 Hw2.
  pose proof Htw as Hparts.
  unfold generate_twitter_thread in Hparts.
  repeat match type of Hparts with
         | (?c ≫= _) = Ok _ =>
             let E := fresh "E" in
             destruct c eqn:E;
             [cbn [mbind result_bind] in Hparts | discriminate Hparts]
         end.
  clear Hparts.
  unfold main_body, fetch_crypto_prices, fetch_fear_greed_index,
    save_twitter_content.
  run. rewrite Hprice. run. rewrite Hfmt. run. rewrite Hfng. run.
  rewrite Hdata. run. rewrite Hvalue. run. rewrite Hint. run.
  rewrite Hlabel. run. rewrite Hweek. run.
  destruct Htemplate as [Hnone | (Hsome & Hread & Hwrite)].
  - rewrite Hnone.
    rewrite bool_decide_eq_false_2 by (intros [? ?]; discriminate).
    run. rewrite Htw. run. rewrite Hw1. run. rewrite Hcap. run.
    rewrite Hw2. run.
    repeat match goal with
           | E : fmt prices _ _ _ = Ok _ |- context [fmt prices _ _ _] =>
               rewrite E; run
           end.
    eexists. split; [reflexivity |]. run.
    split; [| split; [| reflexivity]].
    + rewrite lookup_insert_ne by discriminate. apply lookup_insert_eq.
    + apply lookup_insert_eq.
  - rewrite bool_decide_eq_true_2 by exact Hsome.
    destruct Hsome as [template Htpl].
    destruct (price_js_total prices (format_prices_html_inputs _ _ Hfmt))
      as [js Hjs].
    unfold generate_html. run. rewrite Hread, Htpl. run. rewrite Hjs. run.
    rewrite Hwrite. run.
    unfold credentials_absent in Hcred. rewrite Hcred. run.
    rewrite Htw. run. rewrite Hw1. run. rewrite Hcap. run.
    rewrite Hw2. run.
    repeat match goal with
           | E : fmt prices _ _ _ = Ok _ |- context [fmt prices _ _ _] =>
               rewrite E; run
           end.
    eexists. split; [reflexivity |]. run.
    split; [| split; [| reflexivity]].
    + rewrite lookup_insert_ne by discriminate. apply lookup_insert_eq.
    + apply lookup_insert_eq.
Qed.




End Run.

(** * Further properties *)

(** ** The calendar dates of the week range *)

Section Calendar.

Lemma days_before_year_decomp (a b c e : Z) :
  0 <= a -> 0 <= b <= 3 -> 0 <= c <= 24 -> 0 <= e <= 3 ->
  days_before_year (400 * a + 100 * b + 4 * c + e + 1)
  = DI400Y * a + DI100Y * b + DI4Y * c + 365 * e.
Proof.
  intros Ha Hb Hc He. unfold days_before_year, DI400Y, DI100Y, DI4Y.
  cbv zeta.
  replace (400 * a + 100 * b + 4 * c + e + 1 - 1)
    with (400 * a + 100 * b + 4 * c + e) by lia.
  Z.div_mod_to_equations. lia.
Qed.

Lemma is_leap_decomp (a b c e : Z) :
  0 <= a -> 0 <= b <= 3 -> 0 <= c <= 24 -> 0 <= e <= 3 ->
  is_leap (400 * a + 100 * b + 4 * c + e + 1)
  = (e =? 3) && (negb (c =? 24) || (b =? 3)).
Proof.
  intros Ha Hb Hc He. unfold is_leap.
  destruct (e =? 3) eqn:E3, (c =? 24) eqn:C24, (b =? 3) eqn:B3; cbn;
    repeat match goal with
           | |- context [?x =? ?y] => destruct (Z.eqb_spec x y)
           end; cbn; try reflexivity;
    exfalso; 
    repeat match goal with
           | H : (_ =? _) = true |- _ => apply Z.eqb_eq in H
           | H : (_ =? _) = false |- _ => apply Z.eqb_neq in H
           end; Z.div_mod_to_equations; lia.
Qed.


(** The month and the day of the month of the day [r] (from 0) of a year
    that is a leap year or not, as [_ord2ymd] finds them. *)
Lemma month_day_decomp (leapyear : bool) (r : Z) :
  0 <= r <= 364 ->
  let month := Z.shiftr (r + 50) 5 in
  let preceding :=
    DAYS_BEFORE_MONTH month + (if (2 <? month) && leapyear then 1 else 0) in
  let '(m, d) :=
    if r <? preceding
    then
      let month := month - 1 in
      let preceding :=
        preceding
        - (DAYS_IN_MONTH month + (if (month =? 2) && leapyear then 1 else 0)) in
      (month, r - preceding + 1)
    else (month, r - preceding + 1) in
  1 <= m <= 12 /\
  1 <= d <= DAYS_IN_MONTH m + (if (m =? 2) && leapyear then 1 else 0) /\
  DAYS_BEFORE_MONTH m + (if (2 <? m) && leapyear then 1 else 0) + d = r + 1.
Proof.
  intros Hr. rewrite Z.shiftr_div_pow2 by lia. change (2 ^ 5) with 32.
  assert (Hm : (r + 50) / 32 = 1 \/ (r + 50) / 32 = 2 \/ (r + 50) / 32 = 3
               \/ (r + 50) / 32 = 4 \/ (r + 50) / 32 = 5 \/ (r + 50) / 32 = 6
               \/ (r + 50) / 32 = 7 \/ (r + 50) / 32 = 8 \/ (r + 50) / 32 = 9
               \/ (r + 50) / 32 = 10 \/ (r + 50) / 32 = 11
               \/ (r + 50) / 32 = 12)
    by (Z.div_mod_to_equations; lia).
  assert (Hb : 32 * ((r + 50) / 32) <= r + 50 < 32 * ((r + 50) / 32) + 32)
    by (Z.div_mod_to_equations; lia).
  cbv zeta.
  repeat (destruct Hm as [Hm | Hm]; [rewrite Hm in *; clear Hm |
            try (rewrite Hm in *; clear Hm)]);
    repeat match goal with
           | |- context [Zpos ?p - 1] =>
               let v := eval vm_compute in (Zpos p - 1) in
               change (Zpos p - 1) with v
           end;
    destruct leapyear; cbn;
    match goal with
    | |- context [r <? ?k] => destruct (Z.ltb_spec r k)
    end; cbn; lia.
Qed.

Lemma ord2ymd_ymd2ord (n : Z) :
  1 <= n <= MAXORDINAL ->
  let '(y, m, d) := ord2ymd n in
  1 <= y <= 9999 /\ 1 <= m <= 12 /\ 1 <= d <= days_in_month y m /\
  ymd2ord y m d = n.
Proof.
  intros Hn. unfold ord2ymd. cbv zeta.
  set (a := (n - 1) / DI400Y).
  set (r1 := (n - 1) mod DI400Y).
  set (b := r1 / DI100Y).
  set (r2 := r1 mod DI100Y).
  set (c := r2 / DI4Y).
  set (r3 := r2 mod DI4Y).
  set (e := r3 / 365).
  set (r4 := r3 mod 365).
  assert (H1 : n - 1 = DI400Y * a + r1 /\ 0 <= r1 < DI400Y /\ 0 <= a <= 24).
  { subst a r1. unfold MAXORDINAL, DI400Y in *. Z.div_mod_to_equations. lia. }
  assert (H2 : r1 = DI100Y * b + r2 /\ 0 <= r2 < DI100Y /\ 0 <= b <= 4).
  { subst b r2. unfold DI400Y, DI100Y in *. Z.div_mod_to_equations. lia. }
  assert (H3 : r2 = DI4Y * c + r3 /\ 0 <= r3 < DI4Y /\ 0 <= c <= 24).
  { subst c r3. unfold DI100Y, DI4Y in *. Z.div_mod_to_equations. lia. }
  assert (H4 : r3 = 365 * e + r4 /\ 0 <= r4 < 365 /\ 0 <= e <= 4).
  { subst e r4. unfold DI4Y in *. Z.div_mod_to_equations. lia. }
  clearbody a r1 b r2 c r3 e r4.
  destruct H1 as (E1 & B1 & Ba), H2 as (E2 & B2 & Bb), H3 as (E3 & B3 & Bc),
    H4 as (E4 & B4 & Be).
  unfold MAXORDINAL, DI400Y, DI100Y, DI4Y in Hn, E1, B1, E2, B2, E3, B3.
  destruct ((e =? 4) || (b =? 4)) eqn:Hlast.
  - (* the last day of a leap year *)
    assert (Hy : exists b' c',
               a * 400 + 1 + b * 100 + c * 4 + e - 1
               = 400 * a + 100 * b' + 4 * c' + 3 + 1
               /\ 0 <= b' <= 3 /\ 0 <= c' <= 24
               /\ (c' = 24 -> b' = 3)
               /\ n = DI400Y * a + DI100Y * b' + DI4Y * c' + 365 * 3 + 366).
    { apply orb_true_iff in Hlast as [He | Hb4].
      - apply Z.eqb_eq in He. exists b, c. unfold DI400Y, DI100Y, DI4Y. lia.
      - apply Z.eqb_eq in Hb4. exists 3, 24. unfold DI400Y, DI100Y, DI4Y. lia. }
    destruct Hy as (b' & c' & -> & Bb' & Bc' & Hc' & ->).
    unfold ymd2ord, days_in_month.
    rewrite days_before_year_decomp, is_leap_decomp by lia.
    replace (negb (c' =? 24) || (b' =? 3)) with true
      by (destruct (Z.eqb_spec c' 24), (Z.eqb_spec b' 3); cbn; lia).
    cbn. unfold DI400Y, DI100Y, DI4Y in *.
    assert (Ha : a <= 23 \/ a = 24) by lia.
    destruct Ha as [Ha | ->]; lia.
  - apply orb_false_iff in Hlast as [He Hb4].
    apply Z.eqb_neq in He, Hb4.
    replace (a * 400 + 1 + b * 100 + c * 4 + e)
      with (400 * a + 100 * b + 4 * c + e + 1) by lia.
    set (leapyear := (e =? 3) && (negb (c =? 24) || (b =? 3))).
    pose proof (month_day_decomp leapyear r4 ltac:(lia)) as Hmd.
    cbv zeta in Hmd.
    destruct (r4 <? _); cbv zeta;
      destruct Hmd as (Hm & Hd & Hsum);
      unfold ymd2ord, days_in_month;
      rewrite days_before_year_decomp, is_leap_decomp by lia;
      fold leapyear; unfold DI400Y, DI100Y, DI4Y;
      (assert (Ha : a <= 23 \/ a = 24) by lia);
      destruct Ha as [Ha | ->]; lia.
Qed.

End Calendar.

Section WeekRangeDates.

Local Ltac unfold_dates :=
  unfold week_bounds, sub_days, add_days, days_since_friday, weekday, FRIDAY,
    MAXORDINAL, valid, DAY_MICROSECONDS, Datetime.le, Datetime.lt in *;
  simpl in *.

(** The labels depend on the date of the start only, not on the time of
    day. *)
Lemma get_week_range_start (today : datetime) :
  5 <= toordinal today < MAXORDINAL ->
  get_week_range today
  = let start := toordinal today - days_since_friday today in
    Ok (strftime_B_d (mk_datetime start 0),
        strftime_B_d_Y (mk_datetime (start + 7) 0)).
Proof.
  intros Hrange. unfold get_week_range.
  rewrite (week_bounds_ok today Hrange). reflexivity.
Qed.

Lemma start_ordinal_range (today : datetime) :
  5 <= toordinal today < MAXORDINAL ->
  5 <= toordinal today - days_since_friday today
  /\ toordinal today - days_since_friday today + 7 <= MAXORDINAL
  /\ (toordinal today - days_since_friday today) mod 7 = 5.
Proof.
  unfold_dates. intros H. Z.div_mod_to_equations. lia.
Qed.



(** X2.  The week range is the same for every moment of a week: any
    date and time between the start of the window of [today] (a Friday)
    and the day before its end gives the labels that [today] gives. *)
Theorem get_week_range_constant_within_week (today other : datetime) :
  5 <= toordinal today < MAXORDINAL ->
  toordinal today - days_since_friday today <= toordinal other
    < toordinal today - days_since_friday today + 7 ->
  get_week_range other = get_week_range today.
Proof.
  intros Hrange Hother.
  destruct (start_ordinal_range today Hrange) as (Hlo & Hhi & Hfri).
  assert (Hrange' : 5 <= toordinal other < MAXORDINAL) by lia.
  rewrite (get_week_range_start today Hrange),
    (get_week_range_start other Hrange').
  replace (toordinal other - days_since_friday other)
    with (toordinal today - days_since_friday today); [reflexivity |].
  unfold_dates. Z.div_mod_to_equations. lia.
Qed.

Lemma get_week_range_constant_within_week_witness :
  get_week_range (mk_datetime (toordinal (of_ymd 2023 3 9)) 43200000000)
  = get_week_range (of_ymd 2023 3 8).
Proof.
  apply get_week_range_constant_within_week.
  - vm_compute. split; [discriminate | reflexivity].
  - vm_compute. split; [discriminate | reflexivity].
Defined.

Lemma week_bounds_inv (today start stop : datetime) :
  week_bounds today = Ok (start, stop) ->
  start = mk_datetime (toordinal today - days_since_friday today)
            (microsecond_of_day today) /\
  stop = mk_datetime (toordinal today - days_since_friday today + 7)
           (microsecond_of_day today) /\
  1 <= toordinal today - days_since_friday today /\
  toordinal today - days_since_friday today + 7 <= MAXORDINAL.
Proof.
  unfold week_bounds, sub_days, add_days. cbn [mbind result_bind].
  replace (toordinal today + - days_since_friday today)
    with (toordinal today - days_since_friday today) by lia.
  destruct ((0 <? toordinal today - days_since_friday today)
            && (toordinal today - days_since_friday today <=? MAXORDINAL))
    eqn:H1; [| discriminate].
  cbn [mbind result_bind toordinal microsecond_of_day].
  destruct ((0 <? toordinal today - days_since_friday today + 7)
            && (toordinal today - days_since_friday today + 7 <=? MAXORDINAL))
    eqn:H2; [| discriminate].
  intros [= <- <-].
  apply andb_true_iff in H1 as [H1 _], H2 as [_ H2].
  repeat split; lia.
Qed.

(** X3.  The windows tile the calendar.  When the date arithmetic of
    [get_week_range] gives the window [(start, stop)] for a date, it
    gives the same window for [start] itself, and, unless [stop] is
    beyond 9999-12-30, the window of [stop] begins at [stop] and ends
    seven days later: the end of one week is the start of the next. *)
Theorem week_bounds_tile (today start stop : datetime) :
  week_bounds today = Ok (start, stop) ->
  week_bounds start = Ok (start, stop) /\
  get_week_range start = get_week_range today /\
  (toordinal stop < MAXORDINAL ->
   exists stop',
     week_bounds stop = Ok (stop, stop') /\
     toordinal stop' = toordinal stop + 7 /\
     get_week_range stop = Ok (strftime_B_d stop, strftime_B_d_Y stop')).
Proof.
  intros Hwb.
  destruct (week_bounds_inv today start stop Hwb) as (-> & -> & Hlo & Hhi).
  pose proof (days_since_friday_range today) as Hoff.
  set (s := toordinal today - days_since_friday today) in *.
  assert (Hfri : s mod 7 = 5).
  { subst s. revert Hoff. unfold_dates. intros Hoff.
    Z.div_mod_to_equations. lia. }
  assert (Hs : 5 <= s < MAXORDINAL).
  { unfold MAXORDINAL in *. Z.div_mod_to_equations. lia. }
  assert (H0 : forall us, days_since_friday (mk_datetime s us) = 0).
  { intros us. unfold_dates. Z.div_mod_to_equations. lia. }
  assert (H7 : forall us, days_since_friday (mk_datetime (s + 7) us) = 0).
  { intros us. unfold_dates. Z.div_mod_to_equations. lia. }
  assert (Hstart : week_bounds (mk_datetime s (microsecond_of_day today))
                   = Ok (mk_datetime s (microsecond_of_day today),
                         mk_datetime (s + 7) (microsecond_of_day today))).
  { rewrite week_bounds_ok by exact Hs. cbn [toordinal microsecond_of_day].
    rewrite H0, Z.sub_0_r. reflexivity. }
  split; [exact Hstart |]. split.
  { unfold get_week_range. rewrite Hstart, Hwb. reflexivity. }
  cbn [toordinal]. intros Hstop.
  assert (Hnext : week_bounds (mk_datetime (s + 7) (microsecond_of_day today))
                  = Ok (mk_datetime (s + 7) (microsecond_of_day today),
                        mk_datetime (s + 7 + 7) (microsecond_of_day today))).
  { rewrite week_bounds_ok by (cbn [toordinal]; lia).
    cbn [toordinal microsecond_of_day]. rewrite H7, Z.sub_0_r. reflexivity. }
  eexists. split; [exact Hnext |]. split; [reflexivity |].
  unfold get_week_range. rewrite Hnext. reflexivity.
Qed.

Lemma week_bounds_tile_witness :
  week_bounds (of_ymd 2023 3 3) = Ok (of_ymd 2023 3 3, of_ymd 2023 3 10) /\
  get_week_range (of_ymd 2023 3 3) = get_week_range (of_ymd 2023 3 8) /\
  exists stop',
    week_bounds (of_ymd 2023 3 10) = Ok (of_ymd 2023 3 10, stop') /\
    toordinal stop' = toordinal (of_ymd 2023 3 10) + 7 /\
    get_week_range (of_ymd 2023 3 10)
    = Ok (strftime_B_d (of_ymd 2023 3 10), strftime_B_d_Y stop').
Proof.
  destruct (week_bounds_tile (of_ymd 2023 3 8) (of_ymd 2023 3 3)
              (of_ymd 2023 3 10) eq_refl) as (Hstart & Hsame & Hnext).
  split; [exact Hstart |]. split; [exact Hsame |].
  apply Hnext. vm_compute. reflexivity.
Defined.

End WeekRangeDates.

(** ** The price fetcher: request, failures, copied fields *)

Section FetchersMore.

Local Ltac step_ok H :=
  match type of H with
  | (?c ≫= _) = Ok _ =>
      let E := fresh "E" in
      destruct c eqn:E; [cbn [mbind result_bind] in H | discriminate H]
  end.

Lemma getitem2_ok {V} (d : gmap string (gmap string V)) (k1 k2 : string)
    (v : V) :
  getitem2 d k1 k2 = Ok v <->
  exists r, d !! k1 = Some r /\ r !! k2 = Some v.
Proof.
  unfold getitem2, getitem. split.
  - destruct (d !! k1) as [r |]; cbn; [| discriminate].
    destruct (r !! k2) as [x |] eqn:E; [| discriminate].
    intros [= <-]. eauto.
  - intros (r & -> & Hr). cbn. now rewrite Hr.
Qed.

Lemma getitem2_raise {V} (d : gmap string (gmap string V)) (k1 k2 : string)
    (e : exn) :
  getitem2 d k1 k2 = Raise e -> e = KeyError k1 \/ e = KeyError k2.
Proof.
  unfold getitem2, getitem.
  destruct (d !! k1) as [r |]; cbn; [| intros [= <-]; now left].
  destruct (r !! k2); [discriminate | intros [= <-]; now right].
Qed.

Lemma getitem_get_ok {V} (d : gmap string (gmap string V)) (k1 k2 : string)
    (dflt v : V) :
  getitem_get d k1 k2 dflt = Ok v <->
  exists r, d !! k1 = Some r /\ v = default dflt (r !! k2).
Proof.
  unfold getitem_get, getitem. split.
  - destruct (d !! k1) as [r |]; cbn; [| discriminate].
    intros [= <-]. eauto.
  - intros (r & -> & ->). reflexivity.
Qed.

Lemma getitem_get_raise {V} (d : gmap string (gmap string V))
    (k1 k2 : string) (dflt : V) (e : exn) :
  getitem_get d k1 k2 dflt = Raise e -> e = KeyError k1.
Proof.
  unfold getitem_get, getitem.
  destruct (d !! k1) as [r |]; cbn; [discriminate | now intros [= <-]].
Qed.

Lemma has_fields_intro {V} (d : gmap string (gmap string V)) (id : string)
    (fields : list string) (r : gmap string V) :
  d !! id = Some r ->
  Forall (fun f => is_Some (r !! f)) fields ->
  has_fields d id fields = true.
Proof.
  intros Hd Hf. unfold has_fields. rewrite Hd.
  apply forallb_forall. intros f Hin.
  apply bool_decide_eq_true_2.
  rewrite Forall_forall in Hf. apply Hf. now apply list_elem_of_In.
Qed.

(** [format_prices] returns exactly for the complete responses. *)
Lemma format_prices_complete (data prices : gmap string (gmap string pynum)) :
  format_prices data = Ok prices -> complete_price_response data = true.
Proof.
  intros H. unfold format_prices in H.
  do 16 step_ok H. clear H.
  repeat match goal with
         | E : getitem2 _ _ _ = Ok _ |- _ =>
             apply getitem2_ok in E; destruct E as (? & ? & ?)
         | E : getitem_get _ _ _ _ = Ok _ |- _ => clear E
         end.
  repeat match goal with
         | H1 : data !! ?k = Some ?r1, H2 : data !! ?k = Some ?r2 |- _ =>
             rewrite H1 in H2; injection H2 as <-
         end.
  unfold complete_price_response.
  repeat (apply andb_true_intro; split);
    (eapply has_fields_intro; [eassumption |]);
    repeat constructor; eauto.
Qed.

Lemma format_prices_key_error (data : gmap string (gmap string pynum))
    (e : exn) :
  format_prices data = Raise e ->
  exists key, e = KeyError key /\ key ∈ PRICE_KEYS.
Proof.
  unfold format_prices. intros H.
  repeat match type of H with
         | (?c ≫= _) = Raise _ =>
             let E := fresh "E" in
             destruct c eqn:E;
             [ cbn [mbind result_bind] in H; clear E
             | cbn [mbind result_bind] in H; injection H as <-;
               first [ apply getitem2_raise in E; destruct E as [-> | ->]
                     | apply getitem_get_raise in E; subst ];
               eexists; (split; [reflexivity |]);
               unfold PRICE_KEYS; repeat constructor ]
         end.
  discriminate H.
Qed.


Lemma fetch_crypto_prices_unfold (w : world) :
  fetch_crypto_prices w =
  let w1 := set_sent (sent w ++ [PRICE_REQUEST])
              (set_stdout (stdout w ++ ["📊 Fetching crypto prices..."]) w) in
  match price_api w with
  | Ok data =>
      match format_prices data with
      | Ok prices =>
          (Ok prices,
           set_stdout (stdout w1 ++ ["✅ Prices fetched successfully!"]) w1)
      | Raise e => (Raise e, w1)
      end
  | Raise e => (Raise e, w1)
  end.
Proof.
  unfold fetch_crypto_prices, print, call, lift, mbind, M_bind, mret, M_ret.
  cbn -[format_prices].
  destruct (price_api w) as [data | e]; [| reflexivity].
  destruct (format_prices data); reflexivity.
Qed.


(** X5.  The table that [fetch_crypto_prices] returns copies the
    response: for btc, eth, usdt and dai the price, the volume and the
    market cap are the [usd], [usd_24h_vol] and [usd_market_cap] of the
    upstream id, and the all-time high and low are the constants of the
    script.  The 24h change of btc and eth is the upstream
    [usd_24h_change]; for usdt and dai it is that field when the response
    has it and the integer 0 when it has not. *)
Theorem fetch_crypto_prices_copies_fields (w w' : world)
    (prices : gmap string (gmap string pynum)) :
  fetch_crypto_prices w = (Ok prices, w') ->
  exists data,
    price_api w = Ok data /\
    Forall (fun '(symbol, id, ath, atl) =>
              getitem2 prices symbol "price" = getitem2 data id "usd" /\
              getitem2 prices symbol "volume_24h"
              = getitem2 data id "usd_24h_vol" /\
              getitem2 prices symbol "market_cap"
              = getitem2 data id "usd_market_cap" /\
              getitem2 prices symbol "ath" = Ok ath /\
              getitem2 prices symbol "atl" = Ok atl) LISTED /\
    getitem2 prices "btc" "change_24h"
    = getitem2 data "bitcoin" "usd_24h_change" /\
    getitem2 prices "eth" "change_24h"
    = getitem2 data "ethereum" "usd_24h_change" /\
    (forall id symbol record,
       (id, symbol) ∈ [("tether", "usdt"); ("dai", "dai")] ->
       data !! id = Some record ->
       getitem2 prices symbol "change_24h"
       = Ok (match record !! "usd_24h_change" with
             | Some change => change
             | None => PyInt 0
             end)).
Proof.
  rewrite fetch_crypto_prices_unfold. cbv zeta.
  destruct (price_api w) as [data | e]; [| discriminate].
  destruct (format_prices data) as [prices0 | e] eqn:Hfmt; [| discriminate].
  intros [= <- _]. exists data. split; [reflexivity |].
  unfold format_prices in Hfmt.
  do 16 step_ok Hfmt. injection Hfmt as <-.
  split.
  { unfold LISTED.
    repeat (apply Forall_cons; split); [.. | apply Forall_nil];
      cbn beta iota; repeat split;
      first [ reflexivity
            | match goal with
              | E : ?x = Ok _ |- _ = ?x => rewrite E; reflexivity
              end ]. }
  split; [reflexivity |]. split; [reflexivity |].
  intros id symbol record Hin Hrecord.
  repeat (apply elem_of_cons in Hin; destruct Hin as [[= -> ->] | Hin]);
    [| | apply elem_of_nil in Hin; destruct Hin];
    match goal with
    | E : getitem_get data ?k _ _ = Ok _ |- _ =>
        match type of Hrecord with
        | data !! k = _ =>
            apply getitem_get_ok in E; destruct E as (r & Hr & ->);
            rewrite Hrecord in Hr; injection Hr as <-
        end
    end;
    reflexivity.
Qed.

Lemma fetch_crypto_prices_copies_fields_witness :
  exists data,
    price_api quiet_world = Ok data /\
    Forall (fun '(symbol, id, ath, atl) =>
              getitem2 fetched_prices symbol "price" = getitem2 data id "usd" /\
              getitem2 fetched_prices symbol "volume_24h"
              = getitem2 data id "usd_24h_vol" /\
              getitem2 fetched_prices symbol "market_cap"
              = getitem2 data id "usd_market_cap" /\
              getitem2 fetched_prices symbol "ath" = Ok ath /\
              getitem2 fetched_prices symbol "atl" = Ok atl) LISTED /\
    getitem2 fetched_prices "btc" "change_24h"
    = getitem2 data "bitcoin" "usd_24h_change" /\
    getitem2 fetched_prices "eth" "change_24h"
    = getitem2 data "ethereum" "usd_24h_change" /\
    (forall id symbol record,
       (id, symbol) ∈ [("tether", "usdt"); ("dai", "dai")] ->
       data !! id = Some record ->
       getitem2 fetched_prices symbol "change_24h"
       = Ok (match record !! "usd_24h_change" with
             | Some change => change
             | None => PyInt 0
             end)).
Proof.
  apply (fetch_crypto_prices_copies_fields quiet_world
           (fetch_crypto_prices quiet_world).2 fetched_prices).
  reflexivity.
Defined.

End FetchersMore.

(** ** The sentiment fetcher: failures, and [int] of a decimal text *)

Section IntText.

Lemma parse_digits_uint (u : uint) (acc : Z) :
  parse_digits true acc (NilEmpty.string_of_uint u) = Some (uint_value acc u).
Proof.
  revert acc. induction u; intros acc; cbn [NilEmpty.string_of_uint uint_value];
    [reflexivity | ..]; exact (IHu _).
Qed.

Lemma parse_digits_first (u : uint) :
  u <> Nil ->
  parse_digits false 0 (NilEmpty.string_of_uint u) = Some (uint_value 0 u).
Proof.
  destruct u; intros H; [congruence | ..];
    exact (parse_digits_uint _ _).
Qed.

Lemma uint_value_acc (u : uint) (acc : positive) :
  uint_value (Zpos acc) u = Zpos (Pos.of_uint_acc u acc).
Proof.
  revert acc. induction u; intros acc; cbn [uint_value Pos.of_uint_acc];
    [reflexivity | ..];
    match goal with
    | |- uint_value ?a _ = Zpos (Pos.of_uint_acc _ ?p) =>
        replace a with (Zpos p) by lia; apply IHu
    end.
Qed.

Lemma uint_value_of_uint (u : uint) : uint_value 0 u = Z.of_N (Pos.of_uint u).
Proof.
  induction u; cbn [uint_value Pos.of_uint]; [reflexivity | exact IHu | ..];
    exact (uint_value_acc _ _).
Qed.

(** A text of digits has no space to strip. *)
Lemma rstrip_uint (u : uint) :
  rstrip (NilEmpty.string_of_uint u) = NilEmpty.string_of_uint u.
Proof.
  induction u; cbn [NilEmpty.string_of_uint rstrip]; [reflexivity | ..];
    rewrite IHu; destruct (NilEmpty.string_of_uint u); reflexivity.
Qed.

Lemma lstrip_uint (u : uint) :
  lstrip (NilEmpty.string_of_uint u) = NilEmpty.string_of_uint u.
Proof. destruct u; reflexivity. Qed.

Lemma int_of_str_uint (u : uint) :
  u <> Nil ->
  int_of_str (NilEmpty.string_of_uint u) = Ok (Z.of_N (Pos.of_uint u)) /\
  int_of_str (String "-" (NilEmpty.string_of_uint u))
  = Ok (- Z.of_N (Pos.of_uint u)).
Proof.
  intros Hu. pose proof (parse_digits_first u Hu) as Hp.
  rewrite uint_value_of_uint in Hp.
  unfold int_of_str, strip. split.
  - rewrite lstrip_uint, rstrip_uint.
    destruct u; [congruence | ..];
      cbn [NilEmpty.string_of_uint] in *; rewrite Hp; reflexivity.
  - cbn [lstrip is_space]. 
    change (is_space "-") with false. cbn iota.
    cbn [rstrip]. rewrite rstrip_uint.
    destruct (NilEmpty.string_of_uint u) eqn:Hs.
    + destruct u; discriminate.
    + rewrite Hp. reflexivity.
Qed.

(** [int(str(n)) == n] *)
Lemma int_of_str_str_int (n : Z) : int_of_str (str_int n) = Ok n.
Proof.
  unfold str_int. destruct n as [| p | p]; [reflexivity | ..];
    cbn [Z.to_int NilZero.string_of_int];
    pose proof (DecimalPos.Unsigned.to_uint_nonnil p) as Hnil;
    pose proof (DecimalPos.Unsigned.of_to p) as Hp;
    destruct (int_of_str_uint (Pos.to_uint p) Hnil) as [Hpos Hneg];
    rewrite Hp in Hpos, Hneg;
    replace (NilZero.string_of_uint (Pos.to_uint p))
      with (NilEmpty.string_of_uint (Pos.to_uint p))
      by (destruct (Pos.to_uint p); [congruence | reflexivity ..]);
    assumption.
Qed.

End IntText.

Section FearGreedMore.

Lemma int_of_str_raise (s : string) (e : exn) :
  int_of_str s = Raise e -> exists msg, e = ValueError msg.
Proof.
  unfold int_of_str. intros H.
  repeat match type of H with
         | match ?x with _ => _ end = _ => destruct x
         end;
    try discriminate H; injection H as <-; eauto.
Qed.

Lemma fetch_fear_greed_index_unfold (w : world) :
  fetch_fear_greed_index w =
  let w1 := set_sent (sent w ++ [FEAR_GREED_REQUEST])
              (set_stdout (stdout w ++ ["😱 Fetching Fear & Greed Index..."])
                 w) in
  match fear_greed_api w with
  | Raise e => (Raise e, w1)
  | Ok data =>
      match data !! "data" with
      | None => (Raise (KeyError "data"), w1)
      | Some [] => (Raise (IndexError "list index out of range"), w1)
      | Some (entry :: _) =>
          match entry !! "value" with
          | None => (Raise (KeyError "value"), w1)
          | Some text =>
              match int_of_str text with
              | Raise e => (Raise e, w1)
              | Ok n =>
                  match entry !! "value_classification" with
                  | None => (Raise (KeyError "value_classification"), w1)
                  | Some label =>
                      (Ok (mk_fear_greed n label),
                       set_stdout
                         (stdout w1 ++ ["✅ Fear & Greed: " +:+ str_int n
                                        +:+ " (" +:+ label +:+ ")"]) w1)
                  end
              end
          end
      end
  end.
Proof.
  unfold fetch_fear_greed_index, print, call, lift, mbind, M_bind, mret, M_ret.
  cbn -[int_of_str str_int]. unfold getitem, first_item.
  destruct (fear_greed_api w) as [data | e]; [| reflexivity].
  destruct (data !! "data") as [[| entry entries] |]; cbn -[int_of_str str_int];
    try reflexivity.
  destruct (entry !! "value") as [text |]; cbn -[int_of_str str_int];
    [| reflexivity].
  destruct (int_of_str text) as [n | e]; cbn -[int_of_str str_int];
    [| reflexivity].
  destruct (entry !! "value_classification"); reflexivity.
Qed.





End FearGreedMore.

(** ** The trending coins *)

Section Trending.

Context {V : Type}.

Local Ltac step_ok H :=
  match type of H with
  | (?c ≫= _) = Ok _ =>
      let E := fresh "E" in
      destruct c eqn:E; [cbn [mbind result_bind] in H | discriminate H]
  end.

Lemma trending_loop_ok (coins : list (gmap string (gmap string V)))
    (acc trending : list (gmap string V)) :
  trending_loop coins acc = Ok trending ->
  exists entries,
    trending = acc ++ entries /\ Forall2 entry_of coins entries.
Proof.
  revert acc. induction coins as [| coin coins IH]; intros acc H.
  - injection H as <-. exists []. rewrite app_nil_r. split; constructor.
  - cbn [trending_loop] in H. do 3 step_ok H.
    destruct (IH _ H) as (entries & -> & Hall).
    apply getitem2_ok in E as (item & Hitem & Hname).
    apply getitem2_ok in E0 as (item0 & Hitem0 & Hsymbol).
    apply getitem2_ok in E1 as (item1 & Hitem1 & Hrank).
    rewrite Hitem in Hitem0, Hitem1.
    injection Hitem0 as <-. injection Hitem1 as <-.
    eexists (_ :: entries). rewrite <- app_assoc. split; [reflexivity |].
    constructor; [| exact Hall].
    exists item, a, a0, a1. auto.
Qed.

Lemma trending_loop_total (coins : list (gmap string (gmap string V)))
    (acc : list (gmap string V)) :
  Forall (fun coin => has_fields coin "item"
                        ["name"; "symbol"; "market_cap_rank"] = true) coins ->
  is_ok (trending_loop coins acc) = true.
Proof.
  revert acc. induction coins as [| coin coins IH]; intros acc H;
    [reflexivity |].
  inversion H as [| ? ? Hcoin Hrest]; subst.
  unfold has_fields in Hcoin.
  destruct (coin !! "item") as [item |] eqn:Hitem; [| discriminate Hcoin].
  cbn [forallb] in Hcoin.
  repeat match goal with
         | Hx : _ && _ = true |- _ => apply andb_true_iff in Hx; destruct Hx
         end.
  repeat match goal with
         | Hx : bool_decide (is_Some _) = true |- _ =>
             apply bool_decide_eq_true_1 in Hx; destruct Hx
         end.
  cbn [trending_loop]. unfold getitem2, getitem. rewrite Hitem.
  cbn [mbind result_bind].
  repeat match goal with
         | Hx : item !! _ = Some _ |- _ =>
             rewrite Hx; clear Hx; cbn [mbind result_bind]
         end.
  apply IH, Hrest.
Qed.

Lemma trending_loop_raise (coins : list (gmap string (gmap string V)))
    (acc : list (gmap string V)) (e : exn) :
  trending_loop coins acc = Raise e ->
  exists key, e = KeyError key
              /\ key ∈ ["item"; "name"; "symbol"; "market_cap_rank"].
Proof.
  revert acc. induction coins as [| coin coins IH]; intros acc H;
    [discriminate H |].
  cbn [trending_loop] in H.
  repeat match type of H with
         | (?c ≫= _) = Raise _ =>
             let E := fresh "E" in
             destruct c eqn:E;
             [ cbn [mbind result_bind] in H; clear E
             | cbn [mbind result_bind] in H; injection H as <-;
               apply getitem2_raise in E; destruct E as [-> | ->];
               eexists; (split; [reflexivity |]); repeat constructor ]
         end.
  exact (IH _ H).
Qed.

Lemma entry_of_has_fields (coins : list (gmap string (gmap string V)))
    (entries : list (gmap string V)) :
  Forall2 entry_of coins entries ->
  forallb (fun coin => has_fields coin "item"
                         ["name"; "symbol"; "market_cap_rank"]) coins = true.
Proof.
  induction 1 as [| coin entry coins entries Hentry _ IH]; [reflexivity |].
  cbn [forallb]. rewrite IH, andb_true_r.
  destruct Hentry as (item & name & symbol & rank & Hitem & Hn & Hs & Hr & _).
  eapply has_fields_intro; [exact Hitem |].
  repeat constructor; eauto.
Qed.

Lemma fetch_trending_coins_unfold
    (api : result (gmap string (list (gmap string (gmap string V)))))
    (w : world) :
  fetch_trending_coins api w =
  let w1 := set_sent (sent w ++ [TRENDING_REQUEST])
              (set_stdout (stdout w ++ ["🔥 Fetching trending coins..."]) w) in
  match api with
  | Raise e => (Raise e, w1)
  | Ok data =>
      match data !! "coins" with
      | None => (Raise (KeyError "coins"), w1)
      | Some coins =>
          match trending_loop (take 5 coins) [] with
          | Raise e => (Raise e, w1)
          | Ok trending =>
              (Ok trending,
               set_stdout
                 (stdout w1 ++ ["✅ Found "
                                +:+ str_int (Z.of_nat (length trending))
                                +:+ " trending coins"]) w1)
          end
      end
  end.
Proof.
  unfold fetch_trending_coins, print, call, lift, mbind, M_bind, mret, M_ret,
    getitem.
  cbn -[trending_loop str_int take].
  destruct api as [data | e]; [| reflexivity].
  destruct (data !! "coins") as [coins |]; [| reflexivity].
  destruct (trending_loop (take 5 coins) []); reflexivity.
Qed.

(** X8.  When [fetch_trending_coins] returns, the list has one entry for
    each of the first five coins of the response, in their order, and
    none for the coins after the fifth: its length is the smaller of 5
    and the number of coins, and each entry holds exactly the [name], the
    [symbol] and the [market_cap_rank] of the item of its coin.  One
    request has been sent, no file written, and the last line printed
    tells the number of entries. *)
Theorem fetch_trending_coins_first_five
    (api : result (gmap string (list (gmap string (gmap string V)))))
    (w w' : world) (trending : list (gmap string V)) :
  fetch_trending_coins api w = (Ok trending, w') ->
  exists data coins,
    api = Ok data /\
    data !! "coins" = Some coins /\
    Forall2 entry_of (take 5 coins) trending /\
    length trending = Nat.min 5 (length coins) /\
    sent w' = sent w ++ [TRENDING_REQUEST] /\
    files w' = files w /\
    stdout w'
    = stdout w ++ ["🔥 Fetching trending coins...";
                   "✅ Found " +:+ str_int (Z.of_nat (Nat.min 5 (length coins)))
                   +:+ " trending coins"].
Proof.
  rewrite fetch_trending_coins_unfold. cbv zeta.
  destruct api as [data | e]; [| discriminate].
  destruct (data !! "coins") as [coins |] eqn:Hcoins; [| discriminate].
  destruct (trending_loop (take 5 coins) []) as [t | e] eqn:Hloop;
    [| discriminate].
  intros [= <- <-].
  destruct (trending_loop_ok _ _ _ Hloop) as (entries & -> & Hall).
  cbn [app] in *.
  assert (Hlen : length entries = Nat.min 5 (length coins)).
  { rewrite <- (Forall2_length _ _ _ Hall). apply length_take. }
  exists data, coins. rewrite Hlen.
  cbn [sent files stdout set_sent set_stdout]. rewrite <- app_assoc.
  repeat split; assumption.
Qed.


End Trending.

Lemma fetch_trending_coins_first_five_witness :
  exists data coins,
    Ok sample_trending_response = Ok data /\
    data !! "coins" = Some coins /\
    Forall2 entry_of (take 5 coins) sample_trending /\
    length sample_trending = Nat.min 5 (length coins) /\
    sent (fetch_trending_coins (Ok sample_trending_response) quiet_world).2
    = sent quiet_world ++ [TRENDING_REQUEST] /\
    files (fetch_trending_coins (Ok sample_trending_response) quiet_world).2
    = files quiet_world /\
    stdout (fetch_trending_coins (Ok sample_trending_response) quiet_world).2
    = stdout quiet_world
      ++ ["🔥 Fetching trending coins...";
          "✅ Found " +:+ str_int (Z.of_nat (Nat.min 5 (length coins)))
          +:+ " trending coins"].
Proof.
  apply (fetch_trending_coins_first_five (Ok sample_trending_response)
           quiet_world
           (fetch_trending_coins (Ok sample_trending_response) quiet_world).2
           sample_trending).
  reflexivity.
Defined.

(** ** The rendering: failures, templates without and with holes *)

Section HtmlMore.

Local Ltac step_ok H :=
  match type of H with
  | (?c ≫= _) = Ok _ =>
      let E := fresh "E" in
      destruct c eqn:E; [cbn [mbind result_bind] in H | discriminate H]
  end.

Lemma price_js_entry_fields (prices : gmap string (gmap string pynum))
    (symbol entry : string) :
  price_js_entry prices symbol = Ok entry ->
  has_fields prices symbol ["price"; "change_24h"; "ath"; "atl"] = true.
Proof.
  intros H. unfold price_js_entry in H. do 4 step_ok H. clear H.
  repeat match goal with
         | E : getitem2 _ _ _ = Ok _ |- _ =>
             apply getitem2_ok in E; destruct E as (? & ? & ?)
         end.
  repeat match goal with
         | H1 : prices !! ?k = Some ?r1, H2 : prices !! ?k = Some ?r2 |- _ =>
             rewrite H1 in H2; injection H2 as <-
         end.
  eapply has_fields_intro; [eassumption |]. repeat constructor; eauto.
Qed.

Lemma price_js_inputs (prices : gmap string (gmap string pynum)) (js : string) :
  price_js prices = Ok js -> html_inputs_ok prices = true.
Proof.
  intros H. unfold price_js in H. do 6 step_ok H. clear H.
  unfold html_inputs_ok. cbn [forallb].
  repeat match goal with
         | E : price_js_entry prices ?s = Ok _ |- _ =>
             rewrite (price_js_entry_fields prices s _ E); clear E
         end.
  reflexivity.
Qed.

Lemma price_js_entry_raise (prices : gmap string (gmap string pynum))
    (symbol : string) (e : exn) :
  price_js_entry prices symbol = Raise e ->
  exists key, e = KeyError key
              /\ key ∈ [symbol; "price"; "change_24h"; "ath"; "atl"].
Proof.
  unfold price_js_entry. intros H.
  repeat match type of H with
         | (?c ≫= _) = Raise _ =>
             let E := fresh "E" in
             destruct c eqn:E;
             [ cbn [mbind result_bind] in H; clear E
             | cbn [mbind result_bind] in H; injection H as <-;
               apply getitem2_raise in E; destruct E as [-> | ->];
               eexists; (split; [reflexivity |]); repeat constructor ]
         end.
  discriminate H.
Qed.

Lemma price_js_raise (prices : gmap string (gmap string pynum)) (e : exn) :
  price_js prices = Raise e -> exists key, e = KeyError key.
Proof.
  unfold price_js. intros H.
  repeat match type of H with
         | (?c ≫= _) = Raise _ =>
             let E := fresh "E" in
             destruct c eqn:E;
             [ cbn [mbind result_bind] in H; clear E
             | cbn [mbind result_bind] in H; injection H as <-;
               destruct (price_js_entry_raise _ _ _ E) as (key & -> & _);
               eauto ]
         end.
  discriminate H.
Qed.


(** A text without the token is left as it is. *)
Lemma replace_absent (t r s : string) :
  t <> "" -> contains t s = false -> replace s t r = s.
Proof.
  intros Hne. destruct t as [| c0 t0]; [congruence |].
  unfold replace. induction s as [| c s IH]; [reflexivity |].
  rewrite contains_cons. intros H. apply orb_false_iff in H as [Hs Hc].
  rewrite replace_from_miss by exact Hs. f_equal. exact (IH Hc).
Qed.



End HtmlMore.

Section Layout.

Lemma append_empty_r (s : string) : s +:+ "" = s.
Proof.
  induction s as [| c s IH]; [reflexivity |].
  change (String c (s +:+ "") = String c s). now rewrite IH.
Qed.

Lemma concat_cons (s : string) (l : list string) :
  String.concat "" (s :: l) = s +:+ String.concat "" l.
Proof.
  destruct l; [symmetry; apply append_empty_r | reflexivity].
Qed.

Lemma layout_cons (p : piece) (ps : list piece) :
  layout (p :: ps) = piece_text p +:+ layout ps.
Proof. apply concat_cons. Qed.

(** A text that adds no pair, whatever follows it. *)
Lemma plain_from_app (x y : string) (b : bool) :
  brace_pairs_from b (x +:+ "{") = 0%nat ->
  brace_pairs_from b (x +:+ y) = brace_pairs_from false y.
Proof.
  revert b. induction x as [| c x IH]; intros b H.
  - destruct b; [discriminate H | reflexivity].
  - change (String c x +:+ ?z) with (String c (x +:+ z)) in *.
    cbn [brace_pairs_from] in *.
    rewrite (IH (is_lbrace c)) by lia.
    destruct (b && is_lbrace c); [discriminate H | reflexivity].
Qed.

Lemma brace_pairs_from_app_le (x y : string) (b : bool) :
  (brace_pairs_from b x <= brace_pairs_from b (x +:+ y))%nat.
Proof.
  revert b. induction x as [| c x IH]; intros b; [simpl; lia |].
  change (String c x +:+ y) with (String c (x +:+ y)).
  cbn [brace_pairs_from]. specialize (IH (is_lbrace c)). lia.
Qed.

Local Ltac split_tokens H :=
  unfold TOKENS in H;
  repeat (apply elem_of_cons in H; destruct H as [-> | H]);
  [.. | apply elem_of_nil in H; destruct H].

Lemma append_cons (c : ascii) (s y : string) :
  String c s +:+ y = String c (s +:+ y).
Proof. reflexivity. Qed.

Lemma append_nil (y : string) : "" +:+ y = y.
Proof. reflexivity. Qed.

Lemma brace_pairs_from_zero_cons (b : bool) (c : ascii) (y : string) :
  brace_pairs_from b (String c y) = 0%nat ->
  b && Ascii.eqb c "{" = false /\ brace_pairs_from (Ascii.eqb c "{") y = 0%nat.
Proof.
  cbn [brace_pairs_from]. unfold is_lbrace.
  destruct (b && Ascii.eqb c "{"); [discriminate | auto].
Qed.

Local Ltac known_chars :=
  repeat match goal with
         | |- context [Ascii.eqb ?a ?c] =>
             tryif is_var c then fail else
               let v := eval vm_compute in (Ascii.eqb a c) in
               change (Ascii.eqb a c) with v
         end.

(** No occurrence of a token begins inside a plain text that a token
    follows. *)
Lemma startswith_plain (t u z : string) (c : ascii) (x : string) (b : bool) :
  t ∈ TOKENS -> u ∈ TOKENS ->
  brace_pairs_from b (String c x +:+ "{") = 0%nat ->
  startswith t (String c x +:+ u +:+ z) = false.
Proof.
  intros Ht Hu H.
  destruct x as [| c2 [| c3 [| c4 [| c5 x]]]];
    split_tokens Ht; split_tokens Hu;
    unfold DATE_RANGE, PRICE_DATA, FEAR_GREED_VALUE, FEAR_GREED_CLASS;
    rewrite ?append_cons, ?append_nil in *; cbn [startswith];
    repeat (apply brace_pairs_from_zero_cons in H;
            let F := fresh "F" in destruct H as [F H]);
    clear H;
    repeat match goal with
           | F : context [Ascii.eqb "{" "{"] |- _ =>
               change (Ascii.eqb "{" "{") with true in F
           end;
    known_chars; cbn [andb];
    repeat match goal with
           | |- context [Ascii.eqb "{" ?a] =>
               rewrite (Ascii.eqb_sym "{" a)
           end;
    repeat match goal with
           | |- context [Ascii.eqb ?a "{"] => destruct (Ascii.eqb a "{")
           end;
    cbn [andb] in *;
    rewrite ?andb_false_r, ?andb_true_r in *;
    try discriminate; try reflexivity.
Qed.


(** The scan of [replace] passes over a plain text that a token follows. *)
Lemma replace_from_plain (t u r z x : string) (b : bool) :
  t ∈ TOKENS -> u ∈ TOKENS ->
  brace_pairs_from b (x +:+ "{") = 0%nat ->
  replace_from t r 0 (x +:+ u +:+ z) = x +:+ replace_from t r 0 (u +:+ z).
Proof.
  intros Ht Hu. revert b. induction x as [| c x IH]; intros b H;
    [reflexivity |].
  rewrite (append_cons c x (u +:+ z)).
  rewrite replace_from_miss
    by (rewrite <- append_cons; exact (startswith_plain t u z c x b Ht Hu H)).
  rewrite append_cons in H.
  apply brace_pairs_from_zero_cons in H as [_ H].
  rewrite (IH _ H). reflexivity.
Qed.

(** The scan at a token: it is replaced, or passed over. *)
Lemma replace_from_token (t u r z : string) :
  t ∈ TOKENS -> u ∈ TOKENS ->
  replace_from t r 0 (u +:+ z)
  = (if String.eqb u t then r else u) +:+ replace_from t r 0 z.
Proof.
  intros Ht Hu. split_tokens Ht; split_tokens Hu; reflexivity.
Qed.

Lemma plain_absent (t r x : string) (b : bool) :
  t ∈ TOKENS ->
  brace_pairs_from b (x +:+ "{") = 0%nat ->
  replace_from t r 0 x = x.
Proof.
  intros Ht H.
  pose proof (token_not_empty t Ht) as Hne.
  rewrite <- (replace_token x t r Ht).
  apply replace_absent; [exact Hne |].
  destruct (contains t x) eqn:Hc; [| reflexivity].
  pose proof (contains_brace_pairs t Hne (token_pairs t Ht) x b Hc) as H1.
  pose proof (brace_pairs_from_app_le x "{" b) as H2. lia.
Qed.

Lemma no_lbrace_plain (s : string) : no_lbrace s = true -> plain s.
Proof.
  intros H. unfold plain, brace_pairs.
  rewrite (brace_pairs_from_no_lbrace s "{" false H). destruct s; reflexivity.
Qed.

Lemma well_formed_fill (t r : string) (ps : list piece) :
  plain r -> well_formed ps -> well_formed (map (fill_hole t r) ps).
Proof.
  intros Hr Hps. unfold well_formed in *.
  apply Forall_map. eapply Forall_impl; [exact Hps |].
  intros [s | u] Hp; cbn [fill_hole]; [exact Hp |].
  destruct (String.eqb u t); [exact Hr | exact Hp].
Qed.

(** One step of [generate_html] on a well-formed template: the holes of
    the token are filled, everything else is kept. *)
Lemma replace_layout (t r : string) (ps : list piece) :
  t ∈ TOKENS -> well_formed ps ->
  forall (x : string) (b : bool),
    brace_pairs_from b (x +:+ "{") = 0%nat ->
    replace_from t r 0 (x +:+ layout ps)
    = x +:+ layout (map (fill_hole t r) ps).
Proof.
  intros Ht. induction ps as [| p ps IH]; intros Hps x b Hx.
  - cbn [map]. change (layout []) with "". rewrite !append_empty_r.
    exact (plain_absent t r x b Ht Hx).
  - apply Forall_cons in Hps as [Hp Hps].
    cbn [map]. rewrite !layout_cons.
    destruct p as [s | u]; cbn [piece_text fill_hole].
    + rewrite <- !append_assoc. apply (IH Hps _ b).
      rewrite append_assoc, (plain_from_app x _ b Hx). exact Hp.
    + rewrite (replace_from_plain t u r _ x b Ht Hp Hx).
      rewrite (replace_from_token t u r _ Ht Hp).
      rewrite <- (append_nil (layout ps)) at 1.
      rewrite (IH Hps "" false eq_refl), append_nil.
      destruct (String.eqb u t); reflexivity.
Qed.

Lemma replace_layout_token (t r : string) (ps : list piece) :
  t ∈ TOKENS -> well_formed ps ->
  replace (layout ps) t r = layout (map (fill_hole t r) ps).
Proof.
  intros Ht Hps. rewrite (replace_token _ t r Ht).
  exact (replace_layout t r ps Ht Hps "" false eq_refl).
Qed.

(** The four steps fill every hole with its value. *)
Lemma fill_all (js : string) (fg : fear_greed) (week_range : string * string)
    (ps : list piece) :
  well_formed ps ->
  layout (map (fill_hole FEAR_GREED_CLASS (upper (classification fg)))
            (map (fill_hole FEAR_GREED_VALUE (str_int (value fg)))
               (map (fill_hole PRICE_DATA js)
                  (map (fill_hole DATE_RANGE (date_range_text week_range))
                     ps))))
  = render js fg week_range ps.
Proof.
  induction ps as [| p ps IH]; intros Hps; [reflexivity |].
  apply Forall_cons in Hps as [Hp Hps].
  cbn [map]. rewrite layout_cons. unfold render. cbn [map].
  rewrite concat_cons. fold (render js fg week_range ps).
  rewrite (IH Hps). f_equal.
  destruct p as [s | u]; [reflexivity |].
  split_tokens Hp; reflexivity.
Qed.



End Layout.

(** ** The deployment: requests, status, content *)

Section Deploy.

Lemma deploy_to_github_unfold (html github_token github_username : string)
    (w : world) :
  deploy_to_github html github_token github_username w =
  let w1 := set_sent (sent w ++ [deploy_get github_token github_username])
              (set_stdout (stdout w ++ [DEPLOY_BANNER]) w) in
  match contents_api w with
  | Raise e => (Raise e, w1)
  | Ok document =>
      let w2 :=
        set_sent (sent w1 ++ [deploy_put html github_token github_username
                                (default "" (document !! "sha")) (now w)])
          w1 in
      match update_api w with
      | Raise e => (Raise e, w2)
      | Ok (status_code, body) =>
          if (status_code =? 200) || (status_code =? 201)
          then
            (Ok tt,
             set_stdout
               (stdout w2 ++ ["✅ Deployed successfully!";
                              "🌐 Live at: https://" +:+ github_username
                              +:+ ".github.io/Crypto_Weekly_Newsletter"]) w2)
          else
            match body with
            | Ok text =>
                (Ok tt,
                 set_stdout (stdout w2 ++ ["❌ Deployment failed: " +:+ text])
                   w2)
            | Raise e => (Raise e, w2)
            end
      end
  end.
Proof.
  unfold deploy_to_github, print, call, lift, mbind, M_bind, mret, M_ret.
  cbn -[b64encode strftime_Y_m_d String.append].
  destruct (contents_api w) as [document | e]; [| reflexivity].
  cbn -[b64encode strftime_Y_m_d String.append].
  destruct (update_api w) as [[status_code body] | e]; [| reflexivity].
  destruct ((status_code =? 200) || (status_code =? 201)).
  - cbn -[b64encode strftime_Y_m_d String.append].
    rewrite <- app_assoc. reflexivity.
  - destruct body; reflexivity.
Qed.

(** X13.  [deploy_to_github] writes no file and leaves the environment
    as it is.  It first sends the GET of the contents address of
    [index.html] in the repository of the user, with the token in the
    [Authorization] header; when that request fails its exception is
    raised and nothing else is sent; otherwise a PUT follows to the same
    address with the same headers, whose content is the base64 text of
    the page and whose [sha] is the one of the answer, or the empty text
    when the answer has none. *)
Theorem deploy_to_github_requests (html github_token github_username : string)
    (w : world) :
  let w' := (deploy_to_github html github_token github_username w).2 in
  files w' = files w /\ environ w' = environ w /\
  match contents_api w with
  | Raise e =>
      (deploy_to_github html github_token github_username w).1 = Raise e /\
      sent w' = sent w ++ [deploy_get github_token github_username]
  | Ok document =>
      sent w'
      = sent w ++ [deploy_get github_token github_username;
                   deploy_put html github_token github_username
                     (match document !! "sha" with
                      | Some sha => sha
                      | None => ""
                      end) (now w)]
  end.
Proof.
  cbv zeta. rewrite deploy_to_github_unfold. cbv zeta.
  destruct (contents_api w) as [document | e]; [| repeat split].
  destruct (update_api w) as [[status_code body] | e].
  - destruct ((status_code =? 200) || (status_code =? 201));
      [| destruct body];
      cbn [fst snd files environ sent set_sent set_stdout];
      rewrite <- app_assoc; repeat split.
  - cbn [fst snd files environ sent set_sent set_stdout].
    rewrite <- app_assoc. repeat split.
Qed.

(** X14.  When both requests are answered, [deploy_to_github] reports
    the status and does not raise on a refusal: for the status 200 or 201
    it prints the success line and the address of the page; for any other
    status it prints the failure line with the body of the answer and
    returns normally; only a body that cannot be decoded raises. *)
Theorem deploy_to_github_reports_status
    (html github_token github_username : string) (w : world)
    (document : gmap string string) (status_code : Z) (body : result string) :
  contents_api w = Ok document ->
  update_api w = Ok (status_code, body) ->
  let r := deploy_to_github html github_token github_username w in
  if (status_code =? 200) || (status_code =? 201)
  then
    r.1 = Ok tt /\
    stdout r.2
    = stdout w ++ [DEPLOY_BANNER; "✅ Deployed successfully!";
                   "🌐 Live at: https://" +:+ github_username
                   +:+ ".github.io/Crypto_Weekly_Newsletter"]
  else
    match body with
    | Ok text =>
        r.1 = Ok tt /\
        stdout r.2
        = stdout w ++ [DEPLOY_BANNER; "❌ Deployment failed: " +:+ text]
    | Raise e => r.1 = Raise e /\ stdout r.2 = stdout w ++ [DEPLOY_BANNER]
    end.
Proof.
  intros Hget Hput. cbv zeta. rewrite deploy_to_github_unfold. cbv zeta.
  rewrite Hget, Hput.
  destruct ((status_code =? 200) || (status_code =? 201));
    [| destruct body];
    cbn [fst snd stdout set_sent set_stdout];
    rewrite <- ?app_assoc; split; reflexivity.
Qed.

Lemma deploy_to_github_reports_status_witness :
  (deploy_to_github "<html></html>" "ghp_token" "alice" keyed_world).1 = Ok tt /\
  stdout (deploy_to_github "<html></html>" "ghp_token" "alice" keyed_world).2
  = stdout keyed_world
    ++ [DEPLOY_BANNER; "✅ Deployed successfully!";
        "🌐 Live at: https://" +:+ "alice"
        +:+ ".github.io/Crypto_Weekly_Newsletter"].
Proof.
  exact (deploy_to_github_reports_status "<html></html>" "ghp_token" "alice"
           keyed_world {[ "sha" := "3f2a" ]} 200 (Ok "{}") eq_refl eq_refl).
Defined.

End Deploy.

Section Base64.

Lemma b64_index_char (n : N) : (n < 64)%N -> b64_index (b64_char n) = n.
Proof.
  intros H. destruct n as [| p]; [reflexivity |].
  do 7 (destruct p as [p | p |]; try reflexivity; try lia).
Qed.

Lemma b64_char_not_pad (n : N) : b64_char n <> "="%char.
Proof.
  unfold b64_char. intros H. apply (f_equal N_of_ascii) in H.
  change (N_of_ascii "=") with 61%N in H.
  destruct (N.ltb_spec n 26);
    [rewrite N_ascii_embedding in H by lia; lia |].
  destruct (N.ltb_spec n 52);
    [rewrite N_ascii_embedding in H by lia; lia |].
  destruct (N.ltb_spec n 62);
    [rewrite N_ascii_embedding in H by lia; lia |].
  destruct (n =? 62)%N; discriminate H.
Qed.

Lemma N_of_ascii_inj (a b : ascii) : N_of_ascii a = N_of_ascii b -> a = b.
Proof.
  intros H. rewrite <- (ascii_N_embedding a), <- (ascii_N_embedding b).
  now rewrite H.
Qed.

(** Induction over a text three bytes at a time. *)
Lemma string_ind3 (P : string -> Prop) :
  P "" ->
  (forall a, P (String a "")) ->
  (forall a b, P (String a (String b ""))) ->
  (forall a b c s, P s -> P (String a (String b (String c s)))) ->
  forall s, P s.
Proof.
  intros H0 H1 H2 H3.
  assert (H : forall s, P s /\ (forall a, P (String a s))
                        /\ (forall a b, P (String a (String b s)))).
  { induction s as [| c s (IH0 & IH1 & IH2)]; [auto |].
    split; [apply IH1 |]. split; [intros a; apply IH2 |].
    intros a b. apply H3, IH0. }
  intros s. apply H.
Qed.

Local Ltac sextets :=
  repeat match goal with
         | H : String _ _ = String _ _ |- _ => injection H; clear H; intros
         | H : b64_char _ = "="%char |- _ =>
             exfalso; exact (b64_char_not_pad _ H)
         | H : "="%char = b64_char _ |- _ =>
             exfalso; exact (b64_char_not_pad _ (eq_sym H))
         | H : b64_char _ = b64_char _ |- _ =>
             apply (f_equal b64_index) in H;
             rewrite !b64_index_char in H
               by first [ apply N.mod_lt; discriminate
                        | apply N.Div0.div_lt_upper_bound; lia ]
         end.

(** A number below [2^24] is given by its four six-bit digits. *)
Lemma sextets_value (n : N) :
  (n = n / 262144 * 262144 + n / 4096 mod 64 * 4096 + n / 64 mod 64 * 64
       + n mod 64)%N.
Proof.
  pose proof (N.div_mod n 64 ltac:(discriminate)) as H1.
  pose proof (N.div_mod (n / 64) 64 ltac:(discriminate)) as H2.
  pose proof (N.div_mod (n / 4096) 64 ltac:(discriminate)) as H3.
  replace (n / 4096)%N with (n / 64 / 64)%N in *
    by (rewrite N.Div0.div_div; reflexivity).
  replace (n / 262144)%N with (n / 64 / 64 / 64)%N
    by (rewrite !N.Div0.div_div; reflexivity).
  lia.
Qed.

Lemma low_sextet_1 (a : N) : ((a * 65536) mod 64 = 0)%N.
Proof. replace (a * 65536)%N with (a * 1024 * 64)%N by lia. apply N.Div0.mod_mul. Qed.

Lemma low_sextet_2 (a b : N) : ((a * 65536 + b * 256) mod 64 = 0)%N.
Proof.
  replace (a * 65536 + b * 256)%N with ((a * 1024 + b * 4) * 64)%N by lia.
  apply N.Div0.mod_mul.
Qed.

Lemma mid_sextet_1 (a : N) : ((a * 65536) / 64 mod 64 = 0)%N.
Proof.
  replace (a * 65536)%N with (a * 1024 * 64)%N by lia.
  rewrite N.div_mul by discriminate.
  replace (a * 1024)%N with (a * 16 * 64)%N by lia. apply N.Div0.mod_mul.
Qed.

Local Ltac same_value n n' :=
  let E := fresh "E" in
  assert (E : n = n')
    by (rewrite (sextets_value n), (sextets_value n');
        rewrite ?low_sextet_1, ?low_sextet_2, ?mid_sextet_1;
        congruence).

Lemma b64encode_inj (s1 s2 : string) :
  b64encode s1 = b64encode s2 -> s1 = s2.
Proof.
  revert s2.
  induction s1 as [| a | a b | a b c s1 IH] using string_ind3;
    intros s2 H;
    destruct s2 as [| a' [| b' [| c' s2]]];
    cbn [b64encode] in H; cbv zeta in H; try discriminate H.
  all: try pose proof (N_ascii_bounded a) as Ba;
       try pose proof (N_ascii_bounded a') as Ba'.
  all: try pose proof (N_ascii_bounded b) as Bb;
       try pose proof (N_ascii_bounded b') as Bb';
       try pose proof (N_ascii_bounded c) as Bc;
       try pose proof (N_ascii_bounded c') as Bc'.
  all: sextets.
  - reflexivity.
  - same_value (N_of_ascii a * 65536)%N (N_of_ascii a' * 65536)%N.
    f_equal. apply N_of_ascii_inj. lia.
  - same_value (N_of_ascii a * 65536 + N_of_ascii b * 256)%N
      (N_of_ascii a' * 65536 + N_of_ascii b' * 256)%N.
    repeat f_equal; apply N_of_ascii_inj; lia.
  - same_value (N_of_ascii a * 65536 + N_of_ascii b * 256 + N_of_ascii c)%N
      (N_of_ascii a' * 65536 + N_of_ascii b' * 256 + N_of_ascii c')%N.
    match goal with
    | H : b64encode s1 = b64encode _ |- _ => rewrite (IH _ H)
    end.
    repeat f_equal; apply N_of_ascii_inj; lia.
Qed.

Lemma b64encode_length (s : string) :
  String.length (b64encode s) = (4 * ((String.length s + 2) / 3))%nat.
Proof.
  induction s as [| a | a b | a b c s IH] using string_ind3;
    try reflexivity.
  cbn [b64encode String.length]. cbv zeta. cbn [String.length]. rewrite IH.
  replace (S (S (S (String.length s))) + 2)%nat
    with (String.length s + 2 + 1 * 3)%nat by lia.
  rewrite Nat.div_add by lia. lia.
Qed.

(** X15.  The content that is published determines the page: two pages
    with the same base64 text are the same page, so two PUT requests that
    differ in nothing but the page differ in their content; and the
    content of a page of [n] bytes has [4 * ceil(n / 3)] characters. *)
Theorem deploy_content_faithful (html1 html2 token username sha : string)
    (today : datetime) :
  (deploy_put html1 token username sha today
   = deploy_put html2 token username sha today -> html1 = html2) /\
  (b64encode html1 = b64encode html2 -> html1 = html2) /\
  String.length (b64encode html1)
  = (4 * ((String.length html1 + 2) / 3))%nat.
Proof.
  split; [| split; [apply b64encode_inj | apply b64encode_length]].
  unfold deploy_put. intros H. injection H as H. exact (b64encode_inj _ _ H).
Qed.

End Base64.

(** ** The social texts: what they read, when they fail, the file *)

Section SocialMore.

Local Ltac step_ok H :=
  match type of H with
  | (?c ≫= _) = Ok _ =>
      let E := fresh "E" in
      destruct c eqn:E; [cbn [mbind result_bind] in H | discriminate H]
  end.

(** X16.  The thread and the caption read nothing of the price table but
    the price and the 24h change of btc, eth, pls and hex: two tables
    that agree on these eight entries give the same thread and the same
    caption (or the same exception), whatever their other symbols and
    fields are. *)
Theorem social_texts_read_four_assets (env : gmap string string)
    (prices1 prices2 : gmap string (gmap string pynum))
    (week_range : string * string) :
  (forall symbol field,
     symbol ∈ SOCIAL_ASSETS -> field ∈ SOCIAL_FIELDS ->
     getitem2 prices1 symbol field = getitem2 prices2 symbol field) ->
  generate_twitter_thread env prices1 week_range
  = generate_twitter_thread env prices2 week_range /\
  generate_instagram_caption prices1 week_range
  = generate_instagram_caption prices2 week_range.
Proof.
  intros H.
  unfold generate_twitter_thread, generate_instagram_caption, emoji, fmt,
    direction, fmt_abs_change.
  rewrite !(H "btc" "price"), !(H "btc" "change_24h"),
    !(H "eth" "price"), !(H "eth" "change_24h"),
    !(H "pls" "price"), !(H "pls" "change_24h"),
    !(H "hex" "price"), !(H "hex" "change_24h")
    by (unfold SOCIAL_ASSETS, SOCIAL_FIELDS; repeat constructor).
  split; reflexivity.
Qed.

Lemma entries_from_cons (k : nat) (tweet : string) (tweets : list string) :
  entries_from k (tweet :: tweets)
  = tweet_entry k tweet +:+ entries_from (S k) tweets.
Proof.
  unfold entries_from. cbn [imap]. rewrite concat_cons.
  rewrite Nat.add_0_r. f_equal. f_equal.
  apply imap_ext. intros i x _. cbn. f_equal. lia.
Qed.

Lemma entries_from_app (k : nat) (a b : list string) :
  entries_from k (a ++ b)
  = entries_from k a +:+ entries_from (k + length a) b.
Proof.
  revert k. induction a as [| t a IH]; intros k.
  - cbn [app length]. rewrite Nat.add_0_r. reflexivity.
  - cbn [app length]. rewrite !entries_from_cons, IH, append_assoc.
    replace (S k + length a)%nat with (k + S (length a))%nat by lia.
    reflexivity.
Qed.

Lemma twitter_file_text_entries (tweets : list string) :
  twitter_file_text tweets = entries_from 1 tweets.
Proof. reflexivity. Qed.


Lemma social_texts_read_four_assets_witness :
  generate_twitter_thread ∅ fetched_prices sample_week_range
  = generate_twitter_thread ∅ (delete "usdt" fetched_prices) sample_week_range /\
  generate_instagram_caption fetched_prices sample_week_range
  = generate_instagram_caption (delete "usdt" fetched_prices) sample_week_range.
Proof.
  apply (social_texts_read_four_assets ∅ fetched_prices
           (delete "usdt" fetched_prices) sample_week_range).
  intros symbol field Hs Hf. unfold SOCIAL_ASSETS, SOCIAL_FIELDS in *.
  repeat (apply elem_of_cons in Hs; destruct Hs as [-> | Hs]);
    [.. | apply elem_of_nil in Hs; destruct Hs];
    repeat (apply elem_of_cons in Hf; destruct Hf as [-> | Hf]);
    try (apply elem_of_nil in Hf; destruct Hf);
    reflexivity.
Defined.

End SocialMore.

Section SocialDomain.

Local Ltac step_ok H :=
  match type of H with
  | (?c ≫= _) = Ok _ =>
      let E := fresh "E" in
      destruct c eqn:E; [cbn [mbind result_bind] in H | discriminate H]
  end.

(** The sign of an integer does not decide whether [float] converts it. *)
Lemma float_of_int_abs (z : Z) :
  is_ok (float_of_int (Z.abs z)) = is_ok (float_of_int z).
Proof.
  destruct z as [| p | p]; try reflexivity.
  change (Z.abs (Z.neg p)) with (Z.pos p).
  unfold float_of_int, binary_normalize, binary_round, binary_round_aux.
  destruct (shl_align _ _ _) as [mz ez].
  destruct (shr_fexp _ _ _ _ _) as [mrs' e'].
  destruct (shr_fexp _ _ _ _ _) as [mrs'' e''].
  destruct (shr_m mrs''); try reflexivity.
  destruct (e'' <=? 1024 - 53); reflexivity.
Qed.

Lemma to_float_abs (x : pynum) :
  is_ok (to_float (py_abs x)) = is_ok (to_float x).
Proof. destruct x; [apply float_of_int_abs | reflexivity]. Qed.

Lemma to_float_raise (x : pynum) (e : exn) :
  to_float x = Raise e ->
  e = OverflowError "int too large to convert to float".
Proof.
  destruct x as [z | f]; [| discriminate]. unfold to_float, float_of_int.
  destruct (binary_normalize 53 1024 z 0 false); try discriminate.
  now intros [= <-].
Qed.

Lemma py_format_ok (spec : string) (x : pynum) :
  spec ∈ SPECS -> is_ok (py_format spec x) = is_ok (to_float x).
Proof.
  intros H. unfold SPECS in H.
  repeat (apply elem_of_cons in H; destruct H as [-> | H]);
    [.. | apply elem_of_nil in H; destruct H];
    unfold py_format;
    match goal with
    | |- context [parse_spec ?s] =>
        let v := eval vm_compute in (parse_spec s) in
        change (parse_spec s) with v
    end; cbv beta iota; destruct (to_float x); reflexivity.
Qed.

Lemma py_format_raise (spec : string) (x : pynum) (e : exn) :
  spec ∈ SPECS -> py_format spec x = Raise e ->
  e = OverflowError "int too large to convert to float".
Proof.
  intros H. unfold SPECS in H.
  repeat (apply elem_of_cons in H; destruct H as [-> | H]);
    [.. | apply elem_of_nil in H; destruct H];
    unfold py_format;
    match goal with
    | |- context [parse_spec ?s] =>
        let v := eval vm_compute in (parse_spec s) in
        change (parse_spec s) with v
    end; cbv beta iota; destruct (to_float x) eqn:Hx; try discriminate;
    intros [= <-]; exact (to_float_raise x _ Hx).
Qed.

Lemma fmt_ok (prices : gmap string (gmap string pynum))
    (symbol field spec text : string) :
  spec ∈ SPECS ->
  fmt prices symbol field spec = Ok text ->
  has_number prices symbol field = true.
Proof.
  intros Hs H. unfold fmt in H. unfold has_number.
  destruct (getitem2 prices symbol field) as [x | e]; [| discriminate H].
  cbn [mbind result_bind] in H.
  rewrite <- (py_format_ok spec x Hs), H. reflexivity.
Qed.

Lemma fmt_raise (prices : gmap string (gmap string pynum))
    (symbol field spec : string) (e : exn) :
  spec ∈ SPECS ->
  fmt prices symbol field spec = Raise e ->
  (exists key, e = KeyError key)
  \/ e = OverflowError "int too large to convert to float".
Proof.
  intros Hs H. unfold fmt in H.
  destruct (getitem2 prices symbol field) as [x | e0] eqn:Hx.
  - right. exact (py_format_raise spec x e Hs H).
  - injection H as <-. left.
    apply getitem2_raise in Hx as [-> | ->]; eauto.
Qed.

Lemma emoji_raise (prices : gmap string (gmap string pynum))
    (symbol : string) (e : exn) :
  emoji prices symbol = Raise e -> exists key, e = KeyError key.
Proof.
  unfold emoji. destruct (getitem2 prices symbol "change_24h") eqn:Hx;
    [discriminate |].
  intros [= <-]. apply getitem2_raise in Hx as [-> | ->]; eauto.
Qed.

Lemma direction_raise (prices : gmap string (gmap string pynum))
    (symbol : string) (e : exn) :
  direction prices symbol = Raise e -> exists key, e = KeyError key.
Proof.
  unfold direction. destruct (getitem2 prices symbol "change_24h") eqn:Hx;
    [discriminate |].
  intros [= <-]. apply getitem2_raise in Hx as [-> | ->]; eauto.
Qed.

Lemma fmt_abs_change_ok (prices : gmap string (gmap string pynum))
    (symbol : string) :
  has_number prices symbol "change_24h" = true ->
  is_ok (fmt_abs_change prices symbol) = true.
Proof.
  unfold has_number, fmt_abs_change.
  destruct (getitem2 prices symbol "change_24h") as [x | e]; [| discriminate].
  cbn [mbind result_bind]. intros H.
  rewrite (py_format_ok ".1f") by (unfold SPECS; repeat constructor).
  now rewrite to_float_abs.
Qed.

Lemma direction_ok (prices : gmap string (gmap string pynum))
    (symbol : string) :
  has_number prices symbol "change_24h" = true ->
  is_ok (direction prices symbol) = true.
Proof.
  unfold has_number, direction.
  destruct (getitem2 prices symbol "change_24h") as [x | e]; [| discriminate].
  reflexivity.
Qed.

Lemma fmt_abs_change_raise (prices : gmap string (gmap string pynum))
    (symbol : string) (e : exn) :
  fmt_abs_change prices symbol = Raise e ->
  (exists key, e = KeyError key)
  \/ e = OverflowError "int too large to convert to float".
Proof.
  unfold fmt_abs_change.
  destruct (getitem2 prices symbol "change_24h") as [x | e0] eqn:Hx.
  - cbn [mbind result_bind]. intros H. right.
    apply (py_format_raise ".1f" (py_abs x) e); [| exact H].
    unfold SPECS; repeat constructor.
  - intros [= <-]. left. apply getitem2_raise in Hx as [-> | ->]; eauto.
Qed.

Local Ltac in_specs := unfold SPECS; repeat constructor.

Lemma fmt_is_ok (prices : gmap string (gmap string pynum))
    (symbol field spec : string) :
  spec ∈ SPECS ->
  has_number prices symbol field = true ->
  is_ok (fmt prices symbol field spec) = true.
Proof.
  unfold has_number, fmt. intros Hs.
  destruct (getitem2 prices symbol field) as [x | e]; [| discriminate].
  cbn [mbind result_bind]. now rewrite (py_format_ok spec x Hs).
Qed.

Lemma emoji_is_ok (prices : gmap string (gmap string pynum))
    (symbol : string) :
  has_number prices symbol "change_24h" = true ->
  is_ok (emoji prices symbol) = true.
Proof.
  unfold has_number, emoji.
  destruct (getitem2 prices symbol "change_24h") as [x | e]; [| discriminate].
  reflexivity.
Qed.

Local Ltac split_inputs H :=
  unfold social_inputs_ok, SOCIAL_ASSETS in H; cbn [forallb] in H;
  repeat match goal with
         | Hx : _ && _ = true |- _ => apply andb_true_iff in Hx; destruct Hx
         end.

Local Ltac next_ok lem :=
  match goal with
  | |- context [is_ok (?c ≫= _)] =>
      let Hc := fresh "Hc" in
      assert (Hc : is_ok c = true) by (apply lem; first [assumption | in_specs]);
      destruct c; [clear Hc; cbn [mbind result_bind] | discriminate Hc]
  end.

Lemma generate_twitter_thread_total (env : gmap string string)
    (prices : gmap string (gmap string pynum)) (week_range : string * string) :
  social_inputs_ok prices = true ->
  is_ok (generate_twitter_thread env prices week_range) = true.
Proof.
  intros H. split_inputs H. unfold generate_twitter_thread.
  do 4 next_ok emoji_is_ok. do 8 next_ok fmt_is_ok. reflexivity.
Qed.

Lemma generate_instagram_caption_total
    (prices : gmap string (gmap string pynum)) (week_range : string * string) :
  social_inputs_ok prices = true ->
  is_ok (generate_instagram_caption prices week_range) = true.
Proof.
  intros H. split_inputs H. unfold generate_instagram_caption.
  next_ok direction_ok. next_ok fmt_abs_change_ok. next_ok fmt_is_ok.
  next_ok direction_ok. next_ok fmt_abs_change_ok. next_ok fmt_is_ok.
  next_ok direction_ok. next_ok fmt_abs_change_ok.
  next_ok direction_ok. next_ok fmt_abs_change_ok.
  reflexivity.
Qed.

Local Ltac raised H :=
  repeat match type of H with
         | (?c ≫= _) = Raise _ =>
             let E := fresh "E" in
             destruct c eqn:E;
             [ cbn [mbind result_bind] in H; clear E
             | cbn [mbind result_bind] in H; injection H as <-;
               first [ left; exact (emoji_raise _ _ _ E)
                     | left; exact (direction_raise _ _ _ E)
                     | exact (fmt_abs_change_raise _ _ _ E)
                     | match type of E with
                       | fmt ?p ?s ?f ?spec = _ =>
                           apply (fmt_raise p s f spec _ ltac:(in_specs) E)
                       end ] ]
         end.


End SocialDomain.

(** ** The run: what [main] touches, publishes and stops at *)

Section Invariants.

Variable Inv : world -> Prop.
Variable R : world -> world -> Prop.

(** The lines, requests and paths that a step may print, send and
    write. *)
Variable line_ok : string -> Prop.
Variable request_ok : request -> Prop.
Variable path_ok : string -> Prop.

Hypothesis R_refl : forall w, R w w.
Hypothesis R_trans : forall w1 w2 w3, R w1 w2 -> R w2 w3 -> R w1 w3.

Hypothesis stdout_step : forall s w,
  line_ok s -> Inv w ->
  Inv (set_stdout (stdout w ++ [s]) w) /\ R w (set_stdout (stdout w ++ [s]) w).

Hypothesis stderr_step : forall err w,
  Inv w ->
  Inv (set_stderr (stderr w ++ err) w) /\ R w (set_stderr (stderr w ++ err) w).

Hypothesis sent_step : forall r w,
  request_ok r -> Inv w ->
  Inv (set_sent (sent w ++ [r]) w) /\ R w (set_sent (sent w ++ [r]) w).

Hypothesis files_step : forall path text w,
  path_ok path -> Inv w ->
  Inv (set_files (<[path := text]> (files w)) w)
  /\ R w (set_files (<[path := text]> (files w)) w).

Lemma keeps_ret {A} (a : A) (Q : A -> Prop) : Q a -> keeps Inv R (mret a) Q.
Proof.
  intros H w Hw. split; [exact Hw |]. split; [apply R_refl | exact H].
Qed.

Lemma keeps_bind {A B} (c : M A) (k : A -> M B) (Q : A -> Prop)
    (Q' : B -> Prop) :
  keeps Inv R c Q -> (forall a, Q a -> keeps Inv R (k a) Q') -> keeps Inv R (c ≫= k) Q'.
Proof.
  intros Hc Hk w Hw. destruct (Hc w Hw) as (HI & HR & HQ).
  unfold mbind, M_bind. destruct (c w) as [[a | e] w1]; cbn in *.
  - destruct (Hk a HQ w1 HI) as (HI' & HR' & HQ').
    destruct (k a w1) as [r w2]; cbn in *. eauto.
  - auto.
Qed.

Lemma keeps_weaken {A} (c : M A) (Q Q' : A -> Prop) :
  keeps Inv R c Q -> (forall a, Q a -> Q' a) -> keeps Inv R c Q'.
Proof.
  intros Hc HQ w Hw. destruct (Hc w Hw) as (HI & HR & Ha).
  split; [exact HI |]. split; [exact HR |]. destruct (c w).1; auto.
Qed.

Lemma keeps_read {A} (f : world -> result A) (Q : A -> Prop) :
  (forall w, Inv w -> match f w with Ok a => Q a | Raise _ => True end) ->
  keeps Inv R (fun w => (f w, w)) Q.
Proof.
  intros H w Hw. split; [exact Hw |]. split; [apply R_refl |].
  exact (H w Hw).
Qed.

Lemma keeps_lift {A} (r : result A) : keeps Inv R (lift r) (fun _ => True).
Proof. apply keeps_read. intros w _. destruct r; exact I. Qed.

Lemma keeps_print (s : string) :
  line_ok s -> keeps Inv R (print s) (fun _ => True).
Proof.
  intros Hs w Hw. destruct (stdout_step s w Hs Hw). cbn. auto.
Qed.

Lemma keeps_call {A} (r : request) (service : world -> result A) :
  request_ok r -> keeps Inv R (call r service) (fun _ => True).
Proof.
  intros Hr w Hw. destruct (sent_step r w Hr Hw). cbn.
  destruct (service w); auto.
Qed.

Lemma keeps_write_file (path text : string) :
  path_ok path -> keeps Inv R (write_file path text) (fun _ => True).
Proof.
  intros Hp w Hw. unfold write_file.
  destruct (write_error w path); cbn; [auto |].
  destruct (files_step path text w Hp Hw). auto.
Qed.

Lemma keeps_read_file (path : string) :
  keeps Inv R (read_file path) (fun _ => True).
Proof.
  intros w Hw. unfold read_file.
  destruct (read_error w path), (files w !! path); cbn; auto.
Qed.

Lemma keeps_print_exc (e : exn) : keeps Inv R (print_exc e) (fun _ => True).
Proof.
  intros w Hw. unfold print_exc. cbn [fst snd].
  destruct (stderr_step ["Traceback (most recent call last):";
                         exn_name e +:+ ": " +:+ exn_str e] w Hw)
    as [HI HR].
  auto.
Qed.

Lemma keeps_try_except {A} (body : M A) (handler : exn -> M A)
    (Q : A -> Prop) :
  keeps Inv R body Q -> (forall e, keeps Inv R (handler e) Q) ->
  keeps Inv R (try_except body handler) Q.
Proof.
  intros Hb Hh w Hw. destruct (Hb w Hw) as (HI & HR & HQ).
  unfold try_except. destruct (body w) as [[a | e] w1]; cbn in *; [auto |].
  destruct (Hh e w1 HI) as (HI' & HR' & HQ'). eauto.
Qed.

(** What is known of the steps of the script. *)
Hypothesis other_lines : forall s, s <> DEPLOY_BANNER -> line_ok s.
Hypothesis other_requests : forall r, is_github_request r = false -> request_ok r.
Hypothesis social_files :
  path_ok "twitter_thread.txt" /\ path_ok "instagram_caption.txt".

Local Ltac keep_prim :=
  lazymatch goal with
  | |- keeps _ _ (print _) _ =>
      apply keeps_print, other_lines; intros Heq; simpl in Heq; discriminate Heq
  | |- keeps _ _ (call _ _) _ => apply keeps_call, other_requests; reflexivity
  | |- keeps _ _ (lift _) _ => apply keeps_lift
  | |- keeps _ _ (read_file _) _ => apply keeps_read_file
  | |- keeps _ _ (mret _) _ => apply keeps_ret; exact I
  | |- keeps _ _ (fun w => (_, w)) _ =>
      apply (keeps_read _ (fun _ => True)); intros ? _;
      first [ exact I
            | match goal with
              | |- match ?r with _ => _ end => destruct r; exact I
              end ]
  end.

Local Ltac keep :=
  repeat first
    [ keep_prim
    | eapply keeps_bind; [solve [keep_prim] | intros ? _] ].

Lemma keeps_fetch_crypto_prices : keeps Inv R fetch_crypto_prices (fun _ => True).
Proof. unfold fetch_crypto_prices. keep. Qed.

Lemma keeps_fetch_fear_greed_index :
  keeps Inv R fetch_fear_greed_index (fun _ => True).
Proof. unfold fetch_fear_greed_index. keep. Qed.

Lemma keeps_generate_html (prices : gmap string (gmap string pynum))
    (fg : fear_greed) (week_range : string * string) :
  keeps Inv R (generate_html prices fg week_range) (fun _ => True).
Proof. unfold generate_html. keep. Qed.

Lemma keeps_save_twitter_content (tweets : list string) :
  keeps Inv R (save_twitter_content tweets) (fun _ => True).
Proof.
  unfold save_twitter_content.
  eapply keeps_bind;
    [apply keeps_write_file, social_files | intros _ _]. keep.
Qed.

Lemma keeps_social_steps (prices : gmap string (gmap string pynum))
    (fg : fear_greed) (week_range : string * string) :
  keeps Inv R (social_steps prices fg week_range) (fun _ => True).
Proof.
  unfold social_steps.
  eapply keeps_bind; [solve [keep_prim] | intros env' _].
  eapply keeps_bind; [solve [keep_prim] | intros twitter_thread _].
  eapply keeps_bind; [apply keeps_save_twitter_content | intros _ _].
  eapply keeps_bind; [solve [keep_prim] | intros caption _].
  eapply keeps_bind;
    [apply keeps_write_file, social_files | intros _ _].
  keep.
Qed.

(** What is known of the test [os.path.exists(template)], and what the
    branch it guards may do. *)
Variable E : bool -> Prop.

Hypothesis template_known : forall w,
  Inv w -> E (bool_decide (is_Some (files w !! TEMPLATE))).

Hypothesis guarded_steps :
  E true ->
  path_ok "index.html" /\ line_ok DEPLOY_BANNER /\ forall r, request_ok r.

Lemma keeps_deploy_to_github (html github_token github_username : string) :
  E true ->
  keeps Inv R (deploy_to_github html github_token github_username) (fun _ => True).
Proof.
  intros HE. destruct (guarded_steps HE) as (_ & Hbanner & Hreq).
  unfold deploy_to_github.
  eapply keeps_bind; [apply keeps_print, Hbanner | intros _ _].
  eapply keeps_bind; [apply keeps_call, Hreq | intros document _].
  eapply keeps_bind; [solve [keep_prim] | intros today _].
  eapply keeps_bind; [apply keeps_call, Hreq | intros [status_code body] _].
  destruct ((status_code =? 200) || (status_code =? 201)); keep.
Qed.

Lemma keeps_main_body : keeps Inv R main_body (fun _ => True).
Proof.
  unfold main_body.
  eapply keeps_bind; [apply keeps_fetch_crypto_prices | intros prices _].
  eapply keeps_bind; [apply keeps_fetch_fear_greed_index | intros fg _].
  eapply keeps_bind; [solve [keep_prim] | intros week_range _].
  eapply keeps_bind; [solve [keep_prim] | intros _ _].
  eapply keeps_bind with (Q := E).
  { apply keeps_read. intros w Hw. exact (template_known w Hw). }
  intros template_exists HE.
  eapply keeps_bind with (Q := fun _ => True).
  { destruct template_exists; [| solve [keep_prim]].
    destruct (guarded_steps HE) as (Hindex & _ & _).
    eapply keeps_bind; [apply keeps_generate_html | intros html _].
    eapply keeps_bind; [apply keeps_write_file, Hindex | intros _ _].
    eapply keeps_bind; [solve [keep_prim] | intros _ _].
    eapply keeps_bind; [solve [keep_prim] | intros github_token _].
    eapply keeps_bind; [solve [keep_prim] | intros github_username _].
    destruct (truthy github_token && truthy github_username);
      [apply keeps_deploy_to_github, HE | keep]. }
  intros _ _.
  eapply keeps_bind; [solve [keep_prim] | intros env' _].
  eapply keeps_bind; [solve [keep_prim] | intros twitter_thread _].
  eapply keeps_bind; [apply keeps_save_twitter_content | intros _ _].
  eapply keeps_bind; [solve [keep_prim] | intros caption _].
  eapply keeps_bind;
    [apply keeps_write_file, social_files | intros _ _].
  keep.
Qed.

Lemma keeps_main : keeps Inv R main (fun _ => True).
Proof.
  unfold main.
  do 3 (eapply keeps_bind; [solve [keep_prim] | intros _ _]).
  apply keeps_try_except; [apply keeps_main_body |].
  intros e. eapply keeps_bind; [solve [keep_prim] | intros _ _].
  apply keeps_print_exc.
Qed.

End Invariants.

Section MainFrame.

Lemma frame_refl (paths : list string) (w : world) : frame paths w w.
Proof.
  split; [reflexivity |]. split; [reflexivity |].
  repeat split; exists []; now rewrite app_nil_r.
Qed.

Lemma frame_trans (paths : list string) (w1 w2 w3 : world) :
  frame paths w1 w2 -> frame paths w2 w3 -> frame paths w1 w3.
Proof.
  intros (He1 & Hf1 & (o1 & Ho1) & (e1 & Hr1) & (s1 & Hs1))
         (He2 & Hf2 & (o2 & Ho2) & (e2 & Hr2) & (s2 & Hs2)).
  split; [congruence |].
  split; [intros path Hp; rewrite (Hf2 path Hp); exact (Hf1 path Hp) |].
  split; [exists (o1 ++ o2); rewrite Ho2, Ho1, app_assoc; reflexivity |].
  split; [exists (e1 ++ e2); rewrite Hr2, Hr1, app_assoc; reflexivity |].
  exists (s1 ++ s2). rewrite Hs2, Hs1, app_assoc. reflexivity.
Qed.

(** X19.  Whatever the services answer and whatever fails, a run of
    [main] leaves the environment as it is, changes no file other than
    [index.html], [twitter_thread.txt] and [instagram_caption.txt] (so
    the template is never modified), and only appends to the two output
    streams and to the requests sent. *)
Theorem main_frame (w : world) : frame OUTPUT_FILES w (main w).2.
Proof.
  assert (H : keeps (fun _ => True) (frame OUTPUT_FILES) main (fun _ => True));
    [| exact (proj1 (proj2 (H w Logic.I)))].
  apply (keeps_main (fun _ => True) (frame OUTPUT_FILES)
           (fun _ => True) (fun _ => True) (fun path => path ∈ OUTPUT_FILES)
           (frame_refl _) (frame_trans _)) with (E := fun _ => True);
    try (intros; exact Logic.I).
  - intros s w0 _ _. split; [exact Logic.I |].
    split; [reflexivity |]. split; [reflexivity |].
    split; [exists [s]; reflexivity |].
    split; exists []; cbn; now rewrite app_nil_r.
  - intros err w0 _. split; [exact Logic.I |].
    split; [reflexivity |]. split; [reflexivity |].
    split; [exists []; cbn; now rewrite app_nil_r |].
    split; [exists err; reflexivity | exists []; cbn; now rewrite app_nil_r].
  - intros r w0 _ _. split; [exact Logic.I |].
    split; [reflexivity |]. split; [reflexivity |].
    split; [exists []; cbn; now rewrite app_nil_r |].
    split; [exists []; cbn; now rewrite app_nil_r | exists [r]; reflexivity].
  - intros path text w0 Hpath _. split; [exact Logic.I |].
    split; [reflexivity |].
    split.
    { intros p Hp. cbn. apply lookup_insert_ne. intros ->. exact (Hp Hpath). }
    repeat split; exists []; cbn; now rewrite app_nil_r.
  - unfold OUTPUT_FILES. split; repeat constructor.
  - intros _. split; [unfold OUTPUT_FILES; repeat constructor |].
    split; intros; exact Logic.I.
Qed.

(** X20.  Without a template file there is no page and no publishing,
    with or without credentials: [main] leaves [index.html] as it was,
    creates no template, sends no request to the publishing API and does
    not start [deploy_to_github]. *)
Theorem main_without_template (w : world) :
  files w !! TEMPLATE = None ->
  no_publish w (main w).2 /\
  files (main w).2 !! "index.html" = files w !! "index.html" /\
  files (main w).2 !! TEMPLATE = None.
Proof.
  intros Hnone.
  destruct (keeps_main
              (fun w => files w !! TEMPLATE = None)
              (fun w w' => no_publish w w'
                           /\ files w' !! "index.html" = files w !! "index.html")
              (fun s => s <> DEPLOY_BANNER)
              (fun r => is_github_request r = false)
              (fun path => path <> TEMPLATE /\ path <> "index.html"))
    with (E := fun b : bool => b = false) (w := w)
    as (HI & [HR Hindex] & _); [.. | exact Hnone | tauto].
  - intros w0. split; [apply no_publish_refl | reflexivity].
  - intros w1 w2 w3 [H1 F1] [H2 F2].
    split; [exact (no_publish_trans _ _ _ H1 H2) | congruence].
  - intros s w0 Hs Hw0. split; [exact Hw0 |]. split; [| reflexivity].
    split; [reflexivity |]. split.
    + exists []. cbn. rewrite app_nil_r. split; [reflexivity | constructor].
    + exists [s]. split; [reflexivity |].
      rewrite list_elem_of_singleton. congruence.
  - intros err w0 Hw0. split; [exact Hw0 |]. split; [| reflexivity].
    split; [reflexivity |].
    split; [exists [] | exists []]; cbn; rewrite app_nil_r;
      (split; [reflexivity |]); [constructor | apply not_elem_of_nil].
  - intros r w0 Hr Hw0. split; [exact Hw0 |]. split; [| reflexivity].
    split; [reflexivity |]. split.
    + exists [r]. split; [reflexivity |]. constructor; [exact Hr | constructor].
    + exists []. cbn. rewrite app_nil_r.
      split; [reflexivity | apply not_elem_of_nil].
  - intros path text w0 [Hp1 Hp2] Hw0. cbn.
    split; [rewrite lookup_insert_ne by congruence; exact Hw0 |].
    split; [| rewrite lookup_insert_ne by congruence; reflexivity].
    split; [reflexivity |].
    split; [exists [] | exists []]; cbn; rewrite app_nil_r;
      (split; [reflexivity |]); [constructor | apply not_elem_of_nil].
  - intros s Hs. exact Hs.
  - intros r Hr. exact Hr.
  - split; split; discriminate.
  - intros w0 Hw0. rewrite Hw0. reflexivity.
  - discriminate.
Qed.

Lemma main_without_template_witness :
  truthy (getenv (environ keyed_world) "GITHUB_TOKEN")
  && truthy (getenv (environ keyed_world) "GITHUB_USERNAME") = true /\
  no_publish keyed_world (main keyed_world).2 /\
  files (main keyed_world).2 !! "index.html" = files keyed_world !! "index.html" /\
  files (main keyed_world).2 !! TEMPLATE = None.
Proof.
  split; [reflexivity |].
  apply (main_without_template keyed_world). reflexivity.
Defined.

End MainFrame.

Section MainSteps.

Lemma main_body_steps :
  main_body =
  (prices ← fetch_crypto_prices;
   fg ← fetch_fear_greed_index;
   week_range ← (fun w => (get_week_range (now w), w));
   print (nl +:+ "📅 Newsletter week: " +:+ week_range.1 +:+ " – "
          +:+ week_range.2);;
   template_exists ← path_exists TEMPLATE;
   (if template_exists : bool
    then publish_steps prices fg week_range
    else
      print "⚠️  newsletter_template.html not found. Skipping HTML generation.");;
   social_steps prices fg week_range).
Proof. reflexivity. Qed.

Lemma bind_ok {A B} (c : M A) (k : A -> M B) (w w1 : world) (a : A) :
  c w = (Ok a, w1) -> (c ≫= k) w = k a w1.
Proof. intros H. unfold mbind, M_bind. now rewrite H. Qed.

Lemma bind_raise {A B} (c : M A) (k : A -> M B) (w w1 : world) (e : exn) :
  c w = (Raise e, w1) -> (c ≫= k) w = (Raise e, w1).
Proof. intros H. unfold mbind, M_bind. now rewrite H. Qed.


(** After a run of it, [deploy_to_github] has written no file, and has
    sent one request when the first one fails and two otherwise. *)
Lemma deploy_to_github_world (html github_token github_username : string)
    (w : world) :
  files (deploy_to_github html github_token github_username w).2 = files w /\
  environ (deploy_to_github html github_token github_username w).2
  = environ w /\
  sent (deploy_to_github html github_token github_username w).2
  = sent w ++
    match contents_api w with
    | Raise _ => [deploy_get github_token github_username]
    | Ok document =>
        [deploy_get github_token github_username;
         deploy_put html github_token github_username
           (default "" (document !! "sha")) (now w)]
    end.
Proof.
  rewrite deploy_to_github_unfold. cbv zeta.
  destruct (contents_api w) as [document | e]; [| repeat split].
  destruct (update_api w) as [[status_code body] | e].
  - destruct ((status_code =? 200) || (status_code =? 201));
      [| destruct body];
      cbn [fst snd files environ sent set_sent set_stdout];
      rewrite <- app_assoc; repeat split.
  - cbn [fst snd files environ sent set_sent set_stdout].
    rewrite <- app_assoc. repeat split.
Qed.

(** The social steps send nothing and leave the page as it is. *)
Lemma social_steps_world (prices : gmap string (gmap string pynum))
    (fg : fear_greed) (week_range : string * string) (w : world) :
  sent (social_steps prices fg week_range w).2 = sent w /\
  files (social_steps prices fg week_range w).2 !! "index.html"
  = files w !! "index.html".
Proof.
  assert (H : keeps (fun _ => True)
                (fun w w' => sent w' = sent w
                             /\ files w' !! "index.html"
                                = files w !! "index.html")
                (social_steps prices fg week_range) (fun _ => True)).
  { apply keeps_social_steps
      with (line_ok := fun _ => True) (path_ok := fun path => path <> "index.html").
    - intros w0. split; reflexivity.
    - intros w1 w2 w3 [S1 F1] [S2 F2]. split; congruence.
    - intros s w0 _ _. repeat split.
    - intros path text w0 Hp _. split; [exact Logic.I |].
      split; [reflexivity |]. cbn. now rewrite lookup_insert_ne.
    - intros s _. exact Logic.I.
    - split; discriminate. }
  exact (proj1 (proj2 (H w Logic.I))).
Qed.

Local Ltac run :=
  unfold mbind, mret, M_bind, M_ret, result_bind, print, call, lift,
    read_file, write_file, path_exists, getitem, first_item;
  cbn [set_stdout set_stderr set_sent set_files
       environ files stdout stderr sent now price_api fear_greed_api
       contents_api update_api read_error write_error fst snd].

Lemma truthy_some (s : string) : s <> "" -> truthy (Some s) = true.
Proof. destruct s; [congruence | reflexivity]. Qed.



Lemma fetch_crypto_prices_world (w : world) :
  files (fetch_crypto_prices w).2 = files w /\
  stderr (fetch_crypto_prices w).2 = stderr w /\
  now (fetch_crypto_prices w).2 = now w /\
  fear_greed_api (fetch_crypto_prices w).2 = fear_greed_api w /\
  sent (fetch_crypto_prices w).2 = sent w ++ [PRICE_REQUEST].
Proof.
  rewrite fetch_crypto_prices_unfold. cbv zeta.
  destruct (price_api w) as [data | e]; [| repeat split].
  destruct (format_prices data); repeat split.
Qed.

Lemma fetch_fear_greed_index_world (w : world) :
  files (fetch_fear_greed_index w).2 = files w /\
  stderr (fetch_fear_greed_index w).2 = stderr w /\
  now (fetch_fear_greed_index w).2 = now w /\
  sent (fetch_fear_greed_index w).2 = sent w ++ [FEAR_GREED_REQUEST].
Proof.
  rewrite fetch_fear_greed_index_unfold. cbv zeta.
  destruct (fear_greed_api w) as [data | e]; [| repeat split].
  destruct (data !! "data") as [[| entry entries] |];
    [repeat split | | repeat split].
  destruct (entry !! "value") as [text |]; [| repeat split].
  destruct (int_of_str text); [| repeat split].
  destruct (entry !! "value_classification"); repeat split.
Qed.




End MainSteps.

(** ** The texts of prices and changes *)

Section ChangeSign.

Lemma format_float_f_sign (spec : format_spec) (f : float) :
  format_float_f spec f
  = sign_text (spec_plus spec) (sign_bit f) +:+ unsigned_text spec f.
Proof.
  unfold format_float_f, sign_bit, unsigned_text.
  destruct (Prim2SF f); reflexivity.
Qed.

Lemma gt_zero_sign_bit (f : float) :
  gt_zero (PyFloat f) = true -> sign_bit f = false.
Proof.
  unfold gt_zero, sign_bit. rewrite ltb_spec.
  change (Prim2SF 0) with (S754_zero false).
  unfold SFltb, SFcompare.
  destruct (Prim2SF f) as [s | s | | s m e]; try discriminate;
    destruct s; try discriminate; reflexivity.
Qed.

Lemma unsigned_text_abs (spec : format_spec) (f : float) :
  unsigned_text spec (PrimFloat.abs f) = unsigned_text spec f
  /\ sign_bit (PrimFloat.abs f) = false.
Proof.
  unfold unsigned_text, sign_bit. rewrite abs_spec.
  destruct (Prim2SF f); split; reflexivity.
Qed.

(** X23.  For a change that is a float, the thread shows it in the
    [+.1f] presentation as a sign, [-] when the sign bit is set and [+]
    otherwise, followed by its text without sign, and the caption shows
    exactly that text without sign for its absolute value.  A change
    that the thread shows with the sign [-] has the red mark in the
    thread and the word [down] in the caption. *)
Theorem change_sign_and_direction (f : float) :
  py_format "+.1f" (PyFloat f)
  = Ok ((if sign_bit f then "-" else "+") +:+ unsigned_text CHANGE_SPEC f) /\
  py_format ".1f" (py_abs (PyFloat f))
  = Ok (unsigned_text CHANGE_SPEC f) /\
  (sign_bit f = true ->
   thread_indicator (PyFloat f) = "🔴"
   /\ caption_indicator (PyFloat f) = "down").
Proof.
  split; [| split].
  - rewrite (py_format_f "+.1f" CHANGE_SPEC (PyFloat f) f)
      by (discriminate || reflexivity).
    rewrite format_float_f_sign. unfold sign_text. cbn [spec_plus CHANGE_SPEC].
    destruct (sign_bit f); reflexivity.
  - rewrite (py_format_f ".1f" MAGNITUDE_SPEC (py_abs (PyFloat f))
               (PrimFloat.abs f))
      by (discriminate || reflexivity).
    rewrite format_float_f_sign.
    destruct (unsigned_text_abs MAGNITUDE_SPEC f) as [-> ->].
    reflexivity.
  - intros Hs. unfold thread_indicator, caption_indicator.
    destruct (gt_zero (PyFloat f)) eqn:Hgt; [| split; reflexivity].
    rewrite (gt_zero_sign_bit f Hgt) in Hs. discriminate Hs.
Qed.

End ChangeSign.

Section Decimals.

Lemma all_digits_app (a b : string) :
  all_digits (a +:+ b) = all_digits a && all_digits b.
Proof.
  induction a as [| c a IH]; [reflexivity |].
  rewrite append_cons. cbn [all_digits]. now rewrite IH, andb_assoc.
Qed.

Lemma all_digits_zeros (n : nat) : all_digits (zeros n) = true.
Proof. induction n as [| n IH]; [reflexivity | exact IH]. Qed.

Lemma all_digits_uint (u : uint) :
  all_digits (NilEmpty.string_of_uint u) = true.
Proof. induction u; cbn; auto. Qed.

Lemma all_digits_str_int (n : Z) : 0 <= n -> all_digits (str_int n) = true.
Proof.
  intros Hn. unfold str_int. destruct n as [| p | p]; [reflexivity | | lia].
  cbn [Z.to_int NilZero.string_of_int]. unfold NilZero.string_of_uint.
  destruct (Pos.to_uint p) eqn:Hu; [reflexivity | ..];
    rewrite <- Hu; apply all_digits_uint.
Qed.

Lemma all_digits_take (k : nat) (s : string) :
  all_digits s = true -> all_digits (str_take k s) = true.
Proof.
  revert s. induction k as [| k IH]; intros [| c s] H; try reflexivity.
  cbn in *. apply andb_true_iff in H as [Hc H]. now rewrite Hc, IH.
Qed.

Lemma all_digits_drop (k : nat) (s : string) :
  all_digits s = true -> all_digits (str_drop k s) = true.
Proof.
  revert s. induction k as [| k IH]; intros [| c s] H; try assumption.
  cbn in *. apply andb_true_iff in H as [Hc H]. now apply IH.
Qed.

Lemma str_drop_length (k : nat) (s : string) :
  String.length (str_drop k s) = (String.length s - k)%nat.
Proof.
  revert s. induction k as [| k IH]; intros [| c s]; cbn; try lia.
  apply IH.
Qed.

Lemma str_take_length (k : nat) (s : string) :
  String.length (str_take k s) = Nat.min k (String.length s).
Proof.
  revert s. induction k as [| k IH]; intros [| c s]; cbn; try lia.
  now rewrite IH.
Qed.

Lemma zeros_length (n : nat) : String.length (zeros n) = n.
Proof. induction n as [| n IH]; [reflexivity | cbn; now rewrite IH]. Qed.

Lemma digits_and_commas_digits (s : string) :
  all_digits s = true -> digits_and_commas s = true.
Proof.
  induction s as [| c s IH]; [reflexivity |]. cbn. intros H.
  apply andb_true_iff in H as [Hc H]. now rewrite Hc, IH.
Qed.

Lemma digits_and_commas_app (a b : string) :
  digits_and_commas (a +:+ b) = digits_and_commas a && digits_and_commas b.
Proof.
  induction a as [| c a IH]; [reflexivity |].
  rewrite append_cons. cbn [digits_and_commas]. now rewrite IH, andb_assoc.
Qed.

Lemma digits_and_commas_group3 (fuel : nat) (s : string) :
  all_digits s = true -> digits_and_commas (group3 fuel s) = true.
Proof.
  revert s. induction fuel as [| fuel IH]; intros s H;
    [now apply digits_and_commas_digits |].
  cbn [group3]. destruct (3 <? String.length s)%nat;
    [| now apply digits_and_commas_digits].
  rewrite !digits_and_commas_app, IH by now apply all_digits_take.
  cbn. apply digits_and_commas_digits. now apply all_digits_drop.
Qed.

Lemma group3_not_empty (fuel : nat) (s : string) :
  s <> "" -> group3 fuel s <> "".
Proof.
  revert s. induction fuel as [| fuel IH]; intros s H; [exact H |].
  cbn [group3]. destruct (3 <? String.length s)%nat eqn:Hl; [| exact H].
  apply Nat.ltb_lt in Hl.
  assert (Ht : str_take (String.length s - 3) s <> "").
  { intros Ht. apply (f_equal String.length) in Ht.
    rewrite str_take_length in Ht. cbn in Ht. lia. }
  specialize (IH _ Ht).
  destruct (group3 fuel (str_take (String.length s - 3) s));
    [congruence | discriminate].
Qed.

Lemma round_half_even_nonneg (n d : Z) :
  0 <= n -> 0 < d -> 0 <= round_half_even n d.
Proof.
  intros Hn Hd. unfold round_half_even.
  pose proof (Z.div_pos n d Hn Hd).
  repeat match goal with
         | |- context [if ?c then _ else _] => destruct c
         end; lia.
Qed.

Lemma scaled_round_nonneg (m : positive) (e p : Z) :
  0 <= p -> 0 <= scaled_round m e p.
Proof.
  intros Hp. unfold scaled_round. destruct (0 <=? e) eqn:He.
  - apply Z.leb_le in He.
    pose proof (Z.pow_nonneg 2 e ltac:(lia)).
    pose proof (Z.pow_nonneg 10 p ltac:(lia)). nia.
  - apply Z.leb_gt in He. apply round_half_even_nonneg.
    + pose proof (Z.pow_nonneg 10 p ltac:(lia)). nia.
    + apply Z.pow_pos_nonneg; lia.
Qed.

(** The text of a non-negative number in the fixed presentation: an
    integer part, and after the point as many digits as the precision. *)
Lemma fixed_text_parts (spec : format_spec) (n : Z) :
  0 <= n ->
  exists ip fp,
    fixed_text spec n
    = ip +:+ (match spec_precision spec with
              | O => ""
              | S _ => "." +:+ fp
              end) /\
    ip <> "" /\ digits_and_commas ip = true /\
    String.length fp = spec_precision spec /\ all_digits fp = true.
Proof.
  intros Hn. unfold fixed_text.
  set (p := spec_precision spec).
  set (s := zeros (S p - String.length (str_int n)) +:+ str_int n).
  assert (Hs : all_digits s = true).
  { subst s. rewrite all_digits_app, all_digits_zeros.
    now apply all_digits_str_int. }
  assert (Hl : (p < String.length s)%nat).
  { subst s. rewrite append_length, zeros_length. lia. }
  set (ip := str_take (String.length s - p) s).
  assert (Hip : ip <> "").
  { intros H. apply (f_equal String.length) in H. subst ip.
    rewrite str_take_length in H. cbn in H. lia. }
  exists (if spec_comma spec then group3 (String.length ip) ip else ip),
    (str_drop (String.length s - p) s).
  split; [| split; [| split; [| split]]].
  - destruct p; [symmetry; apply append_empty_r | reflexivity].
  - destruct (spec_comma spec); [now apply group3_not_empty | exact Hip].
  - destruct (spec_comma spec);
      [apply digits_and_commas_group3 | apply digits_and_commas_digits];
      now apply all_digits_take.
  - rewrite str_drop_length. lia.
  - now apply all_digits_drop.
Qed.

(** X24.  For each presentation that the script uses and every
    value that converts to a float that is a number, the text is the
    sign, an integer part that is not empty and holds only digits and
    commas, and, when the precision is not zero, a point followed by
    exactly as many digits as the precision. *)
Theorem price_text_decimals (spec : string) (sp : format_spec) (x : pynum)
    (f : float) :
  spec ∈ SPECS ->
  parse_spec spec = Some sp ->
  to_float x = Ok f ->
  is_number f = true ->
  exists ip fp,
    py_format spec x
    = Ok (sign_text (spec_plus sp) (sign_bit f) +:+ ip
          +:+ (match spec_precision sp with
               | O => ""
               | S _ => "." +:+ fp
               end)) /\
    ip <> "" /\ digits_and_commas ip = true /\
    String.length fp = spec_precision sp /\ all_digits fp = true.
Proof.
  intros Hin Hsp Hf Hnum.
  assert (Hne : spec <> "").
  { intros ->. unfold SPECS in Hin.
    repeat (apply elem_of_cons in Hin; destruct Hin as [Hin | Hin];
            [discriminate Hin |]).
    apply elem_of_nil in Hin. exact Hin. }
  rewrite (py_format_f spec sp x f Hne Hsp Hf), format_float_f_sign.
  assert (Hu : exists n, 0 <= n /\ unsigned_text sp f = fixed_text sp n).
  { unfold unsigned_text, is_number in *.
    destruct (Prim2SF f) as [s | s | | s m e]; try discriminate Hnum.
    - exists 0. split; [lia | reflexivity].
    - eexists. split; [| reflexivity]. apply scaled_round_nonneg. lia. }
  destruct Hu as (n & Hn & ->).
  destruct (fixed_text_parts sp n Hn) as (ip & fp & -> & Hip & Hdc & Hl & Hd).
  exists ip, fp. repeat split; assumption.
Qed.

Lemma price_text_decimals_witness :
  exists ip fp,
    py_format ",.2f" (PyFloat 67234.5)
    = Ok (sign_text false (sign_bit 67234.5) +:+ ip +:+ "." +:+ fp) /\
    ip <> "" /\ digits_and_commas ip = true /\
    String.length fp = 2%nat /\ all_digits fp = true.
Proof.
  apply (price_text_decimals ",.2f" (mk_spec false true 2)
           (PyFloat 67234.5) 67234.5).
  - unfold SPECS. apply elem_of_cons. right. apply elem_of_cons. now left.
  - reflexivity.
  - reflexivity.
  - reflexivity.
Defined.

End Decimals.
